(** * Hand-history normalizer of the Bitcoin Poker Room

    A shallow embedding of [lib/ppn/utils/handhistory.py] (Python 2): the
    hand values and their comparison, the betting-structure parser, the
    event dispatch of [Generator] and the handlers of
    [GenericPokerEventGenerator], with the end-of-hand resolution of
    [handle_EndEvent]; then the adapters of the engine's cards and hands,
    and the formatter [HandHistoryGenerator] with its two subclasses.

    Conventions of the embedding.
    - A Python [int] is a [Z]; [/] on two ints is the floor division [Z.div].
    - A dict that the code iterates is the list of its items in iteration
      order ([dict K V]); a dict that the code only indexes, or builds, is a
      [gmap]; a Python [set] is a [gset].
    - A dict with string keys read from the engine (an entry of the showdown
      stack) is a record with one optional field per key: [d['k']] raises
      [KeyError] when the field is [None], ['k' in d] tests the field.
    - A generator function is the trace of its body run to the end: the
      events yielded in order, the context it leaves, and whether the body
      returned or raised ([gen]).
    - The converters of [GenericPokerEventGenerator] are callables that may
      raise, as the adapters, their defaults, do: their error ends the
      handler that calls them. *)

From Stdlib Require Import Ascii String.
From stdpp Require Import gmap strings list pretty.

Open Scope Z_scope.

(** ** Exceptions and results *)

Inductive exception :=
  | KeyError
  | AttributeError
  | IndexError
  | TypeError
  | InvalidOperation.

Inductive outcome (A : Type) :=
  | Return (a : A)
  | Raise (e : exception).
Arguments Return {A} a.
Arguments Raise {A} e.

#[global] Instance outcome_ret : MRet outcome := fun A a => Return a.
#[global] Instance outcome_bind : MBind outcome := fun A B f m =>
  match m with
  | Return a => f a
  | Raise e => Raise e
  end.

(** [d[k]] on a dict that is only indexed, and [l[i]] on a list. *)
Definition getitem `{Countable K} {V} (d : gmap K V) (k : K) : outcome V :=
  match d !! k with
  | Some v => Return v
  | None => Raise KeyError
  end.

Definition list_getitem {A} (l : list A) (i : nat) : outcome A :=
  match l !! i with
  | Some x => Return x
  | None => Raise IndexError
  end.

(** [d['k']] on a record of optional keys, and [obj.attr] on an object whose
    attributes are set on the way. *)
Definition key {A} (field : option A) : outcome A :=
  match field with
  | Some v => Return v
  | None => Raise KeyError
  end.

Definition attr {A} (field : option A) : outcome A :=
  match field with
  | Some v => Return v
  | None => Raise AttributeError
  end.

(** [a and b] and [a or b] on conditions that may raise: the right operand is
    evaluated only when the left one does not decide. *)
Definition py_and (a b : outcome bool) : outcome bool :=
  a ≫= fun x : bool => if x then b else mret false.

Definition py_or (a b : outcome bool) : outcome bool :=
  a ≫= fun x : bool => if x then mret true else b.

(** A dict in iteration order. *)
Definition dict (K V : Type) := list (K * V).

(** ** Generators

    [gen E S A]: a computation that yields events of type [E], reads and
    writes a state [S] and ends with an [A] or an exception. The state
    reached and the events yielded before an exception are kept. *)

Definition gen (E S A : Type) := S -> list E * S * outcome A.

#[global] Instance gen_ret {E S} : MRet (gen E S) := fun A a s => ([], s, Return a).
#[global] Instance gen_bind {E S} : MBind (gen E S) := fun A B f m s =>
  match m s with
  | (es, s', Return a) =>
      match f a s' with
      | (es', s'', r) => (es ++ es', s'', r)
      end
  | (es, s', Raise e) => (es, s', Raise e)
  end.

Definition yield {E S} (e : E) : gen E S unit := fun s => ([e], s, Return tt).
Definition get {E S} : gen E S S := fun s => ([], s, Return s).
Definition put {E S} (s : S) : gen E S unit := fun _ => ([], s, Return tt).
Definition lift {E S A} (r : outcome A) : gen E S A := fun s => ([], s, r).

(** [for x in l: body x], threading the loop-carried variables [a]. *)
Fixpoint for_each {E S A B} (l : list B) (body : B -> A -> gen E S A) (a : A)
    : gen E S A :=
  match l with
  | [] => mret a
  | x :: l' => a' ← body x a; for_each l' body a'
  end.

(** The same loop in a plain function, which yields nothing. *)
Fixpoint for_in {A B} (l : list B) (body : B -> A -> outcome A) (a : A)
    : outcome A :=
  match l with
  | [] => mret a
  | x :: l' => a' ← body x a; for_in l' body a'
  end.

(** ** [str.format]

    The replacement fields of a template: [{0}] is positional, [{name}] is a
    keyword. A positional field beyond the arguments raises [IndexError], a
    keyword that was not passed raises [KeyError]. *)

Inductive segment :=
  | Text (c : ascii)
  | Positional (n : nat)
  | Keyword (name : string).

Definition is_digit (c : ascii) : bool :=
  let n := nat_of_ascii c in (48 <=? n)%nat && (n <=? 57)%nat.

Definition digit_value (c : ascii) : nat := nat_of_ascii c - 48.

Fixpoint all_digits (s : string) : bool :=
  match s with
  | EmptyString => true
  | String c s' => is_digit c && all_digits s'
  end.

Fixpoint nat_of_digits (s : string) (acc : nat) : nat :=
  match s with
  | EmptyString => acc
  | String c s' => nat_of_digits s' (10 * acc + digit_value c)
  end.

Definition field_of_name (name : string) : segment :=
  if negb (String.eqb name "") && all_digits name
  then Positional (nat_of_digits name 0)
  else Keyword name.

(** [parse_template s field]: [field] holds the characters read since an
    opening brace, when inside one. *)
Fixpoint parse_template (s : string) (field : option string) : list segment :=
  match s, field with
  | EmptyString, _ => []
  | String "{" s', None => parse_template s' (Some "")
  | String c s', None => Text c :: parse_template s' None
  | String "}" s', Some name => field_of_name name :: parse_template s' None
  | String c s', Some name => parse_template s' (Some (name +:+ String c ""))
  end.

Fixpoint dict_lookup {V} (k : string) (d : dict string V) : option V :=
  match d with
  | [] => None
  | (k', v) :: d' => if String.eqb k k' then Some v else dict_lookup k d'
  end.

Fixpoint render (segs : list segment) (args : list string)
    (kwargs : dict string string) : outcome string :=
  match segs with
  | [] => Return ""
  | Text c :: segs' => rest ← render segs' args kwargs; mret (String c rest)
  | Positional n :: segs' =>
      v ← list_getitem args n;
      rest ← render segs' args kwargs; mret (v +:+ rest)
  | Keyword name :: segs' =>
      v ← key (dict_lookup name kwargs);
      rest ← render segs' args kwargs; mret (v +:+ rest)
  end.

Definition format (template : string) (args : list string)
    (kwargs : dict string string) : outcome string :=
  render (parse_template template None) args kwargs.

(** ** Cards *)

Record Rank := { rank_name : string; rank_abbreviation : string }.
Record Suit := { suit_name : string; suit_abbreviation : string }.

(** [Upcard] and [Downcard] are [Card] with the class attribute [is_faceup]. *)
Record Card := { rank : Rank; suit : Suit; is_faceup : bool }.

Definition Upcard (r : Rank) (s : Suit) : Card := Build_Card r s true.
Definition Downcard (r : Rank) (s : Suit) : Card := Build_Card r s false.

Definition RankAce := Build_Rank "Ace" "A".
Definition RankKing := Build_Rank "King" "K".
Definition RankQueen := Build_Rank "Queen" "Q".
Definition RankJack := Build_Rank "Jack" "J".
Definition RankTen := Build_Rank "Ten" "T".
Definition RankNine := Build_Rank "Nine" "9".
Definition RankEight := Build_Rank "Eight" "8".
Definition RankSeven := Build_Rank "Seven" "7".
Definition RankSix := Build_Rank "Six" "6".
Definition RankFive := Build_Rank "Five" "5".
Definition RankFour := Build_Rank "Four" "4".
Definition RankThree := Build_Rank "Three" "3".
Definition RankTwo := Build_Rank "Two" "2".

Definition SuitClubs := Build_Suit "clubs" "c".
Definition SuitDiamonds := Build_Suit "diamonds" "d".
Definition SuitHearts := Build_Suit "hearts" "h".
Definition SuitSpades := Build_Suit "spades" "s".

(** Equality of two [Rank] tuples. *)
Definition Rank_eq (a b : Rank) : bool :=
  String.eqb (rank_name a) (rank_name b)
  && String.eqb (rank_abbreviation a) (rank_abbreviation b).

(** ** Evaluated hands

    [Hand] is a named tuple [(cards, pokereval_ranking)]; its class says how
    it compares and how it is described. The nine categories derive from
    [HighHand] and inherit its comparison. *)

Inductive hand_class :=
  | HighHand
  | StraightFlush
  | FourOfAKind
  | FullHouse
  | Flush
  | Straight
  | ThreeOfAKind
  | TwoPair
  | OnePair
  | HighCard
  | LowHand.

Record Hand := {
  class_of : hand_class;
  cards : list Card;
  pokereval_ranking : Z
}.

Definition is_high_class (c : hand_class) : bool :=
  match c with
  | LowHand => false
  | _ => true
  end.

Definition HighHand_is_better_than (self other_hand : Hand) : bool :=
  pokereval_ranking other_hand <? pokereval_ranking self.

Definition HighHand_is_worse_than (self other_hand : Hand) : bool :=
  negb (HighHand_is_better_than self other_hand).

Definition HighHand_eq (self other_hand : Hand) : bool :=
  pokereval_ranking self =? pokereval_ranking other_hand.

Definition HighHand_ne (self other_hand : Hand) : bool :=
  negb (HighHand_eq self other_hand).

Definition LowHand_is_better_than (self other_hand : Hand) : bool :=
  pokereval_ranking self <? pokereval_ranking other_hand.

Definition LowHand_is_worse_than (self other_hand : Hand) : bool :=
  negb (LowHand_is_better_than self other_hand).

Definition LowHand_eq (self other_low_hand : Hand) : bool :=
  pokereval_ranking self =? pokereval_ranking other_low_hand.

Definition LowHand_ne (self other_low_hand : Hand) : bool :=
  negb (LowHand_eq self other_low_hand).

(** Method lookup on the class of [self]. *)
Definition is_better_than (self other_hand : Hand) : bool :=
  if is_high_class (class_of self)
  then HighHand_is_better_than self other_hand
  else LowHand_is_better_than self other_hand.

Definition is_worse_than (self other_hand : Hand) : bool :=
  if is_high_class (class_of self)
  then HighHand_is_worse_than self other_hand
  else LowHand_is_worse_than self other_hand.

Definition hand_eq (self other_hand : Hand) : bool :=
  if is_high_class (class_of self)
  then HighHand_eq self other_hand
  else LowHand_eq self other_hand.

(** [self.cards[i].rank.name] *)
Definition card_rank_name (self : Hand) (i : nat) : outcome string :=
  c ← list_getitem (cards self) i; mret (rank_name (rank c)).

Definition StraightFlush_str (self : Hand) : outcome string :=
  c ← list_getitem (cards self) 0;
  if Rank_eq (rank c) RankAce then mret "a Royal Flush"
  else
    low ← card_rank_name self 4;
    high ← card_rank_name self 0;
    format "a straight flush, {low_rank} to {high_rank}" []
      [("low_rank", low); ("high_rank", high)].

Definition FourOfAKind_str (self : Hand) : outcome string :=
  r ← card_rank_name self 0;
  format "four of a kind, {0}s" [r] [].

Definition FullHouse_str (self : Hand) : outcome string :=
  one ← card_rank_name self 0;
  two ← card_rank_name self 3;
  format "a full house, {0}s full of {0}s" []
    [("rank_one", one); ("rank_two", two)].

Definition Flush_str (self : Hand) : outcome string :=
  r ← card_rank_name self 0;
  format "a flush, {0} high" [r] [].

Definition Straight_str (self : Hand) : outcome string :=
  low ← card_rank_name self 4;
  high ← card_rank_name self 0;
  format "a straight, {low_rank} to {high_rank}" []
    [("low_rank", low); ("high_rank", high)].

Definition ThreeOfAKind_str (self : Hand) : outcome string :=
  r ← card_rank_name self 0;
  format "three of a kind, {1}s" [r] [].

Definition TwoPair_str (self : Hand) : outcome string :=
  a ← card_rank_name self 0;
  b ← card_rank_name self 2;
  format "two pair, {0}s and {1}s" [a; b] [].

Definition OnePair_str (self : Hand) : outcome string :=
  r ← card_rank_name self 0;
  format "a pair of {0}s" [r] [].

Definition HighCard_str (self : Hand) : outcome string :=
  r ← card_rank_name self 0;
  format "high card {0}" [r] [].

Definition LowHand_str (self : Hand) : outcome string :=
  mret (String.concat "," (map (fun card => rank_abbreviation (rank card)) (cards self))).

(** [str(hand)]: the description of the hand's own class. [HighHand] itself
    defines none; it is only built as the comparison baseline of a pot and
    never described. *)
Definition hand_str (self : Hand) : option (outcome string) :=
  match class_of self with
  | HighHand => None
  | StraightFlush => Some (StraightFlush_str self)
  | FourOfAKind => Some (FourOfAKind_str self)
  | FullHouse => Some (FullHouse_str self)
  | Flush => Some (Flush_str self)
  | Straight => Some (Straight_str self)
  | ThreeOfAKind => Some (ThreeOfAKind_str self)
  | TwoPair => Some (TwoPair_str self)
  | OnePair => Some (OnePair_str self)
  | HighCard => Some (HighCard_str self)
  | LowHand => Some (LowHand_str self)
  end.


(** ** Regular expressions, as [re.match] runs them

    A backtracking matcher: alternatives are tried in order, [?] and [+] are
    greedy, and a group records the text it matched on the path that
    succeeds. Only the operators of the betting-structure pattern are
    modelled; [+] applies to a character class. [re.match] anchors the
    pattern at the start of the string and lets it end anywhere. *)

Inductive regex :=
  | Chr (c : ascii)
  | Class (p : ascii -> bool)
  | Seq (r1 r2 : regex)
  | Opt (r : regex)
  | Plus (p : ascii -> bool)
  | Group (i : nat) (r : regex).

(** The groups of a match, [m.groups()]: [None] for a group that took no
    part in it. *)
Definition groups := list (option string).

(** The text read between [s] and its suffix [s']. *)
Definition consumed (s s' : string) : string :=
  String.substring 0 (String.length s - String.length s') s.

Fixpoint star_class (p : ascii -> bool) (s : string)
    (k : string -> option groups) : option groups :=
  match s with
  | String c s' =>
      if p c then
        match star_class p s' k with
        | Some g => Some g
        | None => k s
        end
      else k s
  | EmptyString => k s
  end.

Fixpoint rmatch (r : regex) (s : string) (g : groups)
    (k : string -> groups -> option groups) : option groups :=
  match r with
  | Chr c =>
      match s with
      | String c' s' => if Ascii.eqb c c' then k s' g else None
      | EmptyString => None
      end
  | Class p =>
      match s with
      | String c' s' => if p c' then k s' g else None
      | EmptyString => None
      end
  | Seq r1 r2 => rmatch r1 s g (fun s' g' => rmatch r2 s' g' k)
  | Opt r' =>
      match rmatch r' s g k with
      | Some g' => Some g'
      | None => k s g
      end
  | Plus p =>
      match s with
      | String c' s' => if p c' then star_class p s' (fun s'' => k s'' g) else None
      | EmptyString => None
      end
  | Group i r' =>
      rmatch r' s g (fun s' g' => k s' (<[i := Some (consumed s s')]> g'))
  end.

Definition re_match (r : regex) (ngroups : nat) (s : string) : option groups :=
  rmatch r s (replicate ngroups None) (fun _ g => Some g).

Fixpoint literal (s : string) : regex :=
  match s with
  | EmptyString => Opt (Class (fun _ => false))
  | String c EmptyString => Chr c
  | String c s' => Seq (Chr c) (literal s')
  end.

(** [.] matches every character but a newline. *)
Definition any_char (c : ascii) : bool := negb (Ascii.eqb c "010"%char).

(** [(ante-)?([0-9]?\.?[0-9]+)-([0-9]?\.?[0-9]+)-(.+)] *)
Definition betting_structure_re : regex :=
  Seq (Opt (Group 0 (literal "ante-")))
 (Seq (Group 1 (Seq (Opt (Class is_digit)) (Seq (Opt (Chr ".")) (Plus is_digit))))
 (Seq (Chr "-")
 (Seq (Group 2 (Seq (Opt (Class is_digit)) (Seq (Opt (Chr ".")) (Plus is_digit))))
 (Seq (Chr "-")
      (Group 3 (Plus any_char)))))).

(** ** [decimal.Decimal], as far as amounts need it

    A finite non-negative decimal [coefficient * 10 ^ exponent]. Arithmetic
    rounds its result to the 28 significant digits of the default context,
    half to even; [int] drops the fractional digits. *)

Record Decimal := { coefficient : Z; exponent : Z }.

(** [Decimal(s)] for [s] made of digits with at most one point and at least
    one digit; any other text is refused. Signs, exponents and the special
    values are not modelled: the pattern above never captures them. *)
Fixpoint Decimal_digits (s : string) (seen_point : bool) (ndigits : nat)
    (coeff exp : Z) : outcome Decimal :=
  match s with
  | EmptyString =>
      if (0 <? ndigits)%nat then Return (Build_Decimal coeff exp)
      else Raise InvalidOperation
  | String c s' =>
      if is_digit c then
        Decimal_digits s' seen_point (S ndigits)
          (10 * coeff + Z.of_nat (digit_value c))
          (if seen_point then exp - 1 else exp)
      else if Ascii.eqb c "." && negb seen_point then
        Decimal_digits s' true ndigits coeff exp
      else Raise InvalidOperation
  end.

Definition Decimal_of_string (s : string) : outcome Decimal :=
  Decimal_digits s false 0 0 0.

Definition prec : Z := 28.

Fixpoint count_digits (fuel : nat) (c : Z) : Z :=
  match fuel with
  | O => 0
  | S fuel' => if c <? 10 then 1 else 1 + count_digits fuel' (c / 10)
  end.

(** The number of decimal digits of [c >= 0]; a number has no more decimal
    digits than binary ones. *)
Definition num_digits (c : Z) : Z := count_digits (S (Z.to_nat (Z.log2 c))) c.

(** Rounding to the context's precision ([Decimal._fix], [ROUND_HALF_EVEN]). *)
Definition Decimal_fix (d : Decimal) : Decimal :=
  let n := num_digits (coefficient d) in
  if n <=? prec then d
  else
    let unit := 10 ^ (n - prec) in
    let q := coefficient d / unit in
    let r := coefficient d mod unit in
    let q' := if (unit <? 2 * r) || ((2 * r =? unit) && Z.odd q) then q + 1 else q in
    Build_Decimal q' (exponent d + (n - prec)).

(** [d * n] for an int [n >= 0]. *)
Definition Decimal_mul_int (d : Decimal) (n : Z) : Decimal :=
  Decimal_fix (Build_Decimal (coefficient d * n) (exponent d)).

(** [int(d)] *)
Definition Decimal_int (d : Decimal) : Z :=
  if 0 <=? exponent d then coefficient d * 10 ^ exponent d
  else coefficient d / 10 ^ (- exponent d).

(** ** Betting structures *)

Definition FIXED_LIMIT : string := "Limit".
Definition POT_LIMIT : string := "Pot Limit".
Definition NO_LIMIT : string := "No Limit".

Record BettingStructure := {
  limit : string;
  small_blind : Z;
  big_blind : Z
}.

Definition amount_string_to_int (amount_string : string) (scale_factor : Z)
    : outcome Z :=
  d ← Decimal_of_string amount_string;
  mret (Decimal_int (Decimal_mul_int d scale_factor)).

Definition LIMIT_MAP : dict string string :=
  [("limit", FIXED_LIMIT); ("no-limit", NO_LIMIT); ("pot-limit", POT_LIMIT)].

(** [re.match(...)] is [None] when the pattern does not match, and
    [None.groups()] raises [AttributeError]. The last three groups are the
    two amounts and the limit keyword; they take part in every match of the
    pattern, so that the last branch below is never reached. *)
Definition parse_betting_structure (betting_structure : string)
    : outcome BettingStructure :=
  match re_match betting_structure_re 4 betting_structure with
  | None => Raise AttributeError
  | Some g =>
      match g with
      | [_; Some small_blind; Some big_blind; Some limit] =>
          l ← key (dict_lookup limit LIMIT_MAP);
          sb ← amount_string_to_int small_blind 100;
          bb ← amount_string_to_int big_blind 100;
          mret (Build_BettingStructure l sb bb)
      | _ => Raise TypeError
      end
  end.

(** ** Values carried by the events *)

Record Player := {
  player_id : Z;
  name : string;
  seat_number : Z;
  chips : Z
}.

Record BestHands := { high : option Hand; low : option Hand }.

Record ResolvedPot := {
  pot_amount : Z;
  eligible_players : list Z;
  winners : dict Z Z
}.

(** The [amount] of a "collected" event is whatever the handler passes: the
    int of a share, or a list of strings. *)
Inductive pyvalue :=
  | Int (z : Z)
  | StrList (l : list string).

(** ** Narrative events *)

Inductive event :=
  | HandStarted (hand_id hand_timestamp : Z) (variant : string)
      (betting_structure : BettingStructure) (players : list Player)
  | PlayerPostedSmallBlind (player_id amount : Z)
  | PlayerPostedBigBlind (player_id amount : Z)
  | PlayerPostedBigAndSmallBlinds (player_id big_blind_amount small_blind_amount : Z)
  | PlayerPostedAnte (player_id amount : Z)
  | CardsDealtToPlayer (player_id : Z) (cards : list Card)
  | PreflopRoundStarted
  | FlopDealt (flop_cards : list Card)
  | TurnDealt (turn_card : Card)
  | RiverDealt (river_card : Card)
  | Showdown
  | PlayerCalled (player_id amount : Z)
  | PlayerChecked (player_id : Z)
  | PlayerFolded (player_id : Z)
  | PlayerRaised (player_id by_amount to_amount : Z)
  | PlayerWentAllIn (player_id : Z)
  | UncalledBetReturnedToPlayer (player_id amount : Z)
  | PlayerShowedHand (player_id : Z) (cards : list Card) (high_hand low_hand : option Hand)
  | PlayerMuckedHand (player_id : Z) (cards : list Card) (high_hand low_hand : option Hand)
  | PlayerCollectedFromSidePot (player_id : Z) (amount : pyvalue) (side_pot_index : Z)
  | PlayerCollectedFromMainPot (player_id : Z) (amount : pyvalue)
  | HandCanceled
  | HandEnded (pots : list ResolvedPot) (player_rake : gmap Z Z).

(** ** The context of a hand

    [Context] is an empty class; the attributes are set while the hand is
    processed, and reading one that was not set raises [AttributeError].
    [context_small_blind] and [context_big_blind] are [context.small_blind]
    and [context.big_blind]. *)

Record Context := {
  player_names : option (gmap Z string);
  hand_timestamp : option Z;
  context_small_blind : option Z;
  context_big_blind : option Z;
  player_cards : option (gmap Z (list Card))
}.

Definition Context_new : Context := Build_Context None None None None None.

Definition set_blinds (sb bb : Z) (c : Context) : Context :=
  Build_Context (player_names c) (hand_timestamp c) (Some sb) (Some bb) (player_cards c).

Definition set_player_cards (pc : gmap Z (list Card)) (c : Context) : Context :=
  Build_Context (player_names c) (hand_timestamp c) (context_small_blind c)
    (context_big_blind c) (Some pc).

(** [sys.maxint] of a 64-bit build. *)
Definition sys_maxint : Z := 9223372036854775807.

Section Normalizer.

(** The engine's own representation of a set of cards and of a best hand;
    the generator is handed the callables that decode them, which may
    raise. *)
Context {pokercards pokereval_hand : Type}.

(** ** Engine events *)

(** The [side_pots] dict of the game state; only [pots] is read. *)
Record side_pots_dict := { pots : option (list (list Z)) }.

(** An entry of the showdown stack, one optional field per key. *)
Record stack_entry := {
  type : option string;
  serial2best : option (dict Z (dict string pokereval_hand));
  side_pots : option side_pots_dict;
  serial2rake : option (dict Z Z);
  serials : option (list Z);
  pot : option Z;
  serial2share : option (dict Z Z);
  serial : option Z;
  uncalled : option Z;
  chips_left : option Z
}.

Inductive engine_event :=
  | GameEvent (level hand_id hands_count hand_timestamp : Z)
      (variant betting_structure : string) (players : list Z)
      (button_seat : Z) (player_chips : gmap Z Z)
  | RoundEvent (round_name : string) (community_cards : pokercards)
      (dealt_cards : option (dict Z pokercards))
  | BlindEvent (player_id blind_amount dead_amount : Z)
  | AnteEvent (player_id ante_amount : Z)
  | AllInEvent (player_id : Z)
  | CallEvent (player_id call_amount : Z)
  | CheckEvent (player_id : Z)
  | FoldEvent (player_id : Z)
  | RaiseEvent (player_id raise_to_amount pay_amount raise_by_amount : Z)
  | ShowdownEvent (community_cards : pokercards) (player_cards : dict Z pokercards)
  | CanceledEvent (player_id returned_amount : Z)
  | EndEvent (winners : list Z) (showdown_stack : list stack_entry).

(** ** [PokerEngineEventGenerator]

    A raw record is a tuple: a label, then the positional fields. *)

Inductive field :=
  | FInt (z : Z)
  | FStr (s : string)
  | FInts (l : list Z)
  | FChips (d : gmap Z Z)
  | FCards (c : pokercards)
  | FPockets (d : option (dict Z pokercards))
  | FStack (l : list stack_entry).




(** ** [Generator]

    [generate_from_event] looks the handler up by the name of the event's
    class. The lookup and the call are inside the [try]; when the handler is
    a generator function the call only builds the generator, and its body
    runs later, while the caller iterates, outside the [try]. A handler that
    is a plain function, as the ones that the observer's and the player's
    formatters define for dealt cards, runs inside the [try] and returns
    [None], for which [()] is returned. *)

Inductive method (I E S : Type) :=
  | GeneratorFunction (body : I -> gen E S unit)
  | Function (body : I -> S -> S * outcome unit).
Arguments GeneratorFunction {I E S} body.
Arguments Function {I E S} body.

Section Generator.
Variables I E S : Type.
(** [event.__class__.__name__] and [getattr(self, ...)] of the subclass. *)
Variable class_name : I -> string.
Variable getattr : string -> option (method I E S).

Definition event_handler (event : I) : string := "handle_" +:+ class_name event.

Definition generate_from_event (event : I) : gen E S unit :=
  match getattr (event_handler event) with
  | None => mret tt
  | Some (GeneratorFunction body) => body event
  | Some (Function body) => fun context =>
      match body event context with
      | (context', Return tt) => ([], context', Return tt)
      | (context', Raise AttributeError) => ([], context', Return tt)
      | (context', Raise e) => ([], context', Raise e)
      end
  end.

Definition generate (events : list I) : gen E S unit :=
  for_each events (fun event _ => generate_from_event event) tt.
End Generator.

(** ** [GenericPokerEventGenerator] *)

Record GenericPokerEventGenerator := {
  pokercards_converter : pokercards -> outcome (list Card);
  pokereval_best_hand_converter : pokereval_hand -> outcome (option Hand)
}.

Variable self : GenericPokerEventGenerator.

Definition _convert_pokercards (cards : pokercards) : outcome (list Card) :=
  pokercards_converter self cards.

Definition _convert_pokereval_best_hand (pokereval_best_hand : pokereval_hand)
    : outcome (option Hand) :=
  pokereval_best_hand_converter self pokereval_best_hand.

(** A handler is a generator over the context. *)
Definition handler := gen event Context unit.

Fixpoint enumerate {A} (start : Z) (l : list A) : list (Z * A) :=
  match l with
  | [] => []
  | x :: l' => (start, x) :: enumerate (start + 1) l'
  end.

Definition handle_GameEvent (hand_id : Z) (variant betting_structure : string)
    (players : list Z) (player_chips : gmap Z Z) : handler :=
  context ← get;
  players ← lift (mapM (fun '(seat_number, player_id) =>
      names ← attr (player_names context);
      name ← getitem names player_id;
      chips ← getitem player_chips player_id;
      mret (Build_Player player_id name seat_number chips))
    (enumerate 0 players));
  betting_structure ← lift (parse_betting_structure betting_structure);
  put (set_blinds (small_blind betting_structure) (big_blind betting_structure) context);;
  hand_timestamp ← lift (attr (hand_timestamp context));
  yield (HandStarted hand_id hand_timestamp variant betting_structure players).

(** [l[-1]] *)
Definition list_last {A} (l : list A) : outcome A :=
  match last l with
  | Some x => Return x
  | None => Raise IndexError
  end.

Definition handle_RoundEvent (round_name : string) (community_cards : pokercards)
    (dealt_cards : option (dict Z pokercards)) : handler :=
  community_cards ← lift (_convert_pokercards community_cards);
  (if String.eqb round_name "pre-flop" then yield PreflopRoundStarted
   else if String.eqb round_name "flop" then yield (FlopDealt community_cards)
   else if String.eqb round_name "turn" then
     card ← lift (list_last community_cards); yield (TurnDealt card)
   else if String.eqb round_name "river" then
     card ← lift (list_last community_cards); yield (RiverDealt card)
   else mret tt);;
  match dealt_cards with
  | Some dealt_cards =>
      for_each dealt_cards (fun '(player_id, cards) _ =>
        cards ← lift (_convert_pokercards cards);
        yield (CardsDealtToPlayer player_id cards)) tt
  | None => mret tt
  end.

Definition handle_BlindEvent (player_id blind_amount dead_amount : Z) : handler :=
  context ← get;
  let small_blind := attr (context_small_blind context) in
  let big_blind := attr (context_big_blind context) in
  both ← lift (py_and (sb ← small_blind; mret (dead_amount =? sb))
                      (bb ← big_blind; mret (blind_amount =? bb)));
  if (both : bool) then
    yield (PlayerPostedBigAndSmallBlinds player_id blind_amount dead_amount)
  else
    small ← lift (py_or (sb ← small_blind; mret (blind_amount =? sb))
                        (bb ← big_blind; mret (blind_amount <=? bb / 2)));
    if (small : bool) then
      yield (PlayerPostedSmallBlind player_id blind_amount)
    else
      big ← lift (bb ← big_blind; mret (blind_amount <=? bb));
      if (big : bool) then
        yield (PlayerPostedBigBlind player_id blind_amount)
      else mret tt.

Definition handle_AnteEvent (player_id ante_amount : Z) : handler :=
  yield (PlayerPostedAnte player_id ante_amount).

Definition handle_AllInEvent (player_id : Z) : handler :=
  yield (PlayerWentAllIn player_id).

Definition handle_CallEvent (player_id call_amount : Z) : handler :=
  yield (PlayerCalled player_id call_amount).

Definition handle_CheckEvent (player_id : Z) : handler :=
  yield (PlayerChecked player_id).

Definition handle_FoldEvent (player_id : Z) : handler :=
  yield (PlayerFolded player_id).

Definition handle_RaiseEvent (player_id raise_to_amount raise_by_amount : Z) : handler :=
  yield (PlayerRaised player_id raise_by_amount raise_to_amount).

(** A dict built by assigning the items in order. *)
Definition dict_of_items `{Countable K} {V} (items : dict K V) : gmap K V :=
  foldl (fun d '(k, v) => <[k := v]> d) ∅ items.

(** The dict comprehension is evaluated, item by item, before the
    assignment to [context.player_cards]. *)
Definition handle_ShowdownEvent (player_cards : dict Z pokercards) : handler :=
  context ← get;
  converted ← lift (mapM (fun '(player_id, cards) =>
                            cards ← _convert_pokercards cards;
                            mret (player_id, cards)) player_cards);
  put (set_player_cards (dict_of_items converted) context);;
  if (1 <? length player_cards)%nat then yield Showdown else mret tt.

Definition handle_CanceledEvent (player_id returned_amount : Z) : handler :=
  yield HandCanceled;;
  yield (UncalledBetReturnedToPlayer player_id returned_amount).

(** *** [handle_EndEvent] *)

(** The dict of best hands, or [None] when the game state has no
    [serial2best]. *)
Definition get_best_hands (end_state : stack_entry)
    : outcome (option (gmap Z BestHands)) :=
  match serial2best end_state with
  | None => mret None
  | Some serial2best =>
      best_hands ← for_in serial2best (fun '(player_id, hands) best_hands =>
        '(high_hand, low_hand) ←
          for_in hands (fun '(hand_type, pokereval_best_hand) '(high_hand, low_hand) =>
            hand ← _convert_pokereval_best_hand pokereval_best_hand;
            if String.eqb hand_type "hi" then mret (hand, low_hand)
            else if String.eqb hand_type "low" then mret (high_hand, hand)
            else mret (high_hand, low_hand))
          (None, None);
        mret (<[player_id := Build_BestHands high_hand low_hand]> best_hands))
      ∅;
      mret (Some best_hands)
  end.

(** The two sets that the closures of [handle_EndEvent] share. *)
Record shown := {
  players_that_showed : gset Z;
  players_that_mucked : gset Z
}.

(** [hand and hand.is_better_than(best) or hand == best]. A hand is a
    non-empty tuple, hence true. When the player has no such hand the
    condition comes down to [None == best], which calls [best.__eq__(None)]
    and fails on [None.pokereval_ranking]. *)
Definition player_has_best_hand (hand : option Hand) (best : Hand) : outcome bool :=
  match hand with
  | Some hand => py_or (mret (is_better_than hand best)) (mret (hand_eq hand best))
  | None => Raise AttributeError
  end.

Definition player_should_show (players_that_showed : gset Z) (player_id : Z)
    (player_hands : BestHands) (best_high_hand best_low_hand : Hand) : outcome bool :=
  let high_hand := high player_hands in
  let low_hand := low player_hands in
  let player_has_best_low_hand := player_has_best_hand low_hand best_low_hand in
  let player_has_best_high_hand := player_has_best_hand high_hand best_high_hand in
  py_and (mret (bool_decide (player_id ∉ players_that_showed)))
         (py_or player_has_best_high_hand player_has_best_low_hand).

(** [context.player_cards[player_id]] *)
Definition context_player_cards (context : Context) (player_id : Z)
    : outcome (list Card) :=
  d ← attr (player_cards context); getitem d player_id.

(** The body of the loop over the eligible players of a pot. *)
Definition show_or_muck (best_hands : gmap Z BestHands)
    (best_high_hand best_low_hand : Hand) (player_id : Z) (sets : shown)
    : gen event Context shown :=
  context ← get;
  player_hands ← lift (getitem best_hands player_id);
  show ← lift (player_should_show (players_that_showed sets) player_id
                 player_hands best_high_hand best_low_hand);
  if (show : bool) then
    cards ← lift (context_player_cards context player_id);
    yield (PlayerShowedHand player_id cards (high player_hands) (low player_hands));;
    mret (Build_shown ({[player_id]} ∪ players_that_showed sets)
                      (players_that_mucked sets))
  else if bool_decide (player_id ∉ players_that_mucked sets) then
    cards ← lift (context_player_cards context player_id);
    yield (PlayerMuckedHand player_id cards (high player_hands) (low player_hands));;
    mret (Build_shown (players_that_showed sets)
                      ({[player_id]} ∪ players_that_mucked sets))
  else mret sets.

(** [if best_hands:] holds for a dict that is not empty. *)
Definition truthy (best_hands : option (gmap Z BestHands)) : option (gmap Z BestHands) :=
  match best_hands with
  | Some d => if bool_decide (d = ∅) then None else Some d
  | None => None
  end.

Definition resolved_pot_events (pot : ResolvedPot)
    (best_hands : option (gmap Z BestHands))
    (player_collected_from_pot : Z -> pyvalue -> event) (sets : shown)
    : gen event Context shown :=
  let best_high_hand := Build_Hand HighHand [] (-1) in
  let best_low_hand := Build_Hand LowHand [] sys_maxint in
  sets ← match truthy best_hands with
         | Some best_hands =>
             for_each (eligible_players pot)
               (show_or_muck best_hands best_high_hand best_low_hand) sets
         | None => mret sets
         end;
  for_each (winners pot) (fun '(player_id, won_amount) _ =>
    yield (player_collected_from_pot player_id (Int won_amount))) tt;;
  mret sets.

Definition get_player_rake (end_state : stack_entry) : outcome (gmap Z Z) :=
  serial2rake ← key (serial2rake end_state);
  mret (foldl (fun player_rake '(playerid, rake_amount) =>
                 <[playerid := rake_amount]> player_rake) ∅ serial2rake).

Definition resolved_pot (resolve_pot_event : stack_entry) : outcome ResolvedPot :=
  eligible_players ← key (serials resolve_pot_event);
  pot_amount ← key (pot resolve_pot_event);
  winners ← key (serial2share resolve_pot_event);
  mret (Build_ResolvedPot pot_amount eligible_players winners).

Definition player_collected_from_side_pot (player_id : Z) (amount : pyvalue)
    (side_pot_index : Z) : event :=
  PlayerCollectedFromSidePot player_id amount side_pot_index.

Definition player_collected_from_main_pot (player_id : Z) (amount : pyvalue) : event :=
  PlayerCollectedFromMainPot player_id amount.

(** The body of the loop over [showdown_stack[1:]], on one [record] of the
    stack. The loop carries the deque [pots], with its left end first, and
    the two sets. *)
Definition resolution_step (best_hands : option (gmap Z BestHands))
    (main_pot_index : Z) (record : stack_entry) (state : list ResolvedPot * shown)
    : gen event Context (list ResolvedPot * shown) :=
  let '(pots, sets) := state in
  let side_pot_index := Z.of_nat (length pots) in
  let player_collected_from_pot :=
    if side_pot_index =? main_pot_index then player_collected_from_main_pot
    else fun player_id amount =>
           player_collected_from_side_pot player_id amount side_pot_index in
  event_type ← lift (key (type record));
  if String.eqb event_type "resolve" then
    pot ← lift (resolved_pot record);
    sets ← resolved_pot_events pot best_hands player_collected_from_pot sets;
    mret (pot :: pots, sets)
  else if String.eqb event_type "uncalled" then
    player_id ← lift (key (serial record));
    amount ← lift (key (uncalled record));
    yield (UncalledBetReturnedToPlayer player_id amount);;
    mret (pots, sets)
  else if String.eqb event_type "left_over" then
    player_id ← lift (key (serial record));
    yield (player_collected_from_pot player_id (StrList ["chips_left"]));;
    mret (pots, sets)
  else mret (pots, sets).

Definition handle_EndEvent (winners : list Z) (showdown_stack : list stack_entry)
    : handler :=
  end_state ← lift (list_getitem showdown_stack 0);
  best_hands ← lift (get_best_hands end_state);
  declared ← lift (side_pots ← key (side_pots end_state); key (pots side_pots));
  let num_pots := Z.of_nat (length (declared : list (list Z))) in
  let main_pot_index := num_pots - 1 in
  state ← for_each (drop 1 showdown_stack)
            (resolution_step best_hands main_pot_index)
            ([], Build_shown ∅ ∅);
  let pots := state.1 in
  player_rake ← lift (get_player_rake end_state);
  yield (HandEnded pots player_rake).

(** *** Dispatch

    The objects that [generate_from_event] may be handed: the typed engine
    events, and anything else, of which only the class name matters. *)

Inductive pyobject :=
  | Engine (e : engine_event)
  | Other (class_name : string).

Definition class_name (o : pyobject) : string :=
  match o with
  | Engine (GameEvent _ _ _ _ _ _ _ _ _) => "GameEvent"
  | Engine (RoundEvent _ _ _) => "RoundEvent"
  | Engine (BlindEvent _ _ _) => "BlindEvent"
  | Engine (AnteEvent _ _) => "AnteEvent"
  | Engine (AllInEvent _) => "AllInEvent"
  | Engine (CallEvent _ _) => "CallEvent"
  | Engine (CheckEvent _) => "CheckEvent"
  | Engine (FoldEvent _) => "FoldEvent"
  | Engine (RaiseEvent _ _ _ _) => "RaiseEvent"
  | Engine (ShowdownEvent _ _) => "ShowdownEvent"
  | Engine (CanceledEvent _ _) => "CanceledEvent"
  | Engine (EndEvent _ _) => "EndEvent"
  | Other class_name => class_name
  end.

(** A handler applied to its event. Reading a field that the object does not
    have raises [AttributeError]; dispatch by class name never gets there. *)
Definition call (o : pyobject) (f : engine_event -> option handler) : handler :=
  match o with
  | Engine e =>
      match f e with
      | Some h => h
      | None => lift (Raise AttributeError)
      end
  | Other _ => lift (Raise AttributeError)
  end.

(** The methods of the class, all of them generator functions. *)
Definition GenericPokerEventGenerator_methods
    : dict string (method pyobject event Context) :=
  [ ("handle_GameEvent", GeneratorFunction (fun o => call o (fun e =>
       match e with
       | GameEvent _ hand_id _ _ variant betting_structure players _ player_chips =>
           Some (handle_GameEvent hand_id variant betting_structure players player_chips)
       | _ => None
       end)));
    ("handle_RoundEvent", GeneratorFunction (fun o => call o (fun e =>
       match e with
       | RoundEvent round_name community_cards dealt_cards =>
           Some (handle_RoundEvent round_name community_cards dealt_cards)
       | _ => None
       end)));
    ("handle_BlindEvent", GeneratorFunction (fun o => call o (fun e =>
       match e with
       | BlindEvent player_id blind_amount dead_amount =>
           Some (handle_BlindEvent player_id blind_amount dead_amount)
       | _ => None
       end)));
    ("handle_AnteEvent", GeneratorFunction (fun o => call o (fun e =>
       match e with
       | AnteEvent player_id ante_amount => Some (handle_AnteEvent player_id ante_amount)
       | _ => None
       end)));
    ("handle_AllInEvent", GeneratorFunction (fun o => call o (fun e =>
       match e with
       | AllInEvent player_id => Some (handle_AllInEvent player_id)
       | _ => None
       end)));
    ("handle_CallEvent", GeneratorFunction (fun o => call o (fun e =>
       match e with
       | CallEvent player_id call_amount => Some (handle_CallEvent player_id call_amount)
       | _ => None
       end)));
    ("handle_CheckEvent", GeneratorFunction (fun o => call o (fun e =>
       match e with
       | CheckEvent player_id => Some (handle_CheckEvent player_id)
       | _ => None
       end)));
    ("handle_FoldEvent", GeneratorFunction (fun o => call o (fun e =>
       match e with
       | FoldEvent player_id => Some (handle_FoldEvent player_id)
       | _ => None
       end)));
    ("handle_RaiseEvent", GeneratorFunction (fun o => call o (fun e =>
       match e with
       | RaiseEvent player_id raise_to_amount _ raise_by_amount =>
           Some (handle_RaiseEvent player_id raise_to_amount raise_by_amount)
       | _ => None
       end)));
    ("handle_ShowdownEvent", GeneratorFunction (fun o => call o (fun e =>
       match e with
       | ShowdownEvent _ player_cards => Some (handle_ShowdownEvent player_cards)
       | _ => None
       end)));
    ("handle_CanceledEvent", GeneratorFunction (fun o => call o (fun e =>
       match e with
       | CanceledEvent player_id returned_amount =>
           Some (handle_CanceledEvent player_id returned_amount)
       | _ => None
       end)));
    ("handle_EndEvent", GeneratorFunction (fun o => call o (fun e =>
       match e with
       | EndEvent winners showdown_stack => Some (handle_EndEvent winners showdown_stack)
       | _ => None
       end))) ].

Definition GenericPokerEventGenerator_getattr (name : string)
    : option (method pyobject event Context) :=
  dict_lookup name GenericPokerEventGenerator_methods.

Definition GenericPokerEventGenerator_generate_from_event (o : pyobject) : handler :=
  generate_from_event pyobject event Context class_name
    GenericPokerEventGenerator_getattr o.

Definition GenericPokerEventGenerator_generate (events : list pyobject) : handler :=
  generate pyobject event Context class_name GenericPokerEventGenerator_getattr events.

End Normalizer.

(** Whether the class of a generator has a handler for an object. *)
Definition has_handler {I E S} (class_name : I -> string)
    (getattr : string -> option (method I E S)) (event : I) : bool :=
  match getattr (event_handler I class_name event) with
  | Some _ => true
  | None => false
  end.

(** Whether the loop of [handle_EndEvent] passes over a record: its type is
    none of the three that the loop tests. *)
Definition passed_over {pokereval_hand} (record : @stack_entry pokereval_hand) : bool :=
  match type record with
  | Some t =>
      negb (String.eqb t "resolve") && negb (String.eqb t "uncalled")
      && negb (String.eqb t "left_over")
  | None => false
  end.

(** The numerals that the pattern of an amount reads in full: digits, or at
    most one digit, a point and digits. *)
Definition is_amount (s : string) : bool :=
  match s with
  | EmptyString => false
  | String c s' =>
      if Ascii.eqb c "." then negb (String.eqb s' "") && all_digits s'
      else
        is_digit c
        && match s' with
           | EmptyString => true
           | String c' frac =>
               if Ascii.eqb c' "." then negb (String.eqb frac "") && all_digits frac
               else all_digits s'
           end
  end.

(** A text without a newline. *)
Fixpoint one_line (s : string) : bool :=
  match s with
  | EmptyString => true
  | String c s' => any_char c && one_line s'
  end.

(** ** Adapters of the engine's cards and hands

    The engine's cards are integers. [pokerengine.pokercards.visible_card],
    [pokerengine.pokercards.is_visible] and [PokerCards.NOCARD] belong to
    the engine: the adapters are read for any such functions and value. *)

Definition POKEREVAL_SUIT_ADAPTER_LOOKUP : gmap Z Suit :=
  list_to_map [(0, SuitHearts); (1, SuitDiamonds); (2, SuitClubs); (3, SuitSpades)].

Definition POKEREVAL_RANK_ADAPTER_LOOKUP : gmap Z Rank :=
  list_to_map
    [(0, RankTwo); (1, RankThree); (2, RankFour); (3, RankFive); (4, RankSix);
     (5, RankSeven); (6, RankEight); (7, RankNine); (8, RankTen); (9, RankJack);
     (10, RankQueen); (11, RankKing); (12, RankAce)].

(** The argument of [pokercards_adapter]: a [PokerCards] object with its
    [cards], another sequence of cards, or [None], which the engine sends
    for the board of a variant without community cards. *)
Inductive pokercards_object :=
  | PokerCards (cards : list Z)
  | CardList (cards : list Z)
  | NoneObject.

Definition POKEREVAL_HAND_ADAPTER_LOOKUP : gmap string hand_class :=
  list_to_map
    [("Nothing", LowHand); ("NoPair", HighCard); ("TwoPair", TwoPair);
     ("Trips", ThreeOfAKind); ("Straight", Straight); ("Flush", Flush);
     ("FlHouse", FullHouse); ("Quads", FourOfAKind); ("StFlush", StraightFlush)].

(** A best hand of the evaluator, [[value, [category, card, ...]]]. *)
Record pokereval_best_hand := {
  hand_value : Z;
  hand_category : string;
  hand_cards : list Z
}.

Section Adapters.

Variable visible_card : Z -> Z.
Variable is_visible : Z -> bool.
Variable NOCARD : Z.

Definition pokereval_card_adapter (pokercard : Z) : outcome Card :=
  let card_index := visible_card pokercard in
  rank ← getitem POKEREVAL_RANK_ADAPTER_LOOKUP (card_index `mod` 13);
  suit ← getitem POKEREVAL_SUIT_ADAPTER_LOOKUP (card_index / 13);
  if is_visible pokercard then mret (Upcard rank suit)
  else mret (Downcard rank suit).

Definition pokercards_adapter (pokercards : pokercards_object) : outcome (list Card) :=
  match pokercards with
  | PokerCards cards =>
      mapM pokereval_card_adapter
        (List.filter (fun pokercard => negb (pokercard =? NOCARD)) cards)
  | CardList cards => mapM pokereval_card_adapter cards
  | NoneObject => Raise TypeError
  end.

(** [pokereval_hand[1][1:]] is a list, not a [PokerCards] object. *)
Definition pokereval_best_hand_adapter (pokereval_hand : pokereval_best_hand)
    : outcome (option Hand) :=
  cards ← pokercards_adapter (CardList (hand_cards pokereval_hand));
  match cards with
  | [] => mret None
  | _ :: _ =>
      let pokereval_ranking := hand_value pokereval_hand in
      let hand_category := hand_category pokereval_hand in
      new ← getitem POKEREVAL_HAND_ADAPTER_LOOKUP hand_category;
      mret (Some (Build_Hand new cards pokereval_ranking))
  end.

(** [GenericPokerEventGenerator()]: the converters default to the adapters. *)
Definition GenericPokerEventGenerator_init
    : @GenericPokerEventGenerator pokercards_object pokereval_best_hand :=
  {| pokercards_converter := pokercards_adapter;
     pokereval_best_hand_converter := pokereval_best_hand_adapter |}.

End Adapters.

(** ** [HandHistoryGenerator]

    The formatter turns the narrative events into the lines of a hand
    history. It has a context of its own, a fresh [Context()], whose
    attributes its handlers set. *)

Module Formatter.

Record Context := {
  all_in : option bool;
  player_names : option (gmap Z string);
  player_cards : option (gmap Z (list Card));
  community_cards : option (list Card)
}.

Definition Context_new : Context := Build_Context None None None None.

Definition set_all_in (b : bool) (c : Context) : Context :=
  Build_Context (Some b) (player_names c) (player_cards c) (community_cards c).

Definition set_player_names (names : gmap Z string) (c : Context) : Context :=
  Build_Context (all_in c) (Some names) (player_cards c) (community_cards c).

Definition set_player_cards (cards : gmap Z (list Card)) (c : Context) : Context :=
  Build_Context (all_in c) (player_names c) (Some cards) (community_cards c).

Definition set_community_cards (cards : list Card) (c : Context) : Context :=
  Build_Context (all_in c) (player_names c) (player_cards c) (Some cards).

(** The three classes of formatters. [ObserverHandHistoryGenerator] inherits
    [__init__]; [PlayerHandHistoryGenerator] defines its own, which sets
    [player_id] and nothing else. *)
Inductive formatter_class :=
  | HandHistoryGenerator
  | ObserverHandHistoryGenerator
  | PlayerHandHistoryGenerator.

Record formatter := {
  class : formatter_class;
  site_name : option string;
  date_format : option string;
  self_player_id : option Z
}.

Definition HandHistoryGenerator_init (site_name date_format : string) : formatter :=
  {| class := HandHistoryGenerator;
     site_name := Some site_name; date_format := Some date_format;
     self_player_id := None |}.

Definition ObserverHandHistoryGenerator_init (site_name date_format : string)
    : formatter :=
  {| class := ObserverHandHistoryGenerator;
     site_name := Some site_name; date_format := Some date_format;
     self_player_id := None |}.

Definition PlayerHandHistoryGenerator_init (player_id : Z) : formatter :=
  {| class := PlayerHandHistoryGenerator;
     site_name := None; date_format := None;
     self_player_id := Some player_id |}.

Definition default_site_name : string := "Bitcoin Poker Network".
Definition default_date_format : string := "%Y/%m/%d - %H:%M:%S".

(** [str] of an int, and of the amount of a "collected" event. The [repr]
    of a string is the string between single quotes, for a string without
    quote, backslash or unprintable character. *)
Definition str_int (z : Z) : string := pretty z.

Definition str_pyvalue (v : pyvalue) : string :=
  match v with
  | Int z => str_int z
  | StrList l =>
      "[" +:+ String.concat ", " (map (fun s => "'" +:+ s +:+ "'") l) +:+ "]"
  end.

Definition Card_str (self : Card) : outcome string :=
  format "{0}{1}" [rank_abbreviation (rank self); suit_abbreviation (suit self)] [].

(** [str.format] for a template with fields of presentation [d], as
    [{hand_id:d}]: the values passed for them are ints, whose presentation
    [d] is their [str]. *)
Definition without_presentation (name : string) : string :=
  let n := String.length name in
  if String.eqb (String.substring (n - 2) 2 name) ":d"
  then String.substring 0 (n - 2) name
  else name.

Definition format_d (template : string) (kwargs : dict string string)
    : outcome string :=
  render (map (fun seg => match seg with
                          | Keyword name => Keyword (without_presentation name)
                          | _ => seg
                          end)
              (parse_template template None))
         [] kwargs.

Definition VARIANT_MAP : gmap string string :=
  list_to_map [("holdem", "Hold'em"); ("omaha", "Omaha"); ("omaha8", "Omaha Hi/Lo")].

Definition newline : string := String "010" "".

Definition is_PlayerWentAllIn (e : event) : bool :=
  match e with
  | PlayerWentAllIn _ => true
  | _ => false
  end.

(** [s -> (s0,s1), (s1,s2), (s2, s3), ...] *)
Definition pairwise {A} (iterable : list A) : list (A * A) :=
  zip iterable (tail iterable).

(** [event.__class__.__name__], for an event or [None]. *)
Definition class_name (o : option event) : string :=
  match o with
  | None => "NoneType"
  | Some (HandStarted _ _ _ _ _) => "HandStarted"
  | Some (PlayerPostedSmallBlind _ _) => "PlayerPostedSmallBlind"
  | Some (PlayerPostedBigBlind _ _) => "PlayerPostedBigBlind"
  | Some (PlayerPostedBigAndSmallBlinds _ _ _) => "PlayerPostedBigAndSmallBlinds"
  | Some (PlayerPostedAnte _ _) => "PlayerPostedAnte"
  | Some (CardsDealtToPlayer _ _) => "CardsDealtToPlayer"
  | Some PreflopRoundStarted => "PreflopRoundStarted"
  | Some (FlopDealt _) => "FlopDealt"
  | Some (TurnDealt _) => "TurnDealt"
  | Some (RiverDealt _) => "RiverDealt"
  | Some Showdown => "Showdown"
  | Some (PlayerCalled _ _) => "PlayerCalled"
  | Some (PlayerChecked _) => "PlayerChecked"
  | Some (PlayerFolded _) => "PlayerFolded"
  | Some (PlayerRaised _ _ _) => "PlayerRaised"
  | Some (PlayerWentAllIn _) => "PlayerWentAllIn"
  | Some (UncalledBetReturnedToPlayer _ _) => "UncalledBetReturnedToPlayer"
  | Some (PlayerShowedHand _ _ _ _) => "PlayerShowedHand"
  | Some (PlayerMuckedHand _ _ _ _) => "PlayerMuckedHand"
  | Some (PlayerCollectedFromSidePot _ _ _) => "PlayerCollectedFromSidePot"
  | Some (PlayerCollectedFromMainPot _ _) => "PlayerCollectedFromMainPot"
  | Some HandCanceled => "HandCanceled"
  | Some (HandEnded _ _) => "HandEnded"
  end.

Section Formatter.

(** [time.strftime(date_format, time.gmtime(timestamp))], and the [str] of a
    hand of the class [HighHand], which defines none: the [repr] of the
    named tuple. Both are the library's. *)
Variable strftime : string -> Z -> string.
Variable Hand_repr : Hand -> string.

Variable self : formatter.

Definition handler := gen string Context unit.

Definition Hand_str (hand : Hand) : outcome string :=
  match hand_str hand with
  | Some description => description
  | None => Return (Hand_repr hand)
  end.

Definition player_action (player_id : Z) (action : string) (context : Context)
    : outcome string :=
  names ← attr (player_names context);
  player_name ← getitem names player_id;
  action_string ← format "{0}: {1}" [player_name; action] [];
  match all_in context with
  | Some true => mret (action_string +:+ " and is all-in")
  | _ => mret action_string
  end.

Definition cards_string (cards : list Card) : outcome string :=
  strings ← mapM Card_str cards;
  format "[{0}]" [String.concat " " strings] [].

(** A hand is a tuple of two fields, hence true; [str(None)] is ['None']. *)
Definition hand_description (high_hand low_hand : option Hand) : outcome string :=
  match high_hand, low_hand with
  | Some high_hand, Some low_hand =>
      high ← Hand_str high_hand;
      low ← Hand_str low_hand;
      format "HI: {0}; LO: {1}" [high; low] []
  | Some high_hand, None => Hand_str high_hand
  | None, Some low_hand => Hand_str low_hand
  | None, None => Return "None"
  end.

(** [yield self.player_action(event.player_id, action_string, context)] *)
Definition yield_player_action (player_id : Z) (action_string : outcome string)
    : handler :=
  context ← get;
  line ← lift (action ← action_string; player_action player_id action context);
  yield line.

Definition handle_HandStarted (hand_id hand_timestamp : Z) (variant : string)
    (betting_structure : BettingStructure) (players : list Player) : handler :=
  date_format ← lift (attr (date_format self));
  let date_string := strftime date_format hand_timestamp in
  header ← lift (
    site_name ← attr (site_name self);
    variant ← getitem VARIANT_MAP variant;
    format_d ("{site_name} Game #{hand_id:d}:  {variant} {limit} "
              +:+ "({small_blind}/{big_blind}) - {date} (UTC)")
      [("site_name", site_name); ("hand_id", str_int hand_id);
       ("variant", variant); ("limit", limit betting_structure);
       ("small_blind", str_int (small_blind betting_structure));
       ("big_blind", str_int (big_blind betting_structure));
       ("date", date_string)]);
  yield header;;
  context ← get;
  put (set_player_names ∅ context);;
  for_each players (fun player _ =>
    context ← get;
    names ← lift (attr (player_names context));
    put (set_player_names (<[player_id player := name player]> names) context);;
    line ← lift (format_d "Seat {seat_number:d}: {name} ({chips} in chips)"
                   [("seat_number", str_int (seat_number player + 1));
                    ("name", name player); ("chips", str_int (chips player))]);
    yield line) tt.

Definition handle_PlayerPostedSmallBlind (player_id amount : Z) : handler :=
  yield_player_action player_id (format "posts small blind {0}" [str_int amount] []).

Definition handle_PlayerPostedBigBlind (player_id amount : Z) : handler :=
  yield_player_action player_id (format "posts big blind {0}" [str_int amount] []).

Definition handle_PlayerPostedBigAndSmallBlinds
    (player_id big_blind_amount small_blind_amount : Z) : handler :=
  yield_player_action player_id
    (format "posts small & big blinds {0}"
       [str_int (big_blind_amount + small_blind_amount)] []).

Definition handle_PlayerPostedAnte (player_id amount : Z) : handler :=
  yield_player_action player_id (format "posts the ante {0}" [str_int amount] []).

Definition handle_PreflopRoundStarted : handler :=
  yield "*** HOLE CARDS ***".

Definition handle_CardsDealtToPlayer (player_id : Z) (cards : list Card) : handler :=
  context ← get;
  player ← lift (names ← attr (player_names context); getitem names player_id);
  let dealt := match player_cards context with
               | Some dealt => dealt
               | None => ∅
               end in
  put (set_player_cards (<[player_id := cards]> dealt) context);;
  line ← lift (cards ← cards_string cards; format "Dealt to {0} {1}" [player; cards] []);
  yield line.

Definition handle_FlopDealt (flop_cards : list Card) : handler :=
  context ← get;
  put (set_community_cards flop_cards context);;
  line ← lift (cards ← cards_string flop_cards; format "*** FLOP *** {0}" [cards] []);
  yield line.

Definition handle_TurnDealt (turn_card : Card) : handler :=
  context ← get;
  board ← lift (attr (community_cards context));
  previous_community_cards ← lift (cards_string board);
  turn_card_string ← lift (cards_string [turn_card]);
  put (set_community_cards (board ++ [turn_card]) context);;
  line ← lift (format "*** TURN *** {0} {1}"
                 [previous_community_cards; turn_card_string] []);
  yield line.

Definition handle_RiverDealt (river_card : Card) : handler :=
  context ← get;
  board ← lift (attr (community_cards context));
  previous_community_cards ← lift (cards_string board);
  river_card_string ← lift (cards_string [river_card]);
  put (set_community_cards (board ++ [river_card]) context);;
  line ← lift (format "*** RIVER *** {0} {1}"
                 [previous_community_cards; river_card_string] []);
  yield line.

Definition handle_PlayerCalled (player_id amount : Z) : handler :=
  yield_player_action player_id (format "calls {0}" [str_int amount] []).

Definition handle_PlayerChecked (player_id : Z) : handler :=
  yield_player_action player_id (Return "checks").

Definition handle_PlayerFolded (player_id : Z) : handler :=
  yield_player_action player_id (Return "folds").

Definition handle_PlayerRaised (player_id by_amount to_amount : Z) : handler :=
  yield_player_action player_id
    (if by_amount =? to_amount then format "bets {0}" [str_int by_amount] []
     else format "raises {0} to {1}" [str_int by_amount; str_int to_amount] []).

Definition handle_UncalledBetReturnedToPlayer (player_id amount : Z) : handler :=
  context ← get;
  line ← lift (names ← attr (player_names context);
               player ← getitem names player_id;
               format "Uncalled bet ({0}) returned to {1}" [str_int amount; player] []);
  yield line.

Definition handle_Showdown : handler :=
  yield "*** SHOW DOWN ***".

Definition handle_PlayerShowedHand (player_id : Z) (cards : list Card)
    (high_hand low_hand : option Hand) : handler :=
  yield_player_action player_id
    (cards ← cards_string cards;
     description ← hand_description high_hand low_hand;
     format "shows {0} ({1})" [cards; description] []).

(** The template ['mucks'] has no field: the cards are read from the
    context and turned into a string that is not used. *)
Definition handle_PlayerMuckedHand (player_id : Z) : handler :=
  context ← get;
  yield_player_action player_id
    (dealt ← attr (player_cards context);
     cards ← getitem dealt player_id;
     cards ← cards_string cards;
     format "mucks" [cards] []).

Definition handle_PlayerCollectedFromSidePot (player_id : Z) (amount : pyvalue)
    (side_pot_index : Z) : handler :=
  context ← get;
  line ← lift (names ← attr (player_names context);
               player ← getitem names player_id;
               format "{0} collected {1} from side pot-{2}"
                 [player; str_pyvalue amount; str_int (side_pot_index + 1)] []);
  yield line.

Definition handle_PlayerCollectedFromMainPot (player_id : Z) (amount : pyvalue)
    : handler :=
  context ← get;
  line ← lift (names ← attr (player_names context);
               player ← getitem names player_id;
               format "{0} collected {1} from main pot" [player; str_pyvalue amount] []);
  yield line.

Definition sum (l : list Z) : Z := foldl Z.add 0 l.

Definition _pot_summary (resolved_pots : list ResolvedPot) (player_rake : gmap Z Z)
    : outcome string :=
  let total_pot := sum (map pot_amount resolved_pots) in
  main_pot ← list_getitem resolved_pots 0;
  pot_summary ← format "Total pot {total_pot} Main pot {main_pot}." []
                  [("total_pot", str_int total_pot);
                   ("main_pot", str_int (pot_amount main_pot))];
  pot_summary ← foldl (fun pot_summary '(side_pot_index, side_pot) =>
                         pot_summary ← pot_summary;
                         side ← format " Side pot-{0} {1}."
                                  [str_int (side_pot_index + 1);
                                   str_int (pot_amount side_pot)] [];
                         mret (pot_summary +:+ side))
                   (Return pot_summary) (enumerate 0 (drop 1 resolved_pots));
  rake ← format " | Rake {0}" [str_int (sum (map snd (map_to_list player_rake)))] [];
  mret (pot_summary +:+ rake).

Definition handle_HandEnded (pots : list ResolvedPot) (player_rake : gmap Z Z)
    : handler :=
  yield "*** SUMMARY ***";;
  line ← lift (_pot_summary pots player_rake);
  yield line;;
  context ← get;
  match community_cards context with
  | Some board =>
      line ← lift (cards ← cards_string board; format "Board {0}" [cards] []);
      yield line
  | None => mret tt
  end.

(** A handler applied to its event; dispatch by class name hands each
    handler the events of its class only. *)
Definition call (o : option event) (f : event -> option handler) : handler :=
  match o with
  | Some e =>
      match f e with
      | Some h => h
      | None => lift (Raise AttributeError)
      end
  | None => lift (Raise AttributeError)
  end.

(** [handle_CardsDealtToPlayer] of the two subclasses, plain functions. The
    observer's is [pass]. The player's calls, for its own cards,
    [super(HandHistoryGenerator, self).handle_CardsDealtToPlayer]: the
    lookup starts after [HandHistoryGenerator], in [Generator], which has no
    such method. *)
Definition Observer_handle_CardsDealtToPlayer (o : option event) (context : Context)
    : Context * outcome unit :=
  (context, Return tt).

Definition Player_handle_CardsDealtToPlayer (o : option event) (context : Context)
    : Context * outcome unit :=
  match o with
  | Some (CardsDealtToPlayer player_id _) =>
      match self_player_id self with
      | Some own =>
          if player_id =? own then (context, Raise AttributeError)
          else (context, Return tt)
      | None => (context, Raise AttributeError)
      end
  | _ => (context, Raise AttributeError)
  end.

Definition HandHistoryGenerator_methods : dict string (method (option event) string Context) :=
  [ ("handle_HandStarted", GeneratorFunction _ _ _ (fun o => call o (fun e =>
       match e with
       | HandStarted hand_id hand_timestamp variant betting_structure players =>
           Some (handle_HandStarted hand_id hand_timestamp variant
                   betting_structure players)
       | _ => None
       end)));
    ("handle_PlayerPostedSmallBlind", GeneratorFunction _ _ _ (fun o => call o (fun e =>
       match e with
       | PlayerPostedSmallBlind player_id amount =>
           Some (handle_PlayerPostedSmallBlind player_id amount)
       | _ => None
       end)));
    ("handle_PlayerPostedBigBlind", GeneratorFunction _ _ _ (fun o => call o (fun e =>
       match e with
       | PlayerPostedBigBlind player_id amount =>
           Some (handle_PlayerPostedBigBlind player_id amount)
       | _ => None
       end)));
    ("handle_PlayerPostedBigAndSmallBlinds",
     GeneratorFunction _ _ _ (fun o => call o (fun e =>
       match e with
       | PlayerPostedBigAndSmallBlinds player_id big_blind_amount small_blind_amount =>
           Some (handle_PlayerPostedBigAndSmallBlinds player_id big_blind_amount
                   small_blind_amount)
       | _ => None
       end)));
    ("handle_PlayerPostedAnte", GeneratorFunction _ _ _ (fun o => call o (fun e =>
       match e with
       | PlayerPostedAnte player_id amount =>
           Some (handle_PlayerPostedAnte player_id amount)
       | _ => None
       end)));
    ("handle_PreflopRoundStarted", GeneratorFunction _ _ _ (fun o => call o (fun e =>
       match e with
       | PreflopRoundStarted => Some handle_PreflopRoundStarted
       | _ => None
       end)));
    ("handle_CardsDealtToPlayer",
     match class self with
     | HandHistoryGenerator =>
         GeneratorFunction _ _ _ (fun o => call o (fun e =>
           match e with
           | CardsDealtToPlayer player_id cards =>
               Some (handle_CardsDealtToPlayer player_id cards)
           | _ => None
           end))
     | ObserverHandHistoryGenerator => Function _ _ _ Observer_handle_CardsDealtToPlayer
     | PlayerHandHistoryGenerator => Function _ _ _ Player_handle_CardsDealtToPlayer
     end);
    ("handle_FlopDealt", GeneratorFunction _ _ _ (fun o => call o (fun e =>
       match e with
       | FlopDealt flop_cards => Some (handle_FlopDealt flop_cards)
       | _ => None
       end)));
    ("handle_TurnDealt", GeneratorFunction _ _ _ (fun o => call o (fun e =>
       match e with
       | TurnDealt turn_card => Some (handle_TurnDealt turn_card)
       | _ => None
       end)));
    ("handle_RiverDealt", GeneratorFunction _ _ _ (fun o => call o (fun e =>
       match e with
       | RiverDealt river_card => Some (handle_RiverDealt river_card)
       | _ => None
       end)));
    ("handle_PlayerCalled", GeneratorFunction _ _ _ (fun o => call o (fun e =>
       match e with
       | PlayerCalled player_id amount => Some (handle_PlayerCalled player_id amount)
       | _ => None
       end)));
    ("handle_PlayerChecked", GeneratorFunction _ _ _ (fun o => call o (fun e =>
       match e with
       | PlayerChecked player_id => Some (handle_PlayerChecked player_id)
       | _ => None
       end)));
    ("handle_PlayerFolded", GeneratorFunction _ _ _ (fun o => call o (fun e =>
       match e with
       | PlayerFolded player_id => Some (handle_PlayerFolded player_id)
       | _ => None
       end)));
    ("handle_PlayerRaised", GeneratorFunction _ _ _ (fun o => call o (fun e =>
       match e with
       | PlayerRaised player_id by_amount to_amount =>
           Some (handle_PlayerRaised player_id by_amount to_amount)
       | _ => None
       end)));
    ("handle_UncalledBetReturnedToPlayer",
     GeneratorFunction _ _ _ (fun o => call o (fun e =>
       match e with
       | UncalledBetReturnedToPlayer player_id amount =>
           Some (handle_UncalledBetReturnedToPlayer player_id amount)
       | _ => None
       end)));
    ("handle_Showdown", GeneratorFunction _ _ _ (fun o => call o (fun e =>
       match e with
       | Showdown => Some handle_Showdown
       | _ => None
       end)));
    ("handle_PlayerShowedHand", GeneratorFunction _ _ _ (fun o => call o (fun e =>
       match e with
       | PlayerShowedHand player_id cards high_hand low_hand =>
           Some (handle_PlayerShowedHand player_id cards high_hand low_hand)
       | _ => None
       end)));
    ("handle_PlayerMuckedHand", GeneratorFunction _ _ _ (fun o => call o (fun e =>
       match e with
       | PlayerMuckedHand player_id _ _ _ => Some (handle_PlayerMuckedHand player_id)
       | _ => None
       end)));
    ("handle_PlayerCollectedFromSidePot",
     GeneratorFunction _ _ _ (fun o => call o (fun e =>
       match e with
       | PlayerCollectedFromSidePot player_id amount side_pot_index =>
           Some (handle_PlayerCollectedFromSidePot player_id amount side_pot_index)
       | _ => None
       end)));
    ("handle_PlayerCollectedFromMainPot",
     GeneratorFunction _ _ _ (fun o => call o (fun e =>
       match e with
       | PlayerCollectedFromMainPot player_id amount =>
           Some (handle_PlayerCollectedFromMainPot player_id amount)
       | _ => None
       end)));
    ("handle_HandEnded", GeneratorFunction _ _ _ (fun o => call o (fun e =>
       match e with
       | HandEnded pots player_rake => Some (handle_HandEnded pots player_rake)
       | _ => None
       end))) ].

Definition getattr (name : string) : option (method (option event) string Context) :=
  dict_lookup name HandHistoryGenerator_methods.

Definition generate_from_event (o : option event) : handler :=
  generate_from_event (option event) string Context class_name getattr o.

(** [do_generate(events, context)]: the loop carries [last_event]. *)
Definition do_generate (events : list event) : handler :=
  last_event ← for_each (pairwise events) (fun '(event, next_event) _ =>
    context ← get;
    put (set_all_in (is_PlayerWentAllIn next_event) context);;
    generate_from_event (Some event);;
    mret (Some next_event)) None;
  context ← get;
  put (set_all_in false context);;
  generate_from_event last_event.

(** The handler that the class of [self] has for each event; the events
    without a handler, and the dealt cards in the two subclasses, give
    nothing. *)
Definition handler_of (e : event) : handler :=
  match e with
  | HandStarted hand_id hand_timestamp variant betting_structure players =>
      handle_HandStarted hand_id hand_timestamp variant betting_structure players
  | PlayerPostedSmallBlind player_id amount =>
      handle_PlayerPostedSmallBlind player_id amount
  | PlayerPostedBigBlind player_id amount =>
      handle_PlayerPostedBigBlind player_id amount
  | PlayerPostedBigAndSmallBlinds player_id big_blind_amount small_blind_amount =>
      handle_PlayerPostedBigAndSmallBlinds player_id big_blind_amount small_blind_amount
  | PlayerPostedAnte player_id amount => handle_PlayerPostedAnte player_id amount
  | CardsDealtToPlayer player_id cards =>
      match class self with
      | HandHistoryGenerator => handle_CardsDealtToPlayer player_id cards
      | _ => mret tt
      end
  | PreflopRoundStarted => handle_PreflopRoundStarted
  | FlopDealt flop_cards => handle_FlopDealt flop_cards
  | TurnDealt turn_card => handle_TurnDealt turn_card
  | RiverDealt river_card => handle_RiverDealt river_card
  | Showdown => handle_Showdown
  | PlayerCalled player_id amount => handle_PlayerCalled player_id amount
  | PlayerChecked player_id => handle_PlayerChecked player_id
  | PlayerFolded player_id => handle_PlayerFolded player_id
  | PlayerRaised player_id by_amount to_amount =>
      handle_PlayerRaised player_id by_amount to_amount
  | PlayerWentAllIn _ => mret tt
  | UncalledBetReturnedToPlayer player_id amount =>
      handle_UncalledBetReturnedToPlayer player_id amount
  | PlayerShowedHand player_id cards high_hand low_hand =>
      handle_PlayerShowedHand player_id cards high_hand low_hand
  | PlayerMuckedHand player_id _ _ _ => handle_PlayerMuckedHand player_id
  | PlayerCollectedFromSidePot player_id amount side_pot_index =>
      handle_PlayerCollectedFromSidePot player_id amount side_pot_index
  | PlayerCollectedFromMainPot player_id amount =>
      handle_PlayerCollectedFromMainPot player_id amount
  | HandCanceled => mret tt
  | HandEnded pots player_rake => handle_HandEnded pots player_rake
  end.

(** ['\n'.join(do_generate(events, Context()))] *)
Definition generate (events : list event) : outcome string :=
  match do_generate events Context_new with
  | (lines, _, Return _) => Return (String.concat newline lines)
  | (_, _, Raise e) => Raise e
  end.

End Formatter.

End Formatter.

(** The player whom the line of an event names, for the events whose
    handler reads nothing of the context but the names. *)
Definition named_player (e : event) : option Z :=
  match e with
  | PlayerPostedSmallBlind player_id _
  | PlayerPostedBigBlind player_id _
  | PlayerPostedBigAndSmallBlinds player_id _ _
  | PlayerPostedAnte player_id _
  | PlayerCalled player_id _
  | PlayerChecked player_id
  | PlayerFolded player_id
  | PlayerRaised player_id _ _
  | UncalledBetReturnedToPlayer player_id _
  | PlayerCollectedFromSidePot player_id _ _
  | PlayerCollectedFromMainPot player_id _ => Some player_id
  | _ => None
  end.

(** ** Vocabulary of the statements *)

Section Vocabulary.

Context {pokercards pokereval_hand : Type}.
#[local] Abbreviation stack_entry := (@stack_entry pokereval_hand).
#[local] Abbreviation engine_event := (@engine_event pokercards pokereval_hand).
#[local] Abbreviation GenericPokerEventGenerator :=
  (@GenericPokerEventGenerator pokercards pokereval_hand).

(** The handler that the class defines for each engine event. *)
Definition handler_of (self : GenericPokerEventGenerator) (e : engine_event) : handler :=
  match e with
  | GameEvent _ hand_id _ _ variant betting_structure players _ player_chips =>
      handle_GameEvent hand_id variant betting_structure players player_chips
  | RoundEvent round_name community_cards dealt_cards =>
      handle_RoundEvent self round_name community_cards dealt_cards
  | BlindEvent player_id blind_amount dead_amount =>
      handle_BlindEvent player_id blind_amount dead_amount
  | AnteEvent player_id ante_amount => handle_AnteEvent player_id ante_amount
  | AllInEvent player_id => handle_AllInEvent player_id
  | CallEvent player_id call_amount => handle_CallEvent player_id call_amount
  | CheckEvent player_id => handle_CheckEvent player_id
  | FoldEvent player_id => handle_FoldEvent player_id
  | RaiseEvent player_id raise_to_amount _ raise_by_amount =>
      handle_RaiseEvent player_id raise_to_amount raise_by_amount
  | ShowdownEvent _ player_cards => handle_ShowdownEvent self player_cards
  | CanceledEvent player_id returned_amount =>
      handle_CanceledEvent player_id returned_amount
  | EndEvent winners showdown_stack => handle_EndEvent self winners showdown_stack
  end.

(** The entries that the engine puts on the showdown stack. *)
Definition game_state_entry (serial2best : option (dict Z (dict string pokereval_hand)))
    (declared_pots : list (list Z)) (serial2rake : dict Z Z) : stack_entry :=
  {| type := Some "game_state"; serial2best := serial2best;
     side_pots := Some {| pots := Some declared_pots |};
     serial2rake := Some serial2rake;
     serials := None; pot := None; serial2share := None;
     serial := None; uncalled := None; chips_left := None |}.

Definition resolve_entry (serials : list Z) (pot : Z) (serial2share : dict Z Z)
    : stack_entry :=
  {| type := Some "resolve"; serial2best := None; side_pots := None;
     serial2rake := None;
     serials := Some serials; pot := Some pot; serial2share := Some serial2share;
     serial := None; uncalled := None; chips_left := None |}.

Definition uncalled_entry (serial uncalled : Z) : stack_entry :=
  {| type := Some "uncalled"; serial2best := None; side_pots := None;
     serial2rake := None; serials := None; pot := None; serial2share := None;
     serial := Some serial; uncalled := Some uncalled; chips_left := None |}.

Definition left_over_entry (serial chips_left : Z) : stack_entry :=
  {| type := Some "left_over"; serial2best := None; side_pots := None;
     serial2rake := None; serials := None; pot := None; serial2share := None;
     serial := Some serial; uncalled := None; chips_left := Some chips_left |}.

Definition has_type (t : string) (record : stack_entry) : bool :=
  match type record with
  | Some t' => String.eqb t' t
  | None => false
  end.

(** The [resolve] records of a stack, in the order of the stack. *)
Definition resolve_records (stack : list stack_entry) : list stack_entry :=
  List.filter (has_type "resolve") stack.

(** The pots declared by the game state, [end_state['side_pots']['pots']]. *)
Definition declared_pots (end_state : stack_entry) : option (list (list Z)) :=
  side_pots ← side_pots end_state; pots side_pots.

(** *** Well-formed stacks

    What the handler reads is there: the best hands of the game state, which
    the converter accepts, its declared pots and its rake, the type of each
    record and the keys of its kind, and, when hands are compared, for each
    eligible player the best hands, the hole cards in the context and a high
    hand that is at least the baseline of a pot. *)

Definition can_reveal (best_hands : gmap Z BestHands) (context : Context)
    (player_id : Z) : bool :=
  match best_hands !! player_id, player_cards context with
  | Some hands, Some cards =>
      match high hands, cards !! player_id with
      | Some h, Some _ => is_high_class (class_of h) && (-1 <=? pokereval_ranking h)
      | _, _ => false
      end
  | _, _ => false
  end.

Definition well_formed_record (best_hands : option (gmap Z BestHands))
    (context : Context) (record : stack_entry) : bool :=
  match type record with
  | None => false
  | Some t =>
      if String.eqb t "resolve" then
        match serials record, pot record, serial2share record with
        | Some eligible, Some _, Some _ =>
            match truthy best_hands with
            | Some best_hands => forallb (can_reveal best_hands context) eligible
            | None => true
            end
        | _, _, _ => false
        end
      else if String.eqb t "uncalled" then
        bool_decide (is_Some (serial record)) && bool_decide (is_Some (uncalled record))
      else if String.eqb t "left_over" then bool_decide (is_Some (serial record))
      else true
  end.

Definition well_formed_stack (self : GenericPokerEventGenerator) (context : Context)
    (stack : list stack_entry) : bool :=
  match stack with
  | [] => false
  | end_state :: records =>
      bool_decide (is_Some (declared_pots end_state))
      && bool_decide (is_Some (serial2rake end_state))
      && match get_best_hands self end_state with
         | Return best_hands => forallb (well_formed_record best_hands context) records
         | Raise _ => false
         end
  end.

(** The events of the cards dealt to the players, in the order of the dict,
    up to the first cards that the converter refuses, and how the loop over
    them ends. *)
Fixpoint dealt_events (self : GenericPokerEventGenerator)
    (dealt_cards : dict Z pokercards) : list event * outcome unit :=
  match dealt_cards with
  | [] => ([], Return tt)
  | (player_id, cards) :: dealt_cards =>
      match pokercards_converter self cards with
      | Return cards =>
          (CardsDealtToPlayer player_id cards :: (dealt_events self dealt_cards).1,
           (dealt_events self dealt_cards).2)
      | Raise error => ([], Raise error)
      end
  end.

(** The cards of each player, converted. *)
Definition converts (self : GenericPokerEventGenerator)
    (cards : dict Z pokercards) (converted : dict Z (list Card)) : Prop :=
  Forall2 (fun item item' =>
             item'.1 = item.1 /\ pokercards_converter self item.2 = Return item'.2)
    cards converted.


(** The event of an [uncalled] record that has its player and its amount. *)
Definition returned_bet (record : stack_entry) : option event :=
  if has_type "uncalled" record then
    match serial record, uncalled record with
    | Some player_id, Some amount => Some (UncalledBetReturnedToPlayer player_id amount)
    | _, _ => None
    end
  else None.

(** The pot that a record puts on the deque, if it puts one. *)
Definition pot_of (record : stack_entry) : option ResolvedPot :=
  if has_type "resolve" record then
    match resolved_pot record with
    | Return pot => Some pot
    | Raise _ => None
    end
  else None.

(** The deque after a record. *)
Definition pushed (record : stack_entry) (pots : list ResolvedPot)
    : list ResolvedPot :=
  match pot_of record with
  | Some pot => pot :: pots
  | None => pots
  end.

End Vocabulary.

(** The kinds of narrative events of the end of a hand. *)
Definition is_collected (e : event) : bool :=
  match e with
  | PlayerCollectedFromSidePot _ _ _ | PlayerCollectedFromMainPot _ _ => true
  | _ => false
  end.

Definition is_uncalled (e : event) : bool :=
  match e with
  | UncalledBetReturnedToPlayer _ _ => true
  | _ => false
  end.

Definition is_hand_ended (e : event) : bool :=
  match e with
  | HandEnded _ _ => true
  | _ => false
  end.

Definition is_showed (player_id : Z) (e : event) : bool :=
  match e with
  | PlayerShowedHand p _ _ _ => p =? player_id
  | _ => false
  end.

Definition is_mucked (player_id : Z) (e : event) : bool :=
  match e with
  | PlayerMuckedHand p _ _ _ => p =? player_id
  | _ => false
  end.

Definition is_show_or_muck (e : event) : bool :=
  match e with
  | PlayerShowedHand _ _ _ _ | PlayerMuckedHand _ _ _ _ => true
  | _ => false
  end.

(** The events of the resolution loop: collections and returned bets, and,
    when hands are compared, shows and mucks. *)
Definition is_resolution_event (compared : bool) (e : event) : bool :=
  is_collected e || is_uncalled e || (compared && is_show_or_muck e).

(** Whether the hands of a pot are compared: [if best_hands:]. *)
Definition hands_compared (best_hands : option (gmap Z BestHands)) : bool :=
  match truthy best_hands with
  | Some _ => true
  | None => false
  end.

(** The number of events of a kind, and whether a player is in a set, as a
    number. *)
Definition count_events (kind : event -> bool) (events : list event) : nat :=
  length (List.filter kind events).

Definition marked (player_id : Z) (players : gset Z) : nat :=
  if bool_decide (player_id ∈ players) then 1%nat else 0%nat.

(** The events, the context and the result of a run. *)
Definition events_of {E S A} (run : list E * S * outcome A) : list E := run.1.1.
Definition context_of {E S A} (run : list E * S * outcome A) : S := run.1.2.
Definition result_of {E S A} (run : list E * S * outcome A) : outcome A := run.2.

(** *** Observations of a run

    [observes P Q m s]: run from the state [s], [m] yields events that
    satisfy [P], leaves the state as it was and, when it returns, returns a
    value that satisfies [Q]. [succeeds m s]: the run returns. *)
Definition observes {E S A} (P : E -> Prop) (Q : A -> Prop)
    (m : gen E S A) (s : S) : Prop :=
  Forall P (events_of (m s))
  /\ context_of (m s) = s
  /\ forall a, result_of (m s) = Return a -> Q a.

Definition succeeds {E S A} (m : gen E S A) (s : S) : Prop :=
  exists a, result_of (m s) = Return a.

(** [keeps player kind m before after]: the events of the kind that [m]
    yields, plus one when the player is in the set [before], are at most
    one and, when [m] returns [a], at most the mark of the player in
    [after a]. *)
Definition keeps {A} (player : Z) (kind : event -> bool)
    (m : gen event Context A) (before : gset Z) (after : A -> gset Z) : Prop :=
  forall context,
    (count_events kind (events_of (m context)) + marked player before <= 1)%nat
    /\ forall a, result_of (m context) = Return a ->
         (count_events kind (events_of (m context)) + marked player before
          <= marked player (after a))%nat.

(** *** Blind classification, in the words of the specification

    First match: dead amount equal to the small blind and posted amount equal
    to the big blind; else posted amount equal to the small blind or at most
    half the big blind; else posted amount at most the big blind; else
    nothing. "At most half" is read on the rationals: twice the posted
    amount is at most the big blind. *)
Definition classify_blind (small_blind big_blind : Z)
    (player_id posted dead : Z) : list event :=
  if (dead =? small_blind) && (posted =? big_blind)
  then [PlayerPostedBigAndSmallBlinds player_id posted dead]
  else if (posted =? small_blind) || (2 * posted <=? big_blind)
  then [PlayerPostedSmallBlind player_id posted]
  else if posted <=? big_blind
  then [PlayerPostedBigBlind player_id posted]
  else [].

(** ** Sample hands

    A generator whose converters are the identity, which never raises, as
    the tests pass it for the cards: the engine's cards are already cards,
    its best hands already hands. *)
Definition identity_generator : @GenericPokerEventGenerator (list Card) (option Hand) :=
  {| pokercards_converter := fun cards => Return cards;
     pokereval_best_hand_converter := fun hand => Return hand |}.

Definition high_card (ranking : Z) : option Hand :=
  Some (Build_Hand HighCard [] ranking).

Definition queen_jack : list Card :=
  [Downcard RankQueen SuitSpades; Downcard RankJack SuitHearts].
Definition nine_six : list Card :=
  [Downcard RankNine SuitHearts; Downcard RankSix SuitHearts].

(** The context after the showdown of players 22 and 23. *)
Definition showdown_context : Context :=
  set_player_cards (<[23 := queen_jack]> (<[22 := nine_six]> ∅)) Context_new.

(** Players 22 and 23 reach the showdown of a hand with two pots, both
    eligible for both; 23 wins them. The side pot is resolved first. *)
Definition two_pot_stack : list (@stack_entry (option Hand)) :=
  [ game_state_entry
      (Some [(22, [("hi", high_card 694100)]); (23, [("hi", high_card 694117)])])
      [[30; 30]; [20; 50]] [(23, 0)];
    resolve_entry [23; 22] 30 [(23, 30)];
    resolve_entry [23; 22] 20 [(23, 20)] ].

(** Player 23 bets, 22 folds: no showdown, the bet is returned and the pot
    collected. *)
Definition fold_stack : list (@stack_entry (option Hand)) :=
  [ game_state_entry None [[37; 37]] [(23, 0)];
    uncalled_entry 23 13;
    resolve_entry [23] 37 [(23, 37)] ].

(** A pot of 51 split between 22 and 23, the odd chip left to 22. *)
Definition left_over_stack : list (@stack_entry (option Hand)) :=
  [ game_state_entry None [[51; 51]] [(22, 0); (23, 0)];
    resolve_entry [22; 23] 51 [(22, 25); (23, 25)];
    left_over_entry 22 1 ].




(** * Properties *)

(** ** Hands *)

Lemma HighHand_is_better_than_spec (a b : Hand) :
  HighHand_is_better_than a b = true <-> pokereval_ranking b < pokereval_ranking a.
Proof. unfold HighHand_is_better_than. apply Z.ltb_lt. Qed.

Lemma LowHand_is_better_than_spec (a b : Hand) :
  LowHand_is_better_than a b = true <-> pokereval_ranking a < pokereval_ranking b.
Proof. unfold LowHand_is_better_than. apply Z.ltb_lt. Qed.

Lemma hand_eq_spec (a b : Hand) :
  hand_eq a b = true <-> pokereval_ranking a = pokereval_ranking b.
Proof.
  unfold hand_eq, HighHand_eq, LowHand_eq.
  destruct (is_high_class (class_of a)); apply Z.eqb_eq.
Qed.

(** C5. Between two high hands [is_better_than] holds exactly when the first
    ranking is strictly greater, between two low hands exactly when it is
    strictly less, and two hands of the same ordering are equal exactly when
    their rankings are equal, whatever cards they carry. *)
Theorem hand_order_follows_ranking (a b : Hand) :
  (is_high_class (class_of a) = true -> is_high_class (class_of b) = true ->
     (is_better_than a b = true <-> pokereval_ranking a > pokereval_ranking b))
  /\ (class_of a = LowHand -> class_of b = LowHand ->
     (is_better_than a b = true <-> pokereval_ranking a < pokereval_ranking b))
  /\ (is_high_class (class_of a) = is_high_class (class_of b) ->
     (hand_eq a b = true <-> pokereval_ranking a = pokereval_ranking b)
     /\ forall cards_a cards_b,
          hand_eq (Build_Hand (class_of a) cards_a (pokereval_ranking a))
                  (Build_Hand (class_of b) cards_b (pokereval_ranking b))
          = hand_eq a b).
Proof.
  split; [|split].
  - intros Ha _. unfold is_better_than. rewrite Ha.
    rewrite HighHand_is_better_than_spec. lia.
  - intros Ha _. unfold is_better_than. rewrite Ha. simpl.
    apply LowHand_is_better_than_spec.
  - intros _. split; [apply hand_eq_spec|].
    intros ca cb. unfold hand_eq, HighHand_eq, LowHand_eq. reflexivity.
Qed.

Lemma hand_order_follows_ranking_witness :
  is_better_than (Build_Hand Flush queen_jack 7) (Build_Hand OnePair nine_six 3) = true
  /\ is_better_than (Build_Hand LowHand queen_jack 3) (Build_Hand LowHand nine_six 7) = true
  /\ hand_eq (Build_Hand Flush queen_jack 7) (Build_Hand Straight nine_six 7) = true.
Proof.
  split; [|split].
  - apply (proj1 (hand_order_follows_ranking
             (Build_Hand Flush queen_jack 7) (Build_Hand OnePair nine_six 3)));
      [reflexivity | reflexivity | simpl; lia].
  - apply (proj1 (proj2 (hand_order_follows_ranking
             (Build_Hand LowHand queen_jack 3) (Build_Hand LowHand nine_six 7))));
      [reflexivity | reflexivity | simpl; lia].
  - apply (proj1 (proj2 (proj2 (hand_order_follows_ranking
             (Build_Hand Flush queen_jack 7) (Build_Hand Straight nine_six 7)))
             eq_refl)).
    reflexivity.
Defined.

(** The descriptions of the tests. *)
Example Flush_str_jack :
  Flush_str (Build_Hand Flush [Build_Card RankJack SuitClubs true] 0)
  = Return "a flush, Jack high".
Proof. reflexivity. Qed.

Example TwoPair_str_tens_fours :
  TwoPair_str (Build_Hand TwoPair
    [Upcard RankTen SuitClubs; Upcard RankTen SuitHearts;
     Upcard RankFour SuitClubs] 0)
  = Return "two pair, Tens and Fours".
Proof. reflexivity. Qed.

(** An index beyond the cards of a hand fails. *)
Lemma card_rank_name_cases (self : Hand) (i : nat) :
  card_rank_name self i = Raise IndexError
  \/ exists c, cards self !! i = Some c /\ card_rank_name self i = Return (rank_name (rank c)).
Proof.
  unfold card_rank_name, list_getitem.
  destruct (cards self !! i) as [c|]; [right; exists c; split; reflexivity | left; reflexivity].
Qed.

(** C10. Describing a [FullHouse] or a [ThreeOfAKind] raises instead of
    returning a string, for every list of cards and every ranking: the
    template of the first has the positional field 0 and is given keywords
    only, the template of the second has the positional field 1 and is given
    one argument. *)
Theorem full_house_and_three_of_a_kind_have_no_description
    (cards : list Card) (ranking : Z) :
  hand_str (Build_Hand FullHouse cards ranking) = Some (Raise IndexError)
  /\ hand_str (Build_Hand ThreeOfAKind cards ranking) = Some (Raise IndexError)
  /\ (forall rank_one rank_two,
        format "a full house, {0}s full of {0}s" []
          [("rank_one", rank_one); ("rank_two", rank_two)] = Raise IndexError)
  /\ (forall r, format "three of a kind, {1}s" [r] [] = Raise IndexError).
Proof.
  assert (Hfull : forall one two,
            format "a full house, {0}s full of {0}s" []
              [("rank_one", one); ("rank_two", two)] = Raise IndexError)
    by (intros; reflexivity).
  assert (Hthree : forall r, format "three of a kind, {1}s" [r] [] = Raise IndexError)
    by (intros; reflexivity).
  repeat split; try assumption.
  - unfold hand_str, FullHouse_str. simpl class_of. f_equal.
    destruct (card_rank_name_cases (Build_Hand FullHouse cards ranking) 0)
      as [-> | (c0 & _ & ->)]; [reflexivity|].
    destruct (card_rank_name_cases (Build_Hand FullHouse cards ranking) 3)
      as [-> | (c3 & _ & ->)]; [reflexivity|].
    apply Hfull.
  - unfold hand_str, ThreeOfAKind_str. simpl class_of. f_equal.
    destruct (card_rank_name_cases (Build_Hand ThreeOfAKind cards ranking) 0)
      as [-> | (c0 & _ & ->)]; [reflexivity|].
    apply Hthree.
Qed.

(** ** Betting structures *)

(** The structures of the tests, and an amount with one digit before the
    point. *)
Example parse_limit_ante_structure :
  parse_betting_structure "ante-10-20-limit"
  = Return (Build_BettingStructure FIXED_LIMIT 1000 2000).
Proof. vm_compute. reflexivity. Qed.

Example parse_no_limit_structure :
  parse_betting_structure "ante-10-20-no-limit"
  = Return (Build_BettingStructure NO_LIMIT 1000 2000).
Proof. vm_compute. reflexivity. Qed.

Example parse_decimal_blind_amounts :
  parse_betting_structure ".10-.25-pot-limit"
  = Return (Build_BettingStructure POT_LIMIT 10 25).
Proof. vm_compute. reflexivity. Qed.

Example parse_one_digit_before_point :
  parse_betting_structure "2.50-5-no-limit"
  = Return (Build_BettingStructure NO_LIMIT 250 500).
Proof. vm_compute. reflexivity. Qed.

(** C8. The documented format lets an amount be any decimal string, but the
    pattern takes at most one digit before the point: 12.5 is a decimal that
    scales to 1250, and the structure that names it is not parsed. *)
Theorem two_digits_before_the_point_are_refused :
  amount_string_to_int "12.5" 100 = Return 1250
  /\ amount_string_to_int "25" 100 = Return 2500
  /\ re_match betting_structure_re 4 "12.5-25-limit" = None
  /\ parse_betting_structure "12.5-25-limit" = Raise AttributeError.
Proof. repeat split; vm_compute; reflexivity. Qed.

(** ** Dispatch *)

Section Dispatch.

Context {pokercards pokereval_hand : Type}.
Variable self : @GenericPokerEventGenerator pokercards pokereval_hand.

(** Dispatch by class name reaches the handler of the event's class, and the
    run of [generate_from_event] is the run of that handler's body. *)
Lemma generate_from_engine_event (e : engine_event) :
  GenericPokerEventGenerator_generate_from_event self (Engine e) = handler_of self e.
Proof. destruct e; reflexivity. Qed.

Lemma generate_from_unhandled I E S (class_name : I -> string)
    (getattr : string -> option (method I E S)) (event : I) (context : S) :
  getattr (event_handler I class_name event) = None ->
  generate_from_event I E S class_name getattr event context = ([], context, Return tt).
Proof. intros H. unfold generate_from_event. rewrite H. reflexivity. Qed.

End Dispatch.

(** ** Blinds *)

Lemma at_most_half (posted big_blind : Z) :
  (posted <=? big_blind / 2) = (2 * posted <=? big_blind).
Proof.
  pose proof (Z.div_mod big_blind 2 ltac:(lia)) as Hdiv.
  pose proof (Z.mod_pos_bound big_blind 2 ltac:(lia)) as Hmod.
  destruct (Z.leb_spec posted (big_blind / 2)), (Z.leb_spec (2 * posted) big_blind);
    try reflexivity; lia.
Qed.

Lemma handle_BlindEvent_classifies (context : Context) (sb bb player_id posted dead : Z) :
  context_small_blind context = Some sb ->
  context_big_blind context = Some bb ->
  handle_BlindEvent player_id posted dead context
  = (classify_blind sb bb player_id posted dead, context, Return tt).
Proof.
  intros Hsb Hbb.
  unfold handle_BlindEvent, classify_blind, py_and, py_or, get, lift, yield,
    mbind, mret, gen_bind, gen_ret, outcome_bind, outcome_ret, attr.
  rewrite Hsb, Hbb, <- at_most_half.
  destruct (dead =? sb), (posted =? bb), (posted =? sb), (posted <=? bb / 2),
    (posted <=? bb); reflexivity.
Qed.

(** C2. With the small and the big blind configured, a Blind event gives the
    narrative event of the first matching rule of the specification, and
    nothing when no rule matches; the context is left as it was. *)
Theorem blind_event_is_classified_in_order
    {pokercards pokereval_hand : Type}
    (self : @GenericPokerEventGenerator pokercards pokereval_hand)
    (context : Context) (sb bb player_id posted dead : Z) :
  context_small_blind context = Some sb ->
  context_big_blind context = Some bb ->
  GenericPokerEventGenerator_generate_from_event self
    (Engine (BlindEvent player_id posted dead)) context
  = (classify_blind sb bb player_id posted dead, context, Return tt)
  /\ (length (classify_blind sb bb player_id posted dead) <= 1)%nat.
Proof.
  intros Hsb Hbb. split.
  - rewrite generate_from_engine_event. simpl.
    apply handle_BlindEvent_classifies; assumption.
  - unfold classify_blind.
    destruct ((dead =? sb) && (posted =? bb)),
      ((posted =? sb) || (2 * posted <=? bb)), (posted <=? bb); simpl; lia.
Qed.

Lemma blind_event_is_classified_in_order_witness :
  let context := set_blinds 10 25 Context_new in
  let run posted dead :=
    events_of (GenericPokerEventGenerator_generate_from_event identity_generator
                 (Engine (BlindEvent 0 posted dead)) context) in
  run 10 0 = [PlayerPostedSmallBlind 0 10]
  /\ run 25 10 = [PlayerPostedBigAndSmallBlinds 0 25 10]
  /\ run 25 0 = [PlayerPostedBigBlind 0 25]
  /\ run 12 0 = [PlayerPostedSmallBlind 0 12]
  /\ run 26 0 = [].
Proof.
  intros context run.
  assert (Hrun : forall posted dead,
            run posted dead = classify_blind 10 25 0 posted dead).
  { intros posted dead. unfold run.
    rewrite (proj1 (blind_event_is_classified_in_order identity_generator
                      context 10 25 0 posted dead eq_refl eq_refl)).
    reflexivity. }
  rewrite !Hrun. vm_compute. auto.
Defined.

(** ** Dicts built from items *)

Section DictOfItems.

Context `{Countable K} {V : Type}.
Implicit Types (items : dict K V) (d : gmap K V).

Let assign d (item : K * V) : gmap K V := let '(k, v) := item in <[k := v]> d.

Lemma assign_items_other items d k :
  k ∉ items.*1 -> foldl assign d items !! k = d !! k.
Proof.
  revert d. induction items as [|[k' v'] items IH]; intros d Hk; [reflexivity|].
  simpl in *. apply not_elem_of_cons in Hk as [Hne Hk].
  rewrite IH by exact Hk.
  apply lookup_insert_ne. congruence.
Qed.

Lemma assign_items_lookup items d k v :
  NoDup items.*1 -> (k, v) ∈ items -> foldl assign d items !! k = Some v.
Proof.
  revert d. induction items as [|[k' v'] items IH]; intros d Hnd Hin.
  - inversion Hin.
  - simpl in *. apply NoDup_cons in Hnd as [Hk' Hnd].
    apply elem_of_cons in Hin as [Heq | Hin].
    + apply pair_equal_spec in Heq as [-> ->].
      rewrite assign_items_other by assumption.
      apply lookup_insert_eq.
    + apply IH; assumption.
Qed.

Lemma assign_items_inv items d k v :
  foldl assign d items !! k = Some v -> (k, v) ∈ items \/ d !! k = Some v.
Proof.
  revert d. induction items as [|[k' v'] items IH]; intros d Hl; [right; exact Hl|].
  simpl in Hl. apply IH in Hl as [Hin | Hl].
  - left. right. exact Hin.
  - destruct (decide (k' = k)) as [->|Hne].
    + rewrite lookup_insert_eq in Hl. injection Hl as ->. left. left.
    + rewrite lookup_insert_ne in Hl by exact Hne. right. exact Hl.
Qed.

(** A dict built from items of distinct keys holds exactly these items. *)
Lemma dict_of_items_lookup items k v :
  NoDup items.*1 -> dict_of_items items !! k = Some v <-> (k, v) ∈ items.
Proof.
  intros Hnd. split.
  - intros Hl. apply assign_items_inv in Hl as [Hin | Hl]; [exact Hin|].
    rewrite lookup_empty in Hl. discriminate.
  - apply assign_items_lookup. exact Hnd.
Qed.

End DictOfItems.

(** ** Showdown *)

(** [mapM] on functions that may raise: the list of the results, or the
    error of an item. *)
Lemma mapM_outcome_spec {A B} (f : A -> outcome B) (l : list A) :
  match mapM f l with
  | Return ys => Forall2 (fun x y => f x = Return y) l ys
  | Raise e => exists x, x ∈ l /\ f x = Raise e
  end.
Proof.
  induction l as [|x l IH]; [constructor|].
  cbn [mapM]. destruct (f x) as [y|e] eqn:Hx; simpl.
  - destruct (mapM f l) as [ys|e]; simpl.
    + constructor; assumption.
    + destruct IH as (x' & Hx' & Hraise). exists x'. split; [right|]; assumption.
  - exists x. split; [left | exact Hx].
Qed.

Section Showdown.

Context {pokercards pokereval_hand : Type}.
Variable self : @GenericPokerEventGenerator pokercards pokereval_hand.

#[local] Abbreviation convert_item :=
  (fun '(player_id, cards) =>
     cards ← _convert_pokercards self cards; mret (player_id, cards)).

Lemma convert_item_returns (item : Z * pokercards) (item' : Z * list Card) :
  convert_item item = Return item'
  <-> item'.1 = item.1 /\ pokercards_converter self item.2 = Return item'.2.
Proof.
  destruct item as [player_id cards], item' as [player_id' cards'].
  unfold _convert_pokercards. simpl.
  destruct (pokercards_converter self cards) as [converted|error]; simpl.
  - split; [intros [= <- <-]; split; reflexivity | intros [-> [= ->]]; reflexivity].
  - split; [discriminate | intros [_ [=]]].
Qed.

Lemma converted_keys (holecards : dict Z pokercards) (converted : dict Z (list Card)) :
  Forall2 (fun item item' => convert_item item = Return item') holecards converted ->
  converted.*1 = holecards.*1.
Proof.
  induction 1 as [|item item' holecards converted Hitem _ IH]; [reflexivity|].
  apply convert_item_returns in Hitem as [Hkey _].
  cbn [fmap list_fmap]. rewrite Hkey. f_equal. exact IH.
Qed.

(** The run of the handler: the cards are converted first, and an error of
    the converter leaves the context as it was. *)
Lemma handle_ShowdownEvent_run (holecards : dict Z pokercards) context :
  handle_ShowdownEvent self holecards context
  = match mapM convert_item holecards with
    | Return converted =>
        (if (1 <? length holecards)%nat then [Showdown] else [],
         set_player_cards (dict_of_items converted) context, Return tt)
    | Raise error => ([], context, Raise error)
    end.
Proof.
  unfold handle_ShowdownEvent, get, put, lift, yield, mbind, mret, gen_bind, gen_ret.
  destruct (mapM _ holecards) as [converted|error]; [|reflexivity].
  destruct (1 <? length holecards)%nat; reflexivity.
Qed.

End Showdown.

(** C7. A Showdown event whose hole cards the converter accepts sets the hole
    cards of the context for every player of the event, converted, whatever
    the number of players, and yields the showdown marker exactly when the
    event has more than one player. When the converter refuses the cards of
    a player, the event raises: nothing is yielded and the context is left
    as it was. *)
Theorem showdown_records_cards_and_marks_contested_hands
    {pokercards pokereval_hand : Type}
    (self : @GenericPokerEventGenerator pokercards pokereval_hand)
    (community_cards : pokercards) (holecards : dict Z pokercards)
    (context : Context) :
  NoDup holecards.*1 ->
  let run := GenericPokerEventGenerator_generate_from_event self
               (Engine (ShowdownEvent community_cards holecards)) context in
  ((forall player_id cards,
      (player_id, cards) ∈ holecards ->
      exists converted, pokercards_converter self cards = Return converted) ->
   result_of run = Return tt
   /\ (exists hole_cards,
         player_cards (context_of run) = Some hole_cards
         /\ forall player_id cards converted,
              (player_id, cards) ∈ holecards ->
              pokercards_converter self cards = Return converted ->
              hole_cards !! player_id = Some converted)
   /\ (Showdown ∈ events_of run <-> (1 < length holecards)%nat)
   /\ ((length holecards <= 1)%nat -> events_of run = []))
  /\ (forall player_id cards error,
        (player_id, cards) ∈ holecards ->
        pokercards_converter self cards = Raise error ->
        exists error', run = ([], context, Raise error')).
Proof.
  intros Hnd run. subst run. rewrite generate_from_engine_event. simpl handler_of.
  rewrite handle_ShowdownEvent_run.
  pose proof (mapM_outcome_spec
                (fun '(player_id, cards) =>
                   cards ← _convert_pokercards self cards; mret (player_id, cards))
                holecards) as Hconverted.
  destruct (mapM _ holecards) as [converted|error].
  - split.
    + intros _. split; [reflexivity|]. split; [|split].
      * eexists. split; [reflexivity|].
        intros player_id cards cards' Hin Hcards.
        apply dict_of_items_lookup.
        { rewrite (converted_keys self _ _ Hconverted). exact Hnd. }
        apply list_elem_of_lookup in Hin as [i Hi].
        destruct (Forall2_lookup_l _ _ _ _ _ Hconverted Hi) as ([p c] & Hi' & Hitem).
        apply (convert_item_returns self (player_id, cards) (p, c)) in Hitem
          as [Hkey Hitem].
        simpl in Hkey, Hitem.
        rewrite Hcards in Hitem. injection Hitem as <-. subst p.
        apply list_elem_of_lookup. exists i. exact Hi'.
      * unfold events_of. simpl.
        destruct (1 <? length holecards)%nat eqn:Hlen;
          [apply Nat.ltb_lt in Hlen | apply Nat.ltb_ge in Hlen].
        -- split; [intros _; exact Hlen | intros _; set_solver].
        -- split; [intros Hin; inversion Hin | intros Hlt; lia].
      * unfold events_of. simpl. intros Hle.
        destruct (1 <? length holecards)%nat eqn:Hlen; [|reflexivity].
        apply Nat.ltb_lt in Hlen. lia.
    + intros player_id cards error Hin Hraise. exfalso.
      apply list_elem_of_lookup in Hin as [i Hi].
      destruct (Forall2_lookup_l _ _ _ _ _ Hconverted Hi) as (item' & _ & Hitem).
      apply (convert_item_returns self (player_id, cards) item') in Hitem
        as [_ Hitem].
      simpl in Hitem. congruence.
  - split.
    + intros Hconverts. exfalso.
      destruct Hconverted as ([player_id cards] & Hin & Hraise).
      destruct (Hconverts player_id cards Hin) as [converted Hcards].
      unfold _convert_pokercards in Hraise. rewrite Hcards in Hraise. discriminate.
    + intros _ _ _ _ _. exists error. reflexivity.
Qed.

Lemma showdown_records_cards_and_marks_contested_hands_witness :
  let run holecards :=
    GenericPokerEventGenerator_generate_from_event identity_generator
      (Engine (ShowdownEvent [] holecards)) Context_new in
  events_of (run [(23, queen_jack)]) = []
  /\ Showdown ∈ events_of (run [(22, nine_six); (23, queen_jack)])
  /\ result_of (run [(22, nine_six); (23, queen_jack)]) = Return tt.
Proof.
  intros run.
  assert (Hconverts : forall (holecards : dict Z (list Card)) player_id cards,
            (player_id, cards) ∈ holecards ->
            exists converted,
              pokercards_converter identity_generator cards = Return converted).
  { intros holecards player_id cards _. exists cards. reflexivity. }
  split; [|split].
  - apply (showdown_records_cards_and_marks_contested_hands identity_generator []
             [(23, queen_jack)] Context_new).
    + apply (bool_decide_unpack _). vm_compute. exact I.
    + apply Hconverts.
    + simpl. lia.
  - apply (showdown_records_cards_and_marks_contested_hands identity_generator []
             [(22, nine_six); (23, queen_jack)] Context_new).
    + apply (bool_decide_unpack _). vm_compute. exact I.
    + apply Hconverts.
    + simpl. lia.
  - apply (showdown_records_cards_and_marks_contested_hands identity_generator []
             [(22, nine_six); (23, queen_jack)] Context_new).
    + apply (bool_decide_unpack _). vm_compute. exact I.
    + apply Hconverts.
Defined.

(** ** Reasoning on generators *)

Section Generators.

Context {E S : Type}.

Lemma bind_run {A B} (m : gen E S A) (f : A -> gen E S B) (s : S) :
  (m ≫= f) s =
    match m s with
    | (es, s', Return a) =>
        (es ++ events_of (f a s'), context_of (f a s'), result_of (f a s'))
    | (es, s', Raise e) => (es, s', Raise e)
    end.
Proof.
  unfold mbind, gen_bind. destruct (m s) as [[es s'] [a|e]]; [|reflexivity].
  destruct (f a s') as [[es' s''] r]. reflexivity.
Qed.

Lemma observes_ret {A} (P : E -> Prop) (Q : A -> Prop) (a : A) (s : S) :
  Q a -> observes P Q (mret a) s.
Proof.
  intros HQ. repeat split; [constructor|].
  intros a' [= <-]. exact HQ.
Qed.

Lemma observes_lift {A} (P : E -> Prop) (Q : A -> Prop) (r : outcome A) (s : S) :
  (forall a, r = Return a -> Q a) -> observes P Q (lift r) s.
Proof. intros HQ. repeat split; [constructor | exact HQ]. Qed.

Lemma observes_get (P : E -> Prop) (s : S) :
  observes P (fun s' => s' = s) get s.
Proof. repeat split; [constructor|]. intros a [= <-]. reflexivity. Qed.

Lemma observes_yield (P : E -> Prop) (e : E) (s : S) :
  P e -> observes P (fun _ => True) (yield e) s.
Proof. intros HP. repeat split. constructor; [exact HP | constructor]. Qed.

Lemma observes_bind {A B} (P : E -> Prop) (Q : A -> Prop) (R : B -> Prop)
    (m : gen E S A) (f : A -> gen E S B) (s : S) :
  observes P Q m s ->
  (forall a, Q a -> observes P R (f a) s) ->
  observes P R (m ≫= f) s.
Proof.
  intros (Hes & Hs & HQ) Hf. unfold observes. rewrite bind_run.
  unfold events_of, context_of, result_of in *.
  destruct (m s) as [[es s'] [a|e]]; simpl in *; subst s'.
  - destruct (Hf a (HQ a eq_refl)) as (Hes' & Hs' & HR).
    split; [apply Forall_app; split; assumption|]. split; assumption.
  - split; [assumption|]. split; [reflexivity|]. intros b [=].
Qed.

Lemma observes_weaken {A} (P P' : E -> Prop) (Q Q' : A -> Prop) (m : gen E S A) (s : S) :
  observes P Q m s ->
  (forall e, P e -> P' e) -> (forall a, Q a -> Q' a) ->
  observes P' Q' m s.
Proof.
  intros (Hes & Hs & HQ) HP HQ'. split; [|split].
  - eapply Forall_impl; eassumption.
  - assumption.
  - intros a Ha. apply HQ', HQ, Ha.
Qed.

(** A loop keeps an invariant of the variables it carries. *)
Lemma observes_for_each {A B} (P : E -> Prop) (Inv : list B -> A -> Prop)
    (body : B -> A -> gen E S A) (s : S) (l : list B) (a : A) :
  (forall x l' a, Inv (x :: l') a -> observes P (Inv l') (body x a) s) ->
  Inv l a ->
  observes P (Inv []) (for_each l body a) s.
Proof.
  intros Hbody. revert a. induction l as [|x l IH]; intros a Hinv; simpl.
  - apply observes_ret. exact Hinv.
  - eapply observes_bind; [apply Hbody; exact Hinv|].
    intros a' Ha'. apply IH. exact Ha'.
Qed.

Lemma succeeds_ret {A} (a : A) (s : S) : succeeds (mret a : gen E S A) s.
Proof. exists a. reflexivity. Qed.

Lemma succeeds_yield (e : E) (s : S) : succeeds (yield e) s.
Proof. exists tt. reflexivity. Qed.

Lemma succeeds_bind {A B} (P : E -> Prop) (Q : A -> Prop)
    (m : gen E S A) (f : A -> gen E S B) (s : S) :
  observes P Q m s -> succeeds m s ->
  (forall a, Q a -> succeeds (f a) s) ->
  succeeds (m ≫= f) s.
Proof.
  intros (_ & Hs & HQ) [a Ha] Hf. unfold succeeds. rewrite bind_run.
  unfold events_of, context_of, result_of in *.
  destruct (m s) as [[es s'] r]; simpl in *; subst s' r.
  apply Hf, HQ. reflexivity.
Qed.

Lemma succeeds_for_each {A B} (P : E -> Prop) (Inv : list B -> A -> Prop)
    (body : B -> A -> gen E S A) (s : S) (l : list B) (a : A) :
  (forall x l' a, Inv (x :: l') a ->
     observes P (Inv l') (body x a) s /\ succeeds (body x a) s) ->
  Inv l a ->
  succeeds (for_each l body a) s.
Proof.
  intros Hbody. revert a. induction l as [|x l IH]; intros a Hinv; simpl.
  - apply succeeds_ret.
  - destruct (Hbody x l a Hinv) as [Hobs Hsuc].
    eapply succeeds_bind; [exact Hobs | exact Hsuc |].
    intros a' Ha'. apply IH. exact Ha'.
Qed.

Lemma ret_bind_run {A B} (a : A) (f : A -> gen E S B) (s : S) :
  (mret a ≫= f) s = f a s.
Proof.
  rewrite bind_run. simpl. unfold events_of, context_of, result_of.
  destruct (f a s) as [[es s'] r]. reflexivity.
Qed.

Lemma bind_assoc_run {A B C} (m : gen E S A) (f : A -> gen E S B)
    (g : B -> gen E S C) (s : S) :
  ((m ≫= f) ≫= g) s = (m ≫= fun a => f a ≫= g) s.
Proof.
  rewrite !bind_run. destruct (m s) as [[es s1] [a|e]]; [|reflexivity].
  rewrite bind_run. unfold events_of, context_of, result_of. simpl.
  destruct (f a s1) as [[es1 s2] [b|e]]; simpl; [|reflexivity].
  destruct (g b s2) as [[es2 s3] r]. simpl. rewrite app_assoc. reflexivity.
Qed.

Lemma bind_ext_run {A B} (m : gen E S A) (f g : A -> gen E S B) (s : S) :
  (forall a s', f a s' = g a s') -> (m ≫= f) s = (m ≫= g) s.
Proof.
  intros Hfg. rewrite !bind_run. destruct (m s) as [[es s'] [a|e]]; [|reflexivity].
  rewrite Hfg. reflexivity.
Qed.

Lemma for_each_app {A B} (l l' : list B) (body : B -> A -> gen E S A) (a : A) (s : S) :
  for_each (l ++ l') body a s = (for_each l body a ≫= for_each l' body) s.
Proof.
  revert a s. induction l as [|x l IH]; intros a s; simpl.
  - rewrite ret_bind_run. reflexivity.
  - rewrite bind_assoc_run. apply bind_ext_run. intros a' s'. apply IH.
Qed.

(** What a run that returns looks like. *)
Lemma run_of_success {A} (P : E -> Prop) (Q : A -> Prop) (m : gen E S A) (s : S) :
  observes P Q m s -> succeeds m s ->
  exists es a, m s = (es, s, Return a) /\ Forall P es /\ Q a.
Proof.
  intros (Hes & Hs & HQ) [a Ha].
  unfold events_of, context_of, result_of in *.
  destruct (m s) as [[es s'] r]; simpl in *; subst s' r.
  exists es, a. split; [reflexivity|]. split; [assumption | apply HQ; reflexivity].
Qed.

End Generators.

Lemma get_bind_run {E S B} (f : S -> gen E S B) (s : S) : (get ≫= f) s = f s s.
Proof.
  rewrite bind_run. unfold get, events_of, context_of, result_of. simpl.
  destruct (f s s) as [[es s'] r]. reflexivity.
Qed.

Lemma put_bind_run {E S B} (s' : S) (f : unit -> gen E S B) (s : S) :
  (put s' ≫= f) s = f tt s'.
Proof.
  rewrite bind_run. unfold put, events_of, context_of, result_of. simpl.
  destruct (f tt s') as [[es s''] r]. reflexivity.
Qed.

Lemma lift_bind_run {E S A B} (r : outcome A) (f : A -> gen E S B) (s : S) :
  (lift r ≫= f) s
  = match r with
    | Return a => f a s
    | Raise e => ([], s, Raise e)
    end.
Proof.
  rewrite bind_run. unfold lift, events_of, context_of, result_of.
  destruct r as [a|e]; [|reflexivity]. simpl.
  destruct (f a s) as [[es s'] r]. reflexivity.
Qed.

(** ** End of hand *)

Section EndOfHand.

Context {pokercards pokereval_hand : Type}.
Variable self : @GenericPokerEventGenerator pokercards pokereval_hand.
Implicit Types (context : Context) (sets : shown) (best_hands : gmap Z BestHands).
Implicit Types (record : @stack_entry pokereval_hand).
Implicit Types (records : list (@stack_entry pokereval_hand)).

Lemma show_or_muck_observes best_hands best_high best_low player_id sets context :
  observes (fun e => is_resolution_event true e = true) (fun _ => True)
    (show_or_muck best_hands best_high best_low player_id sets) context.
Proof.
  unfold show_or_muck, observes, events_of, context_of, result_of, get, lift, yield,
    context_player_cards, getitem, attr,
    mbind, mret, gen_bind, gen_ret, outcome_bind, outcome_ret.
  repeat case_match; simplify_eq; simpl;
    repeat split; repeat constructor.
Qed.

(** A player who has not shown yet and holds a high hand that is at least the
    baseline shows; the low hand is not looked at. *)
Lemma player_should_show_returns (showed : gset Z) player_id hands best_low h :
  high hands = Some h -> is_high_class (class_of h) = true ->
  -1 <= pokereval_ranking h ->
  player_should_show showed player_id hands (Build_Hand HighHand [] (-1)) best_low
  = Return (bool_decide (player_id ∉ showed)).
Proof.
  intros Hh Hclass Hrank.
  unfold player_should_show, py_and, py_or, player_has_best_hand.
  rewrite Hh. unfold is_better_than, hand_eq. rewrite Hclass.
  unfold HighHand_is_better_than, HighHand_eq. simpl.
  destruct (bool_decide (player_id ∉ showed)); [|reflexivity]. simpl.
  destruct (Z.ltb_spec (-1) (pokereval_ranking h)); [reflexivity|]. simpl.
  destruct (Z.eqb_spec (pokereval_ranking h) (-1)); [reflexivity | lia].
Qed.

Lemma show_or_muck_succeeds best_hands best_low player_id sets context :
  can_reveal best_hands context player_id = true ->
  succeeds (show_or_muck best_hands (Build_Hand HighHand [] (-1)) best_low
              player_id sets) context.
Proof.
  unfold can_reveal. intros Hcan.
  destruct (best_hands !! player_id) as [hands|] eqn:Hhands; [|discriminate].
  destruct (player_cards context) as [hole|] eqn:Hhole; [|discriminate].
  destruct (high hands) as [h|] eqn:Hh; [|discriminate].
  destruct (hole !! player_id) as [cs|] eqn:Hcs; [|discriminate].
  apply andb_true_iff in Hcan as [Hclass Hrank]. apply Z.leb_le in Hrank.
  unfold show_or_muck, succeeds, result_of, get, lift, yield,
    context_player_cards, getitem, attr,
    mbind, mret, gen_bind, gen_ret, outcome_bind, outcome_ret.
  rewrite Hhands. simpl.
  rewrite (player_should_show_returns _ _ _ _ h Hh Hclass Hrank). simpl.
  rewrite Hhole, Hcs.
  destruct (bool_decide (player_id ∉ players_that_showed sets)); simpl;
    [eexists; reflexivity|].
  destruct (bool_decide (player_id ∉ players_that_mucked sets)); simpl;
    eexists; reflexivity.
Qed.

Lemma collect_winners_observes (collected : Z -> pyvalue -> event)
    (winners : dict Z Z) context :
  (forall player_id amount, is_collected (collected player_id amount) = true) ->
  observes (fun e => is_collected e = true) (fun _ => True)
    (for_each winners (fun '(player_id, won_amount) _ =>
       yield (collected player_id (Int won_amount))) tt) context
  /\ succeeds
    (for_each winners (fun '(player_id, won_amount) (_ : unit) =>
       yield (E := event) (S := Context) (collected player_id (Int won_amount))) tt)
    context.
Proof.
  intros Hcollected. split.
  - apply (observes_for_each (fun e => is_collected e = true) (fun _ _ => True));
      [|exact I].
    intros [player_id won_amount] l' [] _.
    apply observes_yield. apply Hcollected.
  - apply (succeeds_for_each (fun e => is_collected e = true) (fun _ _ => True));
      [|exact I].
    intros [player_id won_amount] l' [] _. split.
    + apply observes_yield. apply Hcollected.
    + apply succeeds_yield.
Qed.

Lemma resolution_event_collected compared e :
  is_collected e = true -> is_resolution_event compared e = true.
Proof. intros H. unfold is_resolution_event. rewrite H. reflexivity. Qed.

Lemma resolved_pot_events_observes pot (best_hands : option (gmap Z BestHands))
    (collected : Z -> pyvalue -> event) sets context :
  (forall player_id amount, is_collected (collected player_id amount) = true) ->
  observes (fun e => is_resolution_event (hands_compared best_hands) e = true)
    (fun _ => True) (resolved_pot_events pot best_hands collected sets) context.
Proof.
  intros Hcollected. unfold resolved_pot_events, hands_compared.
  apply (observes_bind _ (fun _ => True)).
  - destruct (truthy best_hands) as [compared|].
    + apply (observes_for_each _ (fun _ _ => True)); [|exact I].
      intros player_id l' sets' _. apply show_or_muck_observes.
    + apply observes_ret. exact I.
  - intros sets' _. apply (observes_bind _ (fun _ => True)).
    + eapply observes_weaken;
        [apply (collect_winners_observes collected), Hcollected | | auto].
      intros e. apply resolution_event_collected.
    + intros _ _. apply observes_ret. exact I.
Qed.

Lemma resolved_pot_events_succeeds pot (best_hands : option (gmap Z BestHands))
    (collected : Z -> pyvalue -> event) sets context :
  (forall player_id amount, is_collected (collected player_id amount) = true) ->
  match truthy best_hands with
  | Some compared => forallb (can_reveal compared context) (eligible_players pot) = true
  | None => True
  end ->
  succeeds (resolved_pot_events pot best_hands collected sets) context.
Proof.
  intros Hcollected Hwf. unfold resolved_pot_events.
  apply (succeeds_bind (fun e => is_resolution_event (hands_compared best_hands) e = true)
           (fun _ => True)).
  - unfold hands_compared. destruct (truthy best_hands) as [compared|].
    + apply (observes_for_each _ (fun _ _ => True)); [|exact I].
      intros player_id l' sets' _. apply show_or_muck_observes.
    + apply observes_ret. exact I.
  - destruct (truthy best_hands) as [compared|]; [|apply succeeds_ret].
    apply (succeeds_for_each (fun e => is_resolution_event true e = true)
             (fun l _ => forallb (can_reveal compared context) l = true));
      [|exact Hwf].
    intros player_id l' sets' Hl. simpl in Hl. apply andb_true_iff in Hl as [Hp Hl'].
    split; [|apply show_or_muck_succeeds; exact Hp].
    eapply observes_weaken; [apply show_or_muck_observes | auto | auto].
  - intros sets' _.
    apply (succeeds_bind (fun e => is_collected e = true) (fun _ => True)).
    + apply (collect_winners_observes collected), Hcollected.
    + apply (collect_winners_observes collected), Hcollected.
    + intros _ _. apply succeeds_ret.
Qed.

(** The event of a collection is a "collected" event, from the main pot or
    from a side pot. *)
Lemma collected_from_pot_is_collected (side_pot_index main_pot_index : Z)
    player_id amount :
  is_collected
    ((if side_pot_index =? main_pot_index then player_collected_from_main_pot
      else fun player_id amount =>
             player_collected_from_side_pot player_id amount side_pot_index)
       player_id amount) = true.
Proof. destruct (side_pot_index =? main_pot_index); reflexivity. Qed.

Lemma key_returns {A} (field : option A) (a : A) :
  key field = Return a -> field = Some a.
Proof. destruct field; simpl; congruence. Qed.

(** One record of the stack: the events are collections and returned bets,
    with shows and mucks when hands are compared, and a [resolve] record
    pushes its pot on the left of the deque. *)
Lemma resolution_step_observes (best_hands : option (gmap Z BestHands))
    main_pot_index record pots sets context :
  observes (fun e => is_resolution_event (hands_compared best_hands) e = true)
    (fun state => state.1 = pushed record pots)
    (resolution_step best_hands main_pot_index record (pots, sets)) context.
Proof.
  unfold resolution_step, pushed, pot_of, has_type.
  apply (observes_bind _ (fun t => type record = Some t));
    [apply observes_lift, key_returns|].
  intros t ->.
  destruct (String.eqb t "resolve") eqn:Hresolve.
  - apply (observes_bind _ (fun pot => resolved_pot record = Return pot));
      [apply observes_lift; auto|].
    intros pot ->.
    apply (observes_bind _ (fun _ => True)).
    + apply resolved_pot_events_observes.
      intros. apply collected_from_pot_is_collected.
    + intros sets' _. apply observes_ret. reflexivity.
  - destruct (String.eqb t "uncalled").
    { apply (observes_bind _ (fun _ => True)); [apply observes_lift; auto|].
      intros player_id _.
      apply (observes_bind _ (fun _ => True)); [apply observes_lift; auto|].
      intros amount _.
      apply (observes_bind _ (fun _ => True)); [apply observes_yield; reflexivity|].
      intros _ _. apply observes_ret. reflexivity. }
    destruct (String.eqb t "left_over").
    { apply (observes_bind _ (fun _ => True)); [apply observes_lift; auto|].
      intros player_id _.
      apply (observes_bind _ (fun _ => True)).
      - apply observes_yield. apply resolution_event_collected.
        apply collected_from_pot_is_collected.
      - intros _ _. apply observes_ret. reflexivity. }
    apply observes_ret. reflexivity.
Qed.

Lemma resolution_step_succeeds (best_hands : option (gmap Z BestHands))
    main_pot_index record pots sets context :
  well_formed_record best_hands context record = true ->
  succeeds (resolution_step best_hands main_pot_index record (pots, sets)) context.
Proof.
  unfold well_formed_record, resolution_step. intros Hwf.
  destruct (type record) as [t|]; [|discriminate].
  apply (succeeds_bind (fun _ => True) (fun t' => t' = t));
    [apply observes_lift; simpl; congruence | eexists; reflexivity |].
  intros ? ->.
  destruct (String.eqb t "resolve").
  - destruct (serials record) as [eligible|] eqn:Hserials; [|discriminate].
    destruct (pot record) as [amount|] eqn:Hpot; [|discriminate].
    destruct (serial2share record) as [shares|] eqn:Hshares; [|discriminate].
    assert (Hresolved : resolved_pot record
                        = Return (Build_ResolvedPot amount eligible shares))
      by (unfold resolved_pot; rewrite Hserials, Hpot, Hshares; reflexivity).
    apply (succeeds_bind (fun _ => True)
             (fun pot => pot = Build_ResolvedPot amount eligible shares));
      [apply observes_lift; congruence | eexists; rewrite Hresolved; reflexivity |].
    intros ? ->.
    apply (succeeds_bind
             (fun e => is_resolution_event (hands_compared best_hands) e = true)
             (fun _ => True)).
    + apply resolved_pot_events_observes.
      intros. apply collected_from_pot_is_collected.
    + apply resolved_pot_events_succeeds.
      * intros. apply collected_from_pot_is_collected.
      * simpl. destruct (truthy best_hands); [exact Hwf | exact I].
    + intros sets' _. apply succeeds_ret.
  - destruct (String.eqb t "uncalled").
    { apply andb_true_iff in Hwf as [Hserial Huncalled].
      apply bool_decide_eq_true in Hserial as [player_id ->].
      apply bool_decide_eq_true in Huncalled as [amount ->].
      eexists. reflexivity. }
    destruct (String.eqb t "left_over").
    { apply bool_decide_eq_true in Hwf as [player_id ->].
      eexists. reflexivity. }
    apply succeeds_ret.
Qed.

Lemma pushed_all record records pots :
  reverse (omap pot_of records) ++ pushed record pots
  = reverse (omap pot_of (record :: records)) ++ pots.
Proof.
  unfold pushed. simpl. destruct (pot_of record) as [pot|]; [|reflexivity].
  rewrite reverse_cons, <- app_assoc. reflexivity.
Qed.

(** The loop over the records: the deque ends with the pots of the [resolve]
    records, the latest on the left. *)
Lemma resolution_loop_observes (best_hands : option (gmap Z BestHands))
    main_pot_index records pots sets context :
  observes (fun e => is_resolution_event (hands_compared best_hands) e = true)
    (fun state => state.1 = reverse (omap pot_of records) ++ pots)
    (for_each records (resolution_step best_hands main_pot_index) (pots, sets))
    context.
Proof.
  revert pots sets. induction records as [|record records IH]; intros pots sets.
  - apply observes_ret. reflexivity.
  - simpl for_each. eapply observes_bind; [apply resolution_step_observes|].
    intros [pots' sets'] Hpots. simpl in Hpots. subst pots'.
    eapply observes_weaken; [apply IH | auto |].
    intros state ->. apply pushed_all.
Qed.

Lemma resolution_loop_succeeds (best_hands : option (gmap Z BestHands))
    main_pot_index records pots sets context :
  forallb (well_formed_record best_hands context) records = true ->
  succeeds
    (for_each records (resolution_step best_hands main_pot_index) (pots, sets))
    context.
Proof.
  revert pots sets. induction records as [|record records IH];
    intros pots sets Hwf.
  - apply succeeds_ret.
  - simpl in Hwf. apply andb_true_iff in Hwf as [Hrecord Hrecords].
    simpl for_each. eapply succeeds_bind.
    + apply resolution_step_observes.
    + apply resolution_step_succeeds. exact Hrecord.
    + intros [pots' sets'] _. apply IH. exact Hrecords.
Qed.

(** The loops of a plain function: they return when the body returns on
    every item, and raise when it raises on some item. *)
Lemma for_in_returns {A B} (l : list B) (body : B -> A -> outcome A) (a : A) :
  (forall x a, x ∈ l -> exists a', body x a = Return a') ->
  exists a', for_in l body a = Return a'.
Proof.
  revert a. induction l as [|x l IH]; intros a Hbody; [exists a; reflexivity|].
  cbn [for_in]. destruct (Hbody x a) as [a' ->]; [left|]. simpl.
  apply IH. intros x' a'' Hx'. apply Hbody. right. exact Hx'.
Qed.

Lemma for_in_raises {A B} (l : list B) (body : B -> A -> outcome A) (a : A) (x : B) :
  x ∈ l -> (forall a, exists error, body x a = Raise error) ->
  exists error, for_in l body a = Raise error.
Proof.
  intros Hx Hbody. revert a.
  induction l as [|x' l IH]; intros a; [inversion Hx|].
  cbn [for_in]. apply elem_of_cons in Hx as [<-|Hx].
  - destruct (Hbody a) as [error ->]. exists error. reflexivity.
  - destruct (body x' a) as [a'|error]; simpl; [apply IH, Hx | exists error; reflexivity].
Qed.

(** The best hands are converted when the converter accepts every hand of
    [serial2best], and a hand that it refuses makes [get_best_hands]
    raise. *)
Lemma get_best_hands_returns (end_state : @stack_entry pokereval_hand) :
  (forall best player_id hands hand_type hand,
     serial2best end_state = Some best ->
     (player_id, hands) ∈ best -> (hand_type, hand) ∈ hands ->
     exists converted, pokereval_best_hand_converter self hand = Return converted) ->
  exists best_hands : option (gmap Z BestHands),
    get_best_hands self end_state = Return best_hands.
Proof.
  intros Hconverts. unfold get_best_hands.
  destruct (serial2best end_state) as [best|]; [|eexists; reflexivity].
  destruct (for_in_returns best
              (fun '(player_id, hands) (best_hands : gmap Z BestHands) =>
                 '(high_hand, low_hand) ←
                   for_in hands
                     (fun '(hand_type, pokereval_best_hand) '(high_hand, low_hand) =>
                        hand ← _convert_pokereval_best_hand self pokereval_best_hand;
                        if String.eqb hand_type "hi" then mret (hand, low_hand)
                        else if String.eqb hand_type "low" then mret (high_hand, hand)
                        else mret (high_hand, low_hand))
                     (None, None);
                 mret (<[player_id := Build_BestHands high_hand low_hand]> best_hands))
              ∅) as [best_hands Hbest].
  - intros [player_id hands] best_hands Hhands.
    destruct (for_in_returns hands
                (fun '(hand_type, pokereval_best_hand) '(high_hand, low_hand) =>
                   hand ← _convert_pokereval_best_hand self pokereval_best_hand;
                   if String.eqb hand_type "hi" then mret (hand, low_hand)
                   else if String.eqb hand_type "low" then mret (high_hand, hand)
                   else mret (high_hand, low_hand))
                (None, None)) as [[high_hand low_hand] Hboth].
    + intros [hand_type hand] [high_hand low_hand] Hhand.
      destruct (Hconverts best player_id hands hand_type hand eq_refl Hhands Hhand)
        as [converted Hconverted].
      unfold _convert_pokereval_best_hand. rewrite Hconverted. simpl.
      repeat case_match; eexists; reflexivity.
    + rewrite Hboth. eexists. reflexivity.
  - rewrite Hbest. eexists. reflexivity.
Qed.

Lemma get_best_hands_raises (end_state : @stack_entry pokereval_hand)
    best player_id hands hand_type hand error :
  serial2best end_state = Some best ->
  (player_id, hands) ∈ best -> (hand_type, hand) ∈ hands ->
  pokereval_best_hand_converter self hand = Raise error ->
  exists error', get_best_hands self end_state = Raise error'.
Proof.
  intros Hbest Hhands Hhand Hraises.
  unfold get_best_hands. rewrite Hbest.
  destruct (for_in_raises best
              (fun '(player_id, hands) (best_hands : gmap Z BestHands) =>
                 '(high_hand, low_hand) ←
                   for_in hands
                     (fun '(hand_type, pokereval_best_hand) '(high_hand, low_hand) =>
                        hand ← _convert_pokereval_best_hand self pokereval_best_hand;
                        if String.eqb hand_type "hi" then mret (hand, low_hand)
                        else if String.eqb hand_type "low" then mret (high_hand, hand)
                        else mret (high_hand, low_hand))
                     (None, None);
                 mret (<[player_id := Build_BestHands high_hand low_hand]> best_hands))
              ∅ (player_id, hands) Hhands) as [error' Herror'].
  - intros best_hands.
    destruct (for_in_raises hands
                (fun '(hand_type, pokereval_best_hand) '(high_hand, low_hand) =>
                   hand ← _convert_pokereval_best_hand self pokereval_best_hand;
                   if String.eqb hand_type "hi" then mret (hand, low_hand)
                   else if String.eqb hand_type "low" then mret (high_hand, hand)
                   else mret (high_hand, low_hand))
                (None, None) (hand_type, hand) Hhand) as [error' Herror'].
    + intros [high_hand low_hand]. unfold _convert_pokereval_best_hand.
      rewrite Hraises. exists error. reflexivity.
    + rewrite Herror'. exists error'. reflexivity.
  - rewrite Herror'. exists error'. reflexivity.
Qed.

Lemma declared_pots_read (end_state : @stack_entry pokereval_hand) :
  (side_pots ← key (side_pots end_state); key (pots side_pots))
  = key (declared_pots end_state).
Proof.
  unfold declared_pots. destruct (side_pots end_state) as [[declared]|]; reflexivity.
Qed.

Lemma get_player_rake_read (end_state : @stack_entry pokereval_hand) :
  get_player_rake end_state
  = match serial2rake end_state with
    | Some rake => Return (dict_of_items rake)
    | None => Raise KeyError
    end.
Proof. unfold get_player_rake. destruct (serial2rake end_state); reflexivity. Qed.

(** The run of the handler on a stack with a game state, step by step: the
    best hands are converted, the declared pots read, the records run, the
    rake read and the hand ended. Whatever raises first ends the run, with
    the events yielded before it. *)
Lemma handle_EndEvent_run winners (end_state : @stack_entry pokereval_hand)
    records context :
  handle_EndEvent self winners (end_state :: records) context
  = match get_best_hands self end_state with
    | Raise error => ([], context, Raise error)
    | Return best_hands =>
        match declared_pots end_state with
        | None => ([], context, Raise KeyError)
        | Some declared =>
            let loop :=
              for_each records
                (resolution_step best_hands (Z.of_nat (length declared) - 1))
                ([], Build_shown ∅ ∅) context in
            match result_of loop with
            | Raise error => (events_of loop, context, Raise error)
            | Return state =>
                match serial2rake end_state with
                | None => (events_of loop, context, Raise KeyError)
                | Some rake =>
                    (events_of loop ++ [HandEnded state.1 (dict_of_items rake)],
                     context, Return tt)
                end
            end
        end
    end.
Proof.
  unfold handle_EndEvent. change (drop 1 (end_state :: records)) with records.
  rewrite lift_bind_run. cbn [list_getitem lookup list_lookup].
  rewrite lift_bind_run.
  destruct (get_best_hands self end_state) as [best_hands|error]; [|reflexivity].
  rewrite lift_bind_run, declared_pots_read.
  destruct (declared_pots end_state) as [declared|]; cbn [key]; [|reflexivity].
  rewrite bind_run. cbv zeta.
  pose proof (resolution_loop_observes best_hands
                (Z.of_nat (length declared) - 1) records []
                (Build_shown ∅ ∅) context) as (_ & Hcontext & _).
  unfold events_of, context_of, result_of in *.
  destruct (for_each records _ _ context) as [[before context'] [state|e]];
    simpl in *; subst context'; [|reflexivity].
  rewrite lift_bind_run, get_player_rake_read.
  destruct (serial2rake end_state) as [rake|]; simpl;
    [reflexivity | rewrite app_nil_r; reflexivity].
Qed.

(** On a well-formed stack the handler returns. *)
Lemma handle_EndEvent_returns winners (end_state : @stack_entry pokereval_hand)
    records context :
  well_formed_stack self context (end_state :: records) = true ->
  result_of (handle_EndEvent self winners (end_state :: records) context) = Return tt.
Proof.
  unfold well_formed_stack. intros Hwf.
  apply andb_true_iff in Hwf as [Hwf Hrecords].
  apply andb_true_iff in Hwf as [Hdeclared Hrake].
  apply bool_decide_eq_true in Hdeclared as [declared Hdeclared].
  apply bool_decide_eq_true in Hrake as [rake Hserial2rake].
  rewrite handle_EndEvent_run, Hserial2rake.
  destruct (get_best_hands self end_state) as [best_hands|]; [|discriminate].
  rewrite Hdeclared. cbv zeta.
  destruct (resolution_loop_succeeds best_hands
              (Z.of_nat (length declared) - 1) records []
              (Build_shown ∅ ∅) context Hrecords) as [state Hstate].
  rewrite Hstate. reflexivity.
Qed.

Lemma no_best_hands_no_comparison (end_state : @stack_entry pokereval_hand) :
  serial2best end_state = None -> get_best_hands self end_state = Return None.
Proof. intros H. unfold get_best_hands. rewrite H. reflexivity. Qed.

(** *** Returned bets *)

Lemma show_or_muck_observes_kind (P : event -> Prop)
    best_hands best_high best_low player_id sets context :
  (forall e, is_show_or_muck e = true -> P e) ->
  observes P (fun _ => True)
    (show_or_muck best_hands best_high best_low player_id sets) context.
Proof.
  intros HP.
  unfold show_or_muck, observes, events_of, context_of, result_of, get, lift, yield,
    context_player_cards, getitem, attr,
    mbind, mret, gen_bind, gen_ret, outcome_bind, outcome_ret.
  repeat case_match; simplify_eq; simpl;
    repeat split; repeat constructor; apply HP; reflexivity.
Qed.

(** The events of a pot are shows, mucks and collections. *)
Lemma resolved_pot_events_observes_kind (P : event -> Prop) pot
    (best_hands : option (gmap Z BestHands))
    (collected : Z -> pyvalue -> event) sets context :
  (forall e, is_show_or_muck e = true -> P e) ->
  (forall player_id amount, P (collected player_id amount)) ->
  observes P (fun _ => True) (resolved_pot_events pot best_hands collected sets) context.
Proof.
  intros HP Hcollected. unfold resolved_pot_events.
  apply (observes_bind _ (fun _ => True)).
  - destruct (truthy best_hands) as [compared|].
    + apply (observes_for_each _ (fun _ _ => True)); [|exact I].
      intros player_id l' sets' _. apply show_or_muck_observes_kind. exact HP.
    + apply observes_ret. exact I.
  - intros sets' _. apply (observes_bind _ (fun _ => True)).
    + apply (observes_for_each _ (fun _ _ => True)); [|exact I].
      intros [player_id won_amount] l' [] _. apply observes_yield. apply Hcollected.
    + intros _ _. apply observes_ret. exact I.
Qed.

Lemma filter_none (kind : event -> bool) (events : list event) :
  Forall (fun e => kind e = false) events -> List.filter kind events = [].
Proof.
  induction 1 as [|e events He _ IH]; [reflexivity|].
  simpl. rewrite He. exact IH.
Qed.

(** One record of the stack returns a bet when it is an [uncalled] record
    with its player and its amount, and the step returns; an [uncalled]
    record on which the step returns has both. *)
Lemma resolution_step_returned_bet (best_hands : option (gmap Z BestHands))
    main_pot_index record state context :
  let run := resolution_step best_hands main_pot_index record state context in
  List.filter is_uncalled (events_of run)
  = match result_of run with
    | Return _ => option_list (returned_bet record)
    | Raise _ => []
    end
  /\ (forall state', result_of run = Return state' ->
      has_type "uncalled" record = true -> is_Some (returned_bet record)).
Proof.
  destruct state as [pots sets]. cbv zeta.
  unfold resolution_step, returned_bet, has_type.
  destruct (type record) as [t|]; [|split; [reflexivity | discriminate]].
  rewrite lift_bind_run. cbn [key].
  destruct (String.eqb_spec t "resolve") as [->|Hresolve].
  { cbn [String.eqb Ascii.eqb Bool.eqb andb option_list].
    split; [|discriminate].
    assert (Hquiet : Forall (fun e => is_uncalled e = false)
              (events_of ((pot ← lift (resolved_pot record);
                           sets' ← resolved_pot_events pot best_hands
                                     (if Z.of_nat (length pots) =? main_pot_index
                                      then player_collected_from_main_pot
                                      else fun player_id amount =>
                                             player_collected_from_side_pot player_id
                                               amount (Z.of_nat (length pots))) sets;
                           mret (pot :: pots, sets')) context))).
    { apply (observes_bind _ (fun _ => True) (fun _ => True));
        [apply observes_lift; auto|].
      intros pot _. apply (observes_bind _ (fun _ => True)).
      - apply resolved_pot_events_observes_kind.
        + intros []; simpl; congruence.
        + intros player_id amount.
          destruct (Z.of_nat (length pots) =? main_pot_index); reflexivity.
      - intros sets' _. apply observes_ret. exact I. }
    rewrite (filter_none _ _ Hquiet). destruct (result_of _); reflexivity. }
  destruct (String.eqb_spec t "uncalled") as [->|Huncalled].
  { destruct (serial record) as [player_id|];
      [|split; [reflexivity | discriminate]].
    destruct (uncalled record) as [amount|];
      [|split; [reflexivity | discriminate]].
    split; [reflexivity | eexists; reflexivity]. }
  destruct (String.eqb t "left_over").
  { destruct (serial record) as [player_id|]; [|split; [reflexivity | discriminate]].
    split; [|discriminate]. simpl.
    destruct (Z.of_nat (length pots) =? main_pot_index); reflexivity. }
  split; [reflexivity | discriminate].
Qed.

Lemma returned_bets_cons record records :
  omap returned_bet (record :: records)
  = option_list (returned_bet record) ++ omap returned_bet records.
Proof. simpl. destruct (returned_bet record); reflexivity. Qed.

(** The loop returns the bets of the [uncalled] records in the order of the
    stack: of all of them when it returns, of the first ones when it
    raises. *)
Lemma resolution_loop_returned_bets (best_hands : option (gmap Z BestHands))
    main_pot_index records state context :
  let run := for_each records (resolution_step best_hands main_pot_index)
               state context in
  List.filter is_uncalled (events_of run) `prefix_of` omap returned_bet records
  /\ (forall state', result_of run = Return state' ->
      List.filter is_uncalled (events_of run) = omap returned_bet records
      /\ length (omap returned_bet records)
         = length (List.filter (has_type "uncalled") records)).
Proof.
  cbv zeta. revert state context.
  induction records as [|record records IH]; intros state context.
  - split; [reflexivity|]. intros _ _. split; reflexivity.
  - cbn [for_each]. rewrite bind_run, returned_bets_cons.
    destruct (resolution_step_returned_bet best_hands main_pot_index record
                state context) as [Hbets Htype].
    unfold events_of, context_of, result_of in *.
    destruct (resolution_step best_hands main_pot_index record state context)
      as [[es context'] [state1|error]]; cbn [fst snd] in *.
    + destruct (IH state1 context') as [Hprefix Hreturns].
      rewrite List.filter_app, Hbets. split; [apply prefix_app, Hprefix|].
      intros state' Hstate'. destruct (Hreturns state' Hstate') as [-> Hlength].
      split; [reflexivity|].
      rewrite length_app, Hlength. cbn [List.filter].
      destruct (has_type "uncalled" record) eqn:Huncalled.
      * destruct (Htype state1 eq_refl eq_refl) as [bet ->]. reflexivity.
      * unfold returned_bet. rewrite Huncalled. reflexivity.
    + rewrite Hbets. split; [apply prefix_nil | discriminate].
Qed.

(** *** The pots of the records *)

Lemma resolution_step_returns_pot (best_hands : option (gmap Z BestHands))
    main_pot_index record state context state' :
  result_of (resolution_step best_hands main_pot_index record state context)
  = Return state' ->
  has_type "resolve" record = true ->
  exists pot, resolved_pot record = Return pot.
Proof.
  destruct state as [pots sets]. unfold resolution_step, has_type.
  destruct (type record) as [t|]; [|discriminate].
  rewrite lift_bind_run. cbn [key]. intros Hreturns Hresolve. rewrite Hresolve in Hreturns.
  rewrite lift_bind_run in Hreturns.
  destruct (resolved_pot record) as [pot|error]; [|discriminate].
  exists pot. reflexivity.
Qed.

(** When the loop returns, the deque holds the pot of each [resolve]
    record. *)
Lemma resolution_loop_returns_pots (best_hands : option (gmap Z BestHands))
    main_pot_index records state context state' :
  result_of (for_each records (resolution_step best_hands main_pot_index)
               state context) = Return state' ->
  Forall2 (fun record pot => resolved_pot record = Return pot)
    (resolve_records records) (omap pot_of records).
Proof.
  revert state context. induction records as [|record records IH];
    intros state context; [constructor|].
  cbn [for_each]. rewrite bind_run.
  pose proof (resolution_step_returns_pot best_hands main_pot_index record
                state context) as Hpot.
  unfold events_of, context_of, result_of in *.
  destruct (resolution_step best_hands main_pot_index record state context)
    as [[es context'] [state1|error]]; cbn [fst snd] in *; [|discriminate].
  intros Hreturns. specialize (IH _ _ Hreturns).
  unfold resolve_records in *. simpl. unfold pot_of at 1.
  destruct (has_type "resolve" record); [|exact IH].
  destruct (Hpot state1 eq_refl eq_refl) as [pot Hresolved].
  rewrite Hresolved. constructor; [exact Hresolved | exact IH].
Qed.

Lemma resolution_event_is_not_hand_ended compared e :
  is_resolution_event compared e = true -> is_hand_ended e = false.
Proof.
  intros H. destruct e; try reflexivity. destruct compared; discriminate H.
Qed.

(** *** Records that lack a key *)




(** C4, as amended. When the game state has no best hands, no "showed" and no
    "mucked" event is produced: the events are "collected" events, "uncalled
    bet returned" events and "hand ended" events. The returned bets are those
    of the [uncalled] records, in the order of the stack: when the handler
    returns, one per [uncalled] record, with the player and the amount of
    the record, and then one "hand ended" event ends the run; when it
    raises, those of the first records, and there is no "hand ended" event.
    The handler returns on every well-formed stack. *)
Theorem hand_without_best_hands_collects_and_returns_bets
    winners (end_state : @stack_entry pokereval_hand) records context :
  serial2best end_state = None ->
  let run := GenericPokerEventGenerator_generate_from_event self
               (Engine (EndEvent winners (end_state :: records))) context in
  Forall (fun e => is_show_or_muck e = false) (events_of run)
  /\ Forall (fun e => is_collected e || is_uncalled e || is_hand_ended e = true)
       (events_of run)
  /\ List.filter is_uncalled (events_of run) `prefix_of` omap returned_bet records
  /\ (result_of run = Return tt ->
      List.filter is_uncalled (events_of run) = omap returned_bet records
      /\ length (List.filter is_uncalled (events_of run))
         = length (List.filter (has_type "uncalled") records)
      /\ exists before rake,
           serial2rake end_state = Some rake
           /\ events_of run
              = before ++ [HandEnded (reverse (omap pot_of records))
                             (dict_of_items rake)]
           /\ Forall (fun e => is_collected e || is_uncalled e = true) before)
  /\ (result_of run <> Return tt ->
      Forall (fun e => is_hand_ended e = false) (events_of run))
  /\ (well_formed_stack self context (end_state :: records) = true ->
      result_of run = Return tt).
Proof.
  intros Hnone run. subst run. rewrite generate_from_engine_event. simpl handler_of.
  pose proof (handle_EndEvent_returns winners end_state records context) as Hreturns.
  rewrite handle_EndEvent_run, (no_best_hands_no_comparison _ Hnone) in *.
  destruct (declared_pots end_state) as [declared|];
    [|repeat split; try constructor; try apply prefix_nil; try discriminate;
      exact Hreturns].
  cbv zeta in *.
  pose proof (resolution_loop_observes None (Z.of_nat (length declared) - 1)
                records [] (Build_shown ∅ ∅) context) as (Hevents & _ & Hpots).
  pose proof (resolution_loop_returned_bets None (Z.of_nat (length declared) - 1)
                records ([], Build_shown ∅ ∅) context) as [Hprefix Hbets].
  cbv zeta in Hprefix, Hbets.
  destruct (for_each records _ _ context) as [[before context'] result].
  unfold events_of, context_of, result_of in *. cbn [fst snd] in *.
  assert (Hloop : Forall (fun e => is_collected e || is_uncalled e = true) before).
  { eapply Forall_impl; [exact Hevents|]. intros e He.
    unfold is_resolution_event in He. rewrite orb_false_r in He. exact He. }
  assert (Hquiet : Forall (fun e => is_show_or_muck e = false) before).
  { eapply Forall_impl; [exact Hloop|]. intros [] He; simpl in *; congruence. }
  assert (Hkinds : Forall (fun e => is_collected e || is_uncalled e || is_hand_ended e
                                    = true) before).
  { eapply Forall_impl; [exact Hloop|]. intros e He. rewrite He. reflexivity. }
  assert (Hopen : Forall (fun e => is_hand_ended e = false) before).
  { eapply Forall_impl; [exact Hevents|].
    intros e. apply resolution_event_is_not_hand_ended. }
  destruct result as [state|error];
    [|repeat split; try assumption; try discriminate; intros _; exact Hopen].
  destruct (serial2rake end_state) as [rake|];
    [|repeat split; try assumption; try discriminate; intros _; exact Hopen].
  cbn [fst snd].
  destruct (Hbets state eq_refl) as [Hall Hlength].
  assert (Hfilter : List.filter is_uncalled
                      (before ++ [HandEnded state.1 (dict_of_items rake)])
                    = List.filter is_uncalled before).
  { rewrite List.filter_app. cbn [List.filter is_uncalled]. apply app_nil_r. }
  rewrite Hfilter.
  split; [apply Forall_app; split; [exact Hquiet | repeat constructor]|].
  split; [apply Forall_app; split; [exact Hkinds | repeat constructor]|].
  split; [exact Hprefix|]. split; [|split; [|exact Hreturns]].
  - intros _. split; [exact Hall|]. split; [rewrite Hall; exact Hlength|].
    exists before, rake. split; [reflexivity|]. split; [|exact Hloop].
    rewrite (Hpots state eq_refl), app_nil_r. reflexivity.
  - intros Hraises. exfalso. apply Hraises. reflexivity.
Qed.

(** C6, as amended. On a stack with one [resolve] record per declared pot,
    in pot order, the handler returns when the stack is well-formed. When it
    returns, it has yielded exactly one "hand ended" event, after all the
    others. Its pot list holds the pot of the record of index [i] at
    position [n - 1 - i], [n] being the number of declared pots: the main
    pot, of the highest index, is element zero, and the side pots follow.
    Its rake map holds items of [serial2rake] only, and all of them, the
    keys of a dict being distinct. When the handler raises, it has yielded
    no "hand ended" event. *)
Theorem hand_ended_lists_main_pot_first_and_copies_rake
    winners (end_state : @stack_entry pokereval_hand) records context
    (declared : list (list Z)) (rake : dict Z Z) :
  declared_pots end_state = Some declared ->
  serial2rake end_state = Some rake ->
  length (resolve_records records) = length declared ->
  let run := GenericPokerEventGenerator_generate_from_event self
               (Engine (EndEvent winners (end_state :: records))) context in
  (well_formed_stack self context (end_state :: records) = true ->
   result_of run = Return tt)
  /\ (result_of run = Return tt ->
      exists before pots player_rake,
        run = (before ++ [HandEnded pots player_rake], context, Return tt)
        /\ Forall (fun e => is_hand_ended e = false) before
        /\ length pots = length declared
        /\ (forall i record,
              resolve_records records !! i = Some record ->
              exists pot, resolved_pot record = Return pot
                          /\ pots !! (length declared - 1 - i)%nat = Some pot)
        /\ (forall main,
              last (resolve_records records) = Some main ->
              exists pot, resolved_pot main = Return pot /\ pots !! 0%nat = Some pot)
        /\ (forall player_id amount,
              player_rake !! player_id = Some amount -> (player_id, amount) ∈ rake)
        /\ (NoDup rake.*1 ->
            forall player_id amount,
              (player_id, amount) ∈ rake -> player_rake !! player_id = Some amount))
  /\ (result_of run <> Return tt ->
      Forall (fun e => is_hand_ended e = false) (events_of run)).
Proof.
  intros Hdeclared Hrake Hcount run. subst run.
  rewrite generate_from_engine_event. simpl handler_of.
  split; [apply handle_EndEvent_returns|].
  rewrite handle_EndEvent_run, Hdeclared, Hrake.
  destruct (get_best_hands self end_state) as [best_hands|error];
    [|split; [discriminate | intros _; constructor]].
  cbv zeta.
  pose proof (resolution_loop_observes best_hands (Z.of_nat (length declared) - 1)
                records [] (Build_shown ∅ ∅) context) as (Hevents & _ & Hstate).
  pose proof (resolution_loop_returns_pots best_hands (Z.of_nat (length declared) - 1)
                records ([], Build_shown ∅ ∅) context) as Hpots.
  assert (Hopen : Forall (fun e => is_hand_ended e = false)
                    (events_of (for_each records
                       (resolution_step best_hands (Z.of_nat (length declared) - 1))
                       ([], Build_shown ∅ ∅) context)))
    by (eapply Forall_impl; [exact Hevents|];
        intros e; apply resolution_event_is_not_hand_ended).
  destruct (result_of (for_each records _ _ context)) as [state|error] eqn:Hresult;
    [|split; [discriminate | intros _; exact Hopen]].
  split; [|intros Hraises; exfalso; apply Hraises; reflexivity].
  intros _. specialize (Hpots state eq_refl).
  rewrite (Hstate state eq_refl), app_nil_r.
  pose proof (Forall2_length _ _ _ Hpots) as Hlength.
  assert (Hat : forall i record,
            resolve_records records !! i = Some record ->
            exists pot, resolved_pot record = Return pot
                        /\ reverse (omap pot_of records)
                             !! (length declared - 1 - i)%nat = Some pot).
  { intros i record Hi.
    destruct (Forall2_lookup_l _ _ _ _ _ Hpots Hi) as (pot & Hpot & Hresolved).
    exists pot. split; [exact Hresolved|].
    pose proof (lookup_lt_Some _ _ _ Hpot) as Hlt.
    rewrite reverse_lookup by lia. rewrite <- Hpot. f_equal. lia. }
  eexists _, (reverse (omap pot_of records)), (dict_of_items rake).
  split; [reflexivity|]. split; [exact Hopen|]. split; [|split; [|split; [|split]]].
  - rewrite length_reverse. lia.
  - exact Hat.
  - intros main Hmain. rewrite last_lookup in Hmain.
    destruct (Hat _ _ Hmain) as (pot & Hresolved & Hpot).
    exists pot. split; [exact Hresolved|]. rewrite <- Hpot. f_equal.
    pose proof (lookup_lt_Some _ _ _ Hmain). lia.
  - intros player_id amount Hlookup.
    apply assign_items_inv in Hlookup as [Hin|Hempty]; [exact Hin|].
    rewrite lookup_empty in Hempty. discriminate.
  - intros Hnodup player_id amount. apply dict_of_items_lookup. exact Hnodup.
Qed.


(** C3. A [left_over] record yields one "collected" event for its recipient,
    tagged by the pot index at its position, but the amount of the event is
    the list ['chips_left'], not the chips left of the record. *)
Theorem left_over_collects_a_key_instead_of_chips
    (best_hands : option (gmap Z BestHands)) (main_pot_index recipient chips : Z)
    (pots : list ResolvedPot) sets context :
  resolution_step best_hands main_pot_index
    (left_over_entry (pokereval_hand := pokereval_hand) recipient chips)
    (pots, sets) context
  = ([if Z.of_nat (length pots) =? main_pot_index
      then PlayerCollectedFromMainPot recipient (StrList ["chips_left"])
      else PlayerCollectedFromSidePot recipient (StrList ["chips_left"])
             (Z.of_nat (length pots))],
     context, Return (pots, sets))
  /\ StrList ["chips_left"] <> Int chips.
Proof.
  split; [|discriminate].
  unfold resolution_step. simpl.
  destruct (Z.of_nat (length pots) =? main_pot_index); reflexivity.
Qed.

End EndOfHand.

(** ** Sample runs *)

(** The runs of the sample stacks. *)
Example fold_stack_run :
  events_of (handle_EndEvent identity_generator [23] fold_stack showdown_context)
  = [ UncalledBetReturnedToPlayer 23 13;
      PlayerCollectedFromMainPot 23 (Int 37);
      HandEnded [Build_ResolvedPot 37 [23] [(23, 37)]] {[ 23 := 0 ]} ].
Proof. vm_compute. reflexivity. Qed.

Example left_over_stack_run :
  events_of (handle_EndEvent identity_generator [22; 23] left_over_stack showdown_context)
  = [ PlayerCollectedFromMainPot 22 (Int 25);
      PlayerCollectedFromMainPot 23 (Int 25);
      PlayerCollectedFromSidePot 22 (StrList ["chips_left"]) 1;
      HandEnded [Build_ResolvedPot 51 [22; 23] [(22, 25); (23, 25)]]
        (<[ 22 := 0 ]> {[ 23 := 0 ]}) ].
Proof. vm_compute. reflexivity. Qed.

(** C1. Players 22 and 23 are eligible for the side pot and for the main
    pot. Both show their hand at the side pot, resolved first, and at the
    main pot both are yielded a "mucked" event: the muck branch looks at the
    set of players that mucked only, not at the set of players that showed. *)
Theorem player_who_showed_mucks_at_the_next_pot :
  let run := GenericPokerEventGenerator_generate_from_event identity_generator
               (Engine (EndEvent [23] two_pot_stack)) showdown_context in
  events_of run
  = [ PlayerShowedHand 23 queen_jack (high_card 694117) None;
      PlayerShowedHand 22 nine_six (high_card 694100) None;
      PlayerCollectedFromSidePot 23 (Int 30) 0;
      PlayerMuckedHand 23 queen_jack (high_card 694117) None;
      PlayerMuckedHand 22 nine_six (high_card 694100) None;
      PlayerCollectedFromMainPot 23 (Int 20);
      HandEnded [ Build_ResolvedPot 20 [23; 22] [(23, 20)];
                  Build_ResolvedPot 30 [23; 22] [(23, 30)] ] {[ 23 := 0 ]} ]
  /\ result_of run = Return tt
  /\ exists showed mucked,
       showed ∈ events_of run /\ mucked ∈ events_of run
       /\ is_showed 23 showed = true /\ is_mucked 23 mucked = true.
Proof.
  intros run.
  assert (Hrun : events_of run
    = [ PlayerShowedHand 23 queen_jack (high_card 694117) None;
        PlayerShowedHand 22 nine_six (high_card 694100) None;
        PlayerCollectedFromSidePot 23 (Int 30) 0;
        PlayerMuckedHand 23 queen_jack (high_card 694117) None;
        PlayerMuckedHand 22 nine_six (high_card 694100) None;
        PlayerCollectedFromMainPot 23 (Int 20);
        HandEnded [ Build_ResolvedPot 20 [23; 22] [(23, 20)];
                    Build_ResolvedPot 30 [23; 22] [(23, 30)] ] {[ 23 := 0 ]} ])
    by (vm_compute; reflexivity).
  split; [exact Hrun|]. split; [vm_compute; reflexivity|].
  rewrite Hrun.
  exists (PlayerShowedHand 23 queen_jack (high_card 694117) None),
         (PlayerMuckedHand 23 queen_jack (high_card 694117) None).
  repeat split; [set_solver | set_solver].
Qed.

(** C4, as stated, fails on a hand won by a fold after an uncalled bet: the
    game state has no best hands, and the first event is neither a
    "collected" nor a "hand ended" event. *)
Lemma uncalled_bet_is_returned_without_best_hands :
  let run := GenericPokerEventGenerator_generate_from_event identity_generator
               (Engine (EndEvent [23] fold_stack)) showdown_context in
  (forall end_state, head fold_stack = Some end_state -> serial2best end_state = None)
  /\ ~ Forall (fun e => is_collected e || is_hand_ended e = true) (events_of run).
Proof.
  intros run. split.
  - intros end_state [= <-]. reflexivity.
  - assert (Hrun : events_of run
      = [ UncalledBetReturnedToPlayer 23 13;
          PlayerCollectedFromMainPot 23 (Int 37);
          HandEnded [Build_ResolvedPot 37 [23] [(23, 37)]] {[ 23 := 0 ]} ])
      by (vm_compute; reflexivity).
    rewrite Hrun. intros Hall. apply Forall_cons in Hall as [Hfirst _].
    discriminate Hfirst.
Qed.

Lemma hand_without_best_hands_collects_and_returns_bets_witness :
  let run := GenericPokerEventGenerator_generate_from_event identity_generator
               (Engine (EndEvent [23] fold_stack)) showdown_context in
  Forall (fun e => is_show_or_muck e = false) (events_of run)
  /\ result_of run = Return tt
  /\ List.filter is_uncalled (events_of run) = [UncalledBetReturnedToPlayer 23 13].
Proof.
  intros run.
  destruct (hand_without_best_hands_collects_and_returns_bets identity_generator
              [23] (game_state_entry None [[37; 37]] [(23, 0)])
              [uncalled_entry 23 13; resolve_entry [23] 37 [(23, 37)]]
              showdown_context eq_refl) as (Hquiet & _ & _ & Hbets & _ & Hreturns).
  assert (Hrun : result_of run = Return tt)
    by (apply Hreturns; vm_compute; reflexivity).
  split; [exact Hquiet|]. split; [exact Hrun|].
  apply (Hbets Hrun).
Defined.

(** C6, as stated, fails on a showdown whose hole cards the context does not
    hold: the stack has one [resolve] record for each of its two declared
    pots, and the handler raises at the first player who is to show, before
    any event. *)
Lemma showdown_without_hole_cards_ends_no_hand :
  let run := GenericPokerEventGenerator_generate_from_event identity_generator
               (Engine (EndEvent [23] two_pot_stack)) Context_new in
  (forall end_state,
     head two_pot_stack = Some end_state ->
     exists declared,
       declared_pots end_state = Some declared
       /\ length (resolve_records (drop 1 two_pot_stack)) = length declared)
  /\ run = ([], Context_new, Raise AttributeError)
  /\ ~ Exists (fun e => is_hand_ended e = true) (events_of run).
Proof.
  intros run. split; [|split].
  - intros end_state [= <-]. eexists. split; reflexivity.
  - vm_compute. reflexivity.
  - assert (Hrun : events_of run = []) by (vm_compute; reflexivity).
    rewrite Hrun. intros Hended. inversion Hended.
Qed.

Lemma hand_ended_lists_main_pot_first_and_copies_rake_witness :
  exists before pots player_rake,
    GenericPokerEventGenerator_generate_from_event identity_generator
      (Engine (EndEvent [23] two_pot_stack)) showdown_context
    = (before ++ [HandEnded pots player_rake], showdown_context, Return tt)
    /\ pots !! 0%nat = Some (Build_ResolvedPot 20 [23; 22] [(23, 20)])
    /\ player_rake !! 23 = Some 0.
Proof.
  destruct (hand_ended_lists_main_pot_first_and_copies_rake identity_generator
              [23]
              (game_state_entry
                 (Some [(22, [("hi", high_card 694100)]);
                        (23, [("hi", high_card 694117)])])
                 [[30; 30]; [20; 50]] [(23, 0)])
              [resolve_entry [23; 22] 30 [(23, 30)];
               resolve_entry [23; 22] 20 [(23, 20)]]
              showdown_context [[30; 30]; [20; 50]] [(23, 0)])
    as (Hreturns & Hended & _).
  - reflexivity.
  - reflexivity.
  - reflexivity.
  - destruct (Hended (Hreturns ltac:(vm_compute; reflexivity)))
      as (before & pots & player_rake & Hrun & _ & _ & _ & Hmain & _ & Hrake).
    exists before, pots, player_rake. split; [exact Hrun|]. split.
    + destruct (Hmain (resolve_entry [23; 22] 20 [(23, 20)]) eq_refl)
        as (pot & Hresolved & Hpot).
      injection Hresolved as <-. exact Hpot.
    + apply Hrake; [|apply list_elem_of_here].
      apply (bool_decide_unpack _). vm_compute. exact I.
Defined.



(** ** Each of the two events at most once

    What the two sets of [handle_EndEvent] do ensure: a player is yielded at
    most one "showed" event and at most one "mucked" event in a hand. *)

Section AtMostOnce.

(** The player that the property is about and the kind of event that is
    counted. *)
Variable player : Z.
Variable kind : event -> bool.

Lemma marked_le_1 (players : gset Z) : (marked player players <= 1)%nat.
Proof. unfold marked. destruct (bool_decide _); lia. Qed.

Lemma count_events_app (es es' : list event) :
  count_events kind (es ++ es') = (count_events kind es + count_events kind es')%nat.
Proof. unfold count_events. rewrite List.filter_app, length_app. reflexivity. Qed.

Lemma keeps_bind {A B} (m : gen event Context A) (f : A -> gen event Context B)
    (before : gset Z) (middle : A -> gset Z) (after : B -> gset Z) :
  keeps player kind m before middle ->
  (forall a, keeps player kind (f a) (middle a) after) ->
  keeps player kind (m ≫= f) before after.
Proof.
  intros Hm Hf context. rewrite bind_run.
  destruct (Hm context) as [Hle Hret].
  unfold events_of, context_of, result_of in *.
  destruct (m context) as [[es context'] [a|e]]; simpl in *.
  - specialize (Hret a eq_refl).
    destruct (Hf a context') as [Hle' Hret'].
    unfold events_of, result_of in *.
    rewrite count_events_app. split; [lia|].
    intros b Hb. specialize (Hret' b Hb). lia.
  - split; [exact Hle|]. intros a [=].
Qed.

Lemma keeps_silent {A} (m : gen event Context A) (before : gset Z) (after : A -> gset Z) :
  (forall context, events_of (m context) = []) ->
  (forall context a, result_of (m context) = Return a ->
     player ∈ before -> player ∈ after a) ->
  keeps player kind m before after.
Proof.
  intros Hsilent Hmono context. rewrite Hsilent. simpl.
  split; [apply marked_le_1|].
  intros a Ha. unfold marked.
  destruct (bool_decide_reflect (player ∈ before)) as [Hin|_]; [|lia].
  rewrite bool_decide_eq_true_2 by (eapply Hmono; eassumption). lia.
Qed.

Lemma keeps_yield_other (e : event) (before : gset Z) :
  kind e = false -> keeps player kind (yield e) before (fun _ => before).
Proof.
  intros He context. unfold count_events. simpl. rewrite He. simpl.
  split; [apply marked_le_1 | intros; lia].
Qed.

Lemma keeps_for_each {A B} (l : list B) (body : B -> A -> gen event Context A)
    (set_in : A -> gset Z) (a : A) :
  (forall x a, keeps player kind (body x a) (set_in a) set_in) ->
  keeps player kind (for_each l body a) (set_in a) set_in.
Proof.
  intros Hbody. revert a. induction l as [|x l IH]; intros a; simpl.
  - apply keeps_silent; [reflexivity|].
    intros context a' [= <-] Hin. exact Hin.
  - eapply keeps_bind; [apply Hbody | apply IH].
Qed.

Lemma keeps_lift {A} (r : outcome A) (before : gset Z) (after : A -> gset Z) :
  (forall a, r = Return a -> player ∈ before -> player ∈ after a) ->
  keeps player kind (lift r) before after.
Proof.
  intros Hmono. apply keeps_silent; [reflexivity|].
  intros context a Ha. apply Hmono. exact Ha.
Qed.

Lemma keeps_ret {A} (a : A) (before : gset Z) (after : A -> gset Z) :
  (player ∈ before -> player ∈ after a) ->
  keeps player kind (mret a) before after.
Proof.
  intros Hmono. apply keeps_silent; [reflexivity|].
  intros context a' [= <-]. exact Hmono.
Qed.

(** The set in which the player ends may be forgotten. *)
Lemma keeps_whatever {A} (m : gen event Context A) (before : gset Z)
    (after : A -> gset Z) :
  keeps player kind m before after -> keeps player kind m before (fun _ => {[player]}).
Proof.
  intros Hm context. destruct (Hm context) as [Hle _].
  split; [exact Hle|]. intros a _.
  unfold marked at 2. rewrite bool_decide_eq_true_2 by set_solver. exact Hle.
Qed.

End AtMostOnce.

Section ShowsAndMucks.

Context {pokercards pokereval_hand : Type}.
Variable self : @GenericPokerEventGenerator pokercards pokereval_hand.
Variable player : Z.

Lemma player_should_show_true (showed : gset Z) player_id hands best_high best_low :
  player_should_show showed player_id hands best_high best_low = Return true ->
  player_id ∉ showed.
Proof.
  unfold player_should_show, py_and. simpl.
  destruct (bool_decide_reflect (player_id ∉ showed)) as [Hnot|_];
    [intros _; exact Hnot | discriminate].
Qed.

Ltac count_marks :=
  unfold count_events, marked; simpl;
  repeat match goal with
         | |- context [?p =? ?q] => destruct (Z.eqb_spec p q); subst; simpl
         end;
  repeat case_bool_decide; simpl; try lia; set_solver.

Lemma show_or_muck_keeps_showed best_hands best_high best_low player_id sets :
  keeps player (is_showed player)
    (show_or_muck best_hands best_high best_low player_id sets)
    (players_that_showed sets) players_that_showed.
Proof.
  intros context.
  unfold show_or_muck, events_of, result_of, get, lift, yield,
    context_player_cards, getitem, attr,
    mbind, mret, gen_bind, gen_ret, outcome_bind, outcome_ret.
  destruct (best_hands !! player_id) as [hands|]; simpl;
    [|split; [apply marked_le_1 | intros a [=]]].
  destruct (player_should_show _ _ _ _ _) as [[|]|] eqn:Hshow; simpl;
    [apply player_should_show_true in Hshow | |
     split; [apply marked_le_1 | intros a [=]]].
  - destruct (player_cards context) as [hole|]; simpl;
      [|split; [apply marked_le_1 | intros a [=]]].
    destruct (hole !! player_id); simpl;
      [|split; [apply marked_le_1 | intros a [=]]].
    split; [|intros a [= <-]]; count_marks.
  - destruct (bool_decide (player_id ∉ players_that_mucked sets)); simpl.
    + destruct (player_cards context) as [hole|]; simpl;
        [|split; [apply marked_le_1 | intros a [=]]].
      destruct (hole !! player_id); simpl;
        [|split; [apply marked_le_1 | intros a [=]]].
      split; [|intros a [= <-]]; count_marks.
    + split; [|intros a [= <-]]; count_marks.
Qed.

Lemma show_or_muck_keeps_mucked best_hands best_high best_low player_id sets :
  keeps player (is_mucked player)
    (show_or_muck best_hands best_high best_low player_id sets)
    (players_that_mucked sets) players_that_mucked.
Proof.
  intros context.
  unfold show_or_muck, events_of, result_of, get, lift, yield,
    context_player_cards, getitem, attr,
    mbind, mret, gen_bind, gen_ret, outcome_bind, outcome_ret.
  destruct (best_hands !! player_id) as [hands|]; simpl;
    [|split; [apply marked_le_1 | intros a [=]]].
  destruct (player_should_show _ _ _ _ _) as [[|]|]; simpl;
    [| | split; [apply marked_le_1 | intros a [=]]].
  - destruct (player_cards context) as [hole|]; simpl;
      [|split; [apply marked_le_1 | intros a [=]]].
    destruct (hole !! player_id); simpl;
      [|split; [apply marked_le_1 | intros a [=]]].
    split; [|intros a [= <-]]; count_marks.
  - destruct (bool_decide_reflect (player_id ∉ players_that_mucked sets)); simpl.
    + destruct (player_cards context) as [hole|]; simpl;
        [|split; [apply marked_le_1 | intros a [=]]].
      destruct (hole !! player_id); simpl;
        [|split; [apply marked_le_1 | intros a [=]]].
      split; [|intros a [= <-]]; count_marks.
    + split; [|intros a [= <-]]; count_marks.
Qed.

End ShowsAndMucks.

Section ThroughTheHand.

Context {pokercards pokereval_hand : Type}.
Variable self : @GenericPokerEventGenerator pokercards pokereval_hand.
Variable player : Z.

(** The kind of event that is counted, among shows and mucks, and the set
    that records it. *)
Variable kind : event -> bool.
Variable set_of : shown -> gset Z.
Hypothesis kind_of_show_or_muck : forall e, is_show_or_muck e = false -> kind e = false.
Hypothesis show_or_muck_keeps :
  forall best_hands best_high best_low player_id sets,
    keeps player kind (show_or_muck best_hands best_high best_low player_id sets)
      (set_of sets) set_of.

Lemma resolved_pot_events_keeps pot best_hands
    (collected : Z -> pyvalue -> event) sets :
  (forall player_id amount, is_collected (collected player_id amount) = true) ->
  keeps player kind (resolved_pot_events pot best_hands collected sets)
    (set_of sets) set_of.
Proof using kind_of_show_or_muck show_or_muck_keeps.
  intros Hcollected. unfold resolved_pot_events.
  eapply keeps_bind with (middle := set_of).
  - destruct (truthy best_hands) as [compared|].
    + apply (keeps_for_each player kind _ _ set_of). intros. apply show_or_muck_keeps.
    + apply keeps_ret. auto.
  - intros sets'. eapply keeps_bind with (middle := fun _ => set_of sets').
    + apply (keeps_for_each player kind _ _ (fun _ : unit => set_of sets')).
      intros [player_id won_amount] []. apply keeps_yield_other.
      apply kind_of_show_or_muck.
      specialize (Hcollected player_id (Int won_amount)).
      destruct (collected player_id (Int won_amount)); try discriminate; reflexivity.
    + intros _. apply keeps_ret. auto.
Qed.

Lemma resolution_step_keeps best_hands main_pot_index
    (record : @stack_entry pokereval_hand) state :
  keeps player kind (resolution_step best_hands main_pot_index record state)
    (set_of state.2) (fun state' => set_of state'.2).
Proof using kind_of_show_or_muck show_or_muck_keeps.
  destruct state as [pots sets]. unfold resolution_step. simpl snd.
  eapply keeps_bind with (middle := fun _ => set_of sets);
    [apply keeps_lift; auto|].
  intros t. destruct (String.eqb t "resolve").
  { eapply keeps_bind with (middle := fun _ => set_of sets);
      [apply keeps_lift; auto|].
    intros pot. eapply keeps_bind with (middle := set_of).
    - apply resolved_pot_events_keeps.
      intros. apply collected_from_pot_is_collected.
    - intros sets'. apply keeps_ret. auto. }
  destruct (String.eqb t "uncalled").
  { eapply keeps_bind with (middle := fun _ => set_of sets);
      [apply keeps_lift; auto|].
    intros player_id.
    eapply keeps_bind with (middle := fun _ => set_of sets);
      [apply keeps_lift; auto|].
    intros amount.
    eapply keeps_bind with (middle := fun _ => set_of sets);
      [apply keeps_yield_other, kind_of_show_or_muck; reflexivity|].
    intros _. apply keeps_ret. auto. }
  destruct (String.eqb t "left_over").
  { eapply keeps_bind with (middle := fun _ => set_of sets);
      [apply keeps_lift; auto|].
    intros player_id.
    eapply keeps_bind with (middle := fun _ => set_of sets).
    - apply keeps_yield_other, kind_of_show_or_muck.
      destruct (Z.of_nat (length pots) =? main_pot_index); reflexivity.
    - intros _. apply keeps_ret. auto. }
  apply keeps_ret. auto.
Qed.

Lemma handle_EndEvent_keeps winners (showdown_stack : list (@stack_entry pokereval_hand))
    context :
  (count_events kind (events_of (handle_EndEvent self winners showdown_stack context))
   <= 1)%nat.
Proof using kind_of_show_or_muck show_or_muck_keeps.
  pose (sets := Build_shown ∅ ∅).
  assert (Hkeeps : keeps player kind (handle_EndEvent self winners showdown_stack)
                     (set_of sets) (fun _ => {[player]})).
  { unfold handle_EndEvent.
    eapply keeps_bind with (middle := fun _ => set_of sets);
      [apply keeps_lift; auto|].
    intros end_state.
    eapply keeps_bind with (middle := fun _ => set_of sets);
      [apply keeps_lift; auto|].
    intros best_hands.
    eapply keeps_bind with (middle := fun _ => set_of sets);
      [apply keeps_lift; auto|].
    intros declared.
    eapply keeps_bind with (middle := fun state => set_of state.2).
    - apply (keeps_for_each player kind _ _ (fun state => set_of state.2)
               ([], sets)).
      intros record state. apply resolution_step_keeps.
    - intros state.
      eapply keeps_bind with (middle := fun _ => set_of state.2);
        [apply keeps_lift; auto|].
      intros player_rake. eapply keeps_whatever.
      apply keeps_yield_other, kind_of_show_or_muck. reflexivity. }
  destruct (Hkeeps context) as [Hle _]. lia.
Qed.

End ThroughTheHand.

(** No player is yielded two "showed" events, nor two "mucked" events, in a
    hand; the two sets ensure no more. *)
Theorem each_of_showed_and_mucked_at_most_once
    {pokercards pokereval_hand : Type}
    (self : @GenericPokerEventGenerator pokercards pokereval_hand)
    winners showdown_stack context (player : Z) :
  let run := handle_EndEvent self winners showdown_stack context in
  (count_events (is_showed player) (events_of run) <= 1)%nat
  /\ (count_events (is_mucked player) (events_of run) <= 1)%nat.
Proof.
  intros run. split.
  - apply (handle_EndEvent_keeps self player (is_showed player) players_that_showed).
    + intros []; simpl; congruence.
    + intros. apply show_or_muck_keeps_showed.
  - apply (handle_EndEvent_keeps self player (is_mucked player) players_that_mucked).
    + intros []; simpl; congruence.
    + intros. apply show_or_muck_keeps_mucked.
Qed.

(** * Further properties *)

(** ** The order of hands *)

(** Among hands of one ordering [is_better_than] is a strict order, total
    up to equality of hands: it is irreflexive, asymmetric and transitive,
    and of two hands exactly one is better or they are equal.
    [is_worse_than] is its negation, so that two equal hands are each worse
    than the other. *)
Theorem better_than_is_a_strict_order (a b c : Hand) :
  is_high_class (class_of a) = is_high_class (class_of b) ->
  is_better_than a a = false
  /\ (is_better_than a b = true -> is_better_than b a = false)
  /\ (is_better_than a b = true -> is_better_than b c = true ->
      is_better_than a c = true)
  /\ (is_better_than a b = true /\ is_better_than b a = false /\ hand_eq a b = false
      \/ is_better_than a b = false /\ is_better_than b a = true /\ hand_eq a b = false
      \/ is_better_than a b = false /\ is_better_than b a = false /\ hand_eq a b = true)
  /\ is_worse_than a b = negb (is_better_than a b)
  /\ (hand_eq a b = true -> is_worse_than a b = true /\ is_worse_than b a = true).
Proof.
  intros Hab.
  unfold is_worse_than, is_better_than, hand_eq, HighHand_is_worse_than,
    LowHand_is_worse_than, HighHand_is_better_than, LowHand_is_better_than,
    HighHand_eq, LowHand_eq.
  rewrite <- Hab.
  destruct (is_high_class (class_of a));
    repeat match goal with
           | |- context [?x <? ?y] => destruct (Z.ltb_spec x y)
           | |- context [?x =? ?y] => destruct (Z.eqb_spec x y)
           end; simpl; repeat split; intros; try congruence; try lia;
    solve [ left; repeat split; congruence
          | right; left; repeat split; congruence
          | right; right; repeat split; congruence ].
Qed.

Lemma better_than_is_a_strict_order_witness :
  is_better_than (Build_Hand Flush queen_jack 9) (Build_Hand OnePair [] 2) = true
  /\ is_better_than (Build_Hand OnePair [] 2) (Build_Hand Flush queen_jack 9) = false.
Proof.
  destruct (better_than_is_a_strict_order
              (Build_Hand Flush queen_jack 9) (Build_Hand Straight nine_six 5)
              (Build_Hand OnePair [] 2) eq_refl)
    as (_ & _ & Htrans & _).
  destruct (better_than_is_a_strict_order
              (Build_Hand Flush queen_jack 9) (Build_Hand OnePair [] 2)
              (Build_Hand OnePair [] 2) eq_refl)
    as (_ & Hasym & _).
  assert (Hbetter : is_better_than (Build_Hand Flush queen_jack 9)
                      (Build_Hand OnePair [] 2) = true)
    by (apply Htrans; reflexivity).
  split; [exact Hbetter | apply Hasym, Hbetter].
Defined.

(** ** Descriptions of hands *)

(** A hand of five cards of any category but [FullHouse] and [ThreeOfAKind]
    has a description, and so has a low hand of any number of cards. A
    straight flush whose first card is an ace is "a Royal Flush", whatever
    follows the ace. *)
Theorem other_categories_are_described (self : Hand) :
  (5 <= length (cards self))%nat ->
  class_of self <> HighHand -> class_of self <> FullHouse ->
  class_of self <> ThreeOfAKind ->
  (exists description, hand_str self = Some (Return description))
  /\ (forall ranking cards, exists description,
        hand_str (Build_Hand LowHand cards ranking) = Some (Return description))
  /\ (forall ranking ace others,
        Rank_eq (rank ace) RankAce = true ->
        hand_str (Build_Hand StraightFlush (ace :: others) ranking)
        = Some (Return "a Royal Flush")).
Proof.
  intros Hfive Hbase Hfull Hthree. split; [|split].
  - destruct self as [class cs ranking]. simpl in *.
    destruct cs as [|c0 [|c1 [|c2 [|c3 [|c4 cs]]]]]; simpl in Hfive; try lia.
    destruct class; try congruence;
      unfold hand_str, StraightFlush_str, FourOfAKind_str, Flush_str, Straight_str,
        TwoPair_str, OnePair_str, HighCard_str, LowHand_str; simpl;
      try (eexists; reflexivity).
    destruct (Rank_eq (rank c0) RankAce); eexists; reflexivity.
  - intros ranking cs. eexists. reflexivity.
  - intros ranking ace others Hace.
    unfold hand_str, StraightFlush_str. simpl. rewrite Hace. reflexivity.
Qed.

Lemma other_categories_are_described_witness :
  exists description,
    hand_str (Build_Hand TwoPair
                [Upcard RankTen SuitClubs; Upcard RankTen SuitHearts;
                 Upcard RankFour SuitClubs; Upcard RankFour SuitSpades;
                 Upcard RankAce SuitSpades] 0)
    = Some (Return description).
Proof.
  apply (other_categories_are_described
           (Build_Hand TwoPair
              [Upcard RankTen SuitClubs; Upcard RankTen SuitHearts;
               Upcard RankFour SuitClubs; Upcard RankFour SuitSpades;
               Upcard RankAce SuitSpades] 0));
    [simpl; lia | discriminate | discriminate | discriminate].
Defined.

(** ** Rounds *)

(** A loop that yields one event per item yields them in the order of the
    items. *)
Lemma for_each_yield {E S B} (l : list B) (body : B -> unit -> gen E S unit)
    (event_of : B -> E) (s : S) :
  (forall x a, body x a = yield (event_of x)) ->
  for_each l body tt s = (map event_of l, s, Return tt).
Proof.
  intros Hbody. induction l as [|x l IH]; [reflexivity|].
  simpl for_each. rewrite bind_run, Hbody. simpl.
  unfold events_of, context_of, result_of. rewrite IH. reflexivity.
Qed.

Section Rounds.

Context {pokercards pokereval_hand : Type}.
Variable self : @GenericPokerEventGenerator pokercards pokereval_hand.

Lemma deal_cards_run (dealt_cards : dict Z pokercards) context :
  for_each dealt_cards (fun '(player_id, cards) (_ : unit) =>
    cards ← lift (_convert_pokercards self cards);
    yield (E := event) (S := Context) (CardsDealtToPlayer player_id cards)) tt context
  = ((dealt_events self dealt_cards).1, context, (dealt_events self dealt_cards).2).
Proof.
  induction dealt_cards as [|[player_id cards] dealt_cards IH]; [reflexivity|].
  cbn [for_each dealt_events]. rewrite bind_run, lift_bind_run.
  unfold _convert_pokercards in *.
  destruct (pokercards_converter self cards) as [converted|error]; [|reflexivity].
  unfold events_of, context_of, result_of. cbn [yield fst snd].
  rewrite IH. reflexivity.
Qed.

(** The run of the handler: the board is converted first, then comes the
    street, then the dealt cards. *)
Lemma handle_RoundEvent_run (round_name : string) (community_cards : pokercards)
    (dealt_cards : option (dict Z pokercards)) context :
  handle_RoundEvent self round_name community_cards dealt_cards context
  = match pokercards_converter self community_cards with
    | Raise error => ([], context, Raise error)
    | Return board =>
        let dealt := dealt_events self (default [] dealt_cards) in
        let street_then_cards street := (street ++ dealt.1, context, dealt.2) in
        if String.eqb round_name "pre-flop" then street_then_cards [PreflopRoundStarted]
        else if String.eqb round_name "flop" then street_then_cards [FlopDealt board]
        else if String.eqb round_name "turn" then
          match last board with
          | Some card => street_then_cards [TurnDealt card]
          | None => ([], context, Raise IndexError)
          end
        else if String.eqb round_name "river" then
          match last board with
          | Some card => street_then_cards [RiverDealt card]
          | None => ([], context, Raise IndexError)
          end
        else street_then_cards []
    end.
Proof.
  unfold handle_RoundEvent, _convert_pokercards. rewrite lift_bind_run.
  destruct (pokercards_converter self community_cards) as [board|error];
    [|reflexivity].
  assert (Hdealt : forall context',
            (match dealt_cards with
             | Some dealt_cards =>
                 for_each dealt_cards (fun '(player_id, cards) (_ : unit) =>
                   cards ← lift (pokercards_converter self cards);
                   yield (CardsDealtToPlayer player_id cards)) tt
             | None => mret tt
             end : handler) context'
            = ((dealt_events self (default [] dealt_cards)).1, context',
               (dealt_events self (default [] dealt_cards)).2)).
  { intros context'. destruct dealt_cards as [dealt_to|]; [|reflexivity].
    apply deal_cards_run. }
  rewrite bind_run. unfold list_last.
  destruct (String.eqb round_name "pre-flop");
    [cbn [yield fst snd events_of context_of result_of]; rewrite Hdealt; reflexivity|].
  destruct (String.eqb round_name "flop");
    [cbn [yield fst snd events_of context_of result_of]; rewrite Hdealt; reflexivity|].
  destruct (String.eqb round_name "turn").
  { rewrite lift_bind_run. destruct (last board); [|reflexivity].
    cbn [yield fst snd events_of context_of result_of]. rewrite Hdealt. reflexivity. }
  destruct (String.eqb round_name "river").
  { rewrite lift_bind_run. destruct (last board); [|reflexivity].
    cbn [yield fst snd events_of context_of result_of]. rewrite Hdealt. reflexivity. }
  cbn [mret gen_ret fst snd events_of context_of result_of]. rewrite Hdealt.
  reflexivity.
Qed.

(** The events of the dealt cards: one per player, in the order of the dict,
    when the converter accepts the cards of all, and otherwise those of the
    players before the first whose cards it refuses, with its error. *)
Lemma dealt_events_converted (dealt_cards : dict Z pokercards)
    (converted : dict Z (list Card)) :
  converts self dealt_cards converted ->
  dealt_events self dealt_cards
  = (map (fun '(player_id, cards) => CardsDealtToPlayer player_id cards) converted,
     Return tt).
Proof.
  induction 1 as [|[player_id cards] [player_id' cards'] dealt_cards converted
                   [Hkey Hcards] _ IH]; [reflexivity|].
  simpl in Hkey, Hcards. subst player_id'.
  cbn [dealt_events map]. rewrite Hcards, IH. reflexivity.
Qed.

Lemma dealt_events_refused (before after : dict Z pokercards)
    (converted : dict Z (list Card)) (player_id : Z) (cards : pokercards)
    (error : exception) :
  converts self before converted ->
  pokercards_converter self cards = Raise error ->
  dealt_events self (before ++ (player_id, cards) :: after)
  = (map (fun '(player_id, cards) => CardsDealtToPlayer player_id cards) converted,
     Raise error).
Proof.
  intros Hbefore Hcards.
  induction Hbefore as [|[player_id0 cards0] [player_id' cards'] before converted
                          [Hkey Hcards0] _ IH].
  - cbn [app dealt_events]. rewrite Hcards. reflexivity.
  - simpl in Hkey, Hcards0. subst player_id'.
    cbn [app dealt_events map]. rewrite Hcards0, IH. reflexivity.
Qed.

End Rounds.

(** A Round event leaves the context as it was. The board is converted
    first: when the converter refuses it, the event raises the error of the
    converter, whatever the round, and nothing is yielded. Otherwise the
    street event comes first: "pre-flop" gives the start of the hole cards,
    "flop" the whole converted board, "turn" and "river" its last card, and
    any other round, a blind or a stud round, gives none; on "turn" and
    "river" an empty board raises [IndexError] before anything is yielded,
    the dealt cards included. Then each player whom cards were dealt gets
    one event, in the order of the dict, up to the first player whose cards
    the converter refuses, whose error ends the run. *)
Theorem round_event_gives_street_then_dealt_cards
    {pokercards pokereval_hand : Type}
    (self : @GenericPokerEventGenerator pokercards pokereval_hand)
    (round_name : string) (community_cards : pokercards)
    (dealt_cards : option (dict Z pokercards)) context :
  let run := GenericPokerEventGenerator_generate_from_event self
               (Engine (RoundEvent round_name community_cards dealt_cards)) context in
  let dealt := dealt_events self (default [] dealt_cards) in
  context_of run = context
  /\ (forall error,
        pokercards_converter self community_cards = Raise error ->
        run = ([], context, Raise error))
  /\ (forall board,
        pokercards_converter self community_cards = Return board ->
        (round_name = "pre-flop" ->
         run = (PreflopRoundStarted :: dealt.1, context, dealt.2))
        /\ (round_name = "flop" ->
            run = (FlopDealt board :: dealt.1, context, dealt.2))
        /\ (round_name = "turn" ->
            run = match last board with
                  | Some card => (TurnDealt card :: dealt.1, context, dealt.2)
                  | None => ([], context, Raise IndexError)
                  end)
        /\ (round_name = "river" ->
            run = match last board with
                  | Some card => (RiverDealt card :: dealt.1, context, dealt.2)
                  | None => ([], context, Raise IndexError)
                  end)
        /\ (round_name <> "pre-flop" -> round_name <> "flop" ->
            round_name <> "turn" -> round_name <> "river" ->
            run = (dealt.1, context, dealt.2)))
  /\ (dealt_cards = None -> dealt = ([], Return tt))
  /\ (forall dealt_to converted,
        dealt_cards = Some dealt_to ->
        converts self dealt_to converted ->
        dealt = (map (fun '(player_id, cards) => CardsDealtToPlayer player_id cards)
                   converted,
                 Return tt))
  /\ (forall before player_id cards after converted error,
        dealt_cards = Some (before ++ (player_id, cards) :: after) ->
        converts self before converted ->
        pokercards_converter self cards = Raise error ->
        dealt = (map (fun '(player_id, cards) => CardsDealtToPlayer player_id cards)
                   converted,
                 Raise error)).
Proof.
  intros run dealt. subst run dealt.
  rewrite generate_from_engine_event. simpl handler_of.
  rewrite handle_RoundEvent_run.
  split; [|split; [|split; [|split; [|split]]]].
  - destruct (pokercards_converter self community_cards) as [board|error];
      [|reflexivity].
    cbv zeta. repeat case_match; reflexivity.
  - intros error ->. reflexivity.
  - intros board ->. cbv zeta.
    destruct (String.eqb_spec round_name "pre-flop") as [->|Hpreflop];
      [repeat split; intros; try congruence; reflexivity|].
    destruct (String.eqb_spec round_name "flop") as [->|Hflop];
      [repeat split; intros; try congruence; reflexivity|].
    destruct (String.eqb_spec round_name "turn") as [->|Hturn];
      [destruct (last board); repeat split; intros; try congruence; reflexivity|].
    destruct (String.eqb_spec round_name "river") as [->|Hriver];
      [destruct (last board); repeat split; intros; try congruence; reflexivity|].
    repeat split; intros; try congruence; reflexivity.
  - intros ->. reflexivity.
  - intros dealt_to converted ->. apply dealt_events_converted.
  - intros before player_id cards after converted error ->.
    apply dealt_events_refused.
Qed.

(** ** Sequences of events *)

Section Sequences.

Context {E S : Type}.

Variable I : Type.
Variable class_name : I -> string.
Variable getattr : string -> option (method I E S).

(** The run on a sequence is the run on its first part followed, from the
    context that it leaves, by the run on the rest; an event whose handler
    raises ends the run, and the events after it are not looked at; the
    objects that have no handler may be left out of the sequence. *)
Theorem generate_runs_in_sequence_and_skips_the_unhandled :
  (forall events events' context,
     generate I E S class_name getattr (events ++ events') context
     = (generate I E S class_name getattr events
        ≫= fun _ => generate I E S class_name getattr events') context)
  /\ (forall event events' context yielded context' error,
        generate_from_event I E S class_name getattr event context
        = (yielded, context', Raise error) ->
        generate I E S class_name getattr (event :: events') context
        = (yielded, context', Raise error))
  /\ (forall events context,
        generate I E S class_name getattr
          (List.filter (has_handler class_name getattr) events) context
        = generate I E S class_name getattr events context).
Proof.
  split; [|split].
  - intros events events' context. unfold generate.
    rewrite for_each_app. apply bind_ext_run. intros [] s'. reflexivity.
  - intros event events' context yielded context' error Hrun.
    unfold generate. cbn [for_each]. rewrite bind_run, Hrun. reflexivity.
  - intros events. induction events as [|event events IH]; intros context;
      [reflexivity|].
    simpl List.filter. unfold has_handler at 1.
    destruct (getattr (event_handler I class_name event)) as [handler|] eqn:Hhandler.
    + unfold generate in *. cbn [for_each List.filter].
      apply bind_ext_run. intros [] s'. apply IH.
    + rewrite IH. symmetry. unfold generate at 1. cbn [for_each].
      rewrite bind_run, (generate_from_unhandled _ _ _ _ _ _ _ Hhandler).
      unfold events_of, context_of, result_of, generate.
      destruct (for_each events _ tt context) as [[es s'] r]. reflexivity.
Qed.

End Sequences.

(** ** The start of a hand *)

Section HandStart.

Context {pokercards pokereval_hand : Type}.
Variable self : @GenericPokerEventGenerator pokercards pokereval_hand.

(** The players are seated in the order of the list, from the seat [first]. *)
Lemma seat_players (names : gmap Z string) (player_chips : gmap Z Z)
    (players : list Z) (first : Z) :
  (forall p, p ∈ players -> is_Some (names !! p) /\ is_Some (player_chips !! p)) ->
  exists seated,
    mapM (fun '(seat_number, player_id) =>
            names' ← attr (Some names);
            name ← getitem names' player_id;
            chips ← getitem player_chips player_id;
            mret (Build_Player player_id name seat_number chips))
         (enumerate first players) = Return seated
    /\ length seated = length players
    /\ forall i p, players !! i = Some p ->
         exists name chips,
           names !! p = Some name /\ player_chips !! p = Some chips
           /\ seated !! i = Some (Build_Player p name (first + Z.of_nat i) chips).
Proof.
  revert first. induction players as [|p players IH]; intros first Hknown.
  - exists []. split; [reflexivity|]. split; [reflexivity|]. intros i p [=].
  - destruct (Hknown p) as [[name Hname] [chips Hchips]]; [left|].
    destruct (IH (first + 1)) as (seated & Hseated & Hlength & Hseats).
    { intros q Hq. apply Hknown. right. exact Hq. }
    exists (Build_Player p name first chips :: seated).
    split; [|split].
    + cbn [enumerate mapM]. rewrite Hseated.
      unfold getitem. simpl. rewrite Hname. simpl. rewrite Hchips. reflexivity.
    + simpl. rewrite Hlength. reflexivity.
    + intros [|i] q Hq; simpl in Hq.
      * injection Hq as <-. exists name, chips.
        rewrite Z.add_0_r. repeat split; assumption.
      * destruct (Hseats i q Hq) as (name' & chips' & Hname' & Hchips' & Hseat).
        exists name', chips'. repeat split; try assumption.
        simpl. rewrite Hseat. do 2 f_equal. lia.
Qed.

(** When the players have a name and chips and the betting structure parses,
    a Game event sets the blinds of the context to the parsed amounts and
    yields one "hand started" event, whose players are seated from 0 in the
    order of the event and whose timestamp is the one of the context, not
    the one of the event. When the context has no timestamp the handler
    raises, but the blinds are set all the same. A Blind event that follows
    is classified on the parsed blinds. *)
Theorem game_event_sets_blinds_and_seats_players
    (level hand_id hands_count timestamp button_seat : Z)
    (variant betting_structure : string) (players : list Z)
    (player_chips : gmap Z Z) (names : gmap Z string) (structure : BettingStructure)
    context :
  player_names context = Some names ->
  (forall p, p ∈ players -> is_Some (names !! p) /\ is_Some (player_chips !! p)) ->
  parse_betting_structure betting_structure = Return structure ->
  let game := Engine (GameEvent level hand_id hands_count timestamp variant
                        betting_structure players button_seat player_chips) in
  let run := GenericPokerEventGenerator_generate_from_event self game context in
  let context' := set_blinds (small_blind structure) (big_blind structure) context in
  context_of run = context'
  /\ (hand_timestamp context = None -> run = ([], context', Raise AttributeError))
  /\ (forall now, hand_timestamp context = Some now ->
      exists seated,
        run = ([HandStarted hand_id now variant structure seated], context', Return tt)
        /\ length seated = length players
        /\ (forall i p, players !! i = Some p ->
              exists name chips,
                names !! p = Some name /\ player_chips !! p = Some chips
                /\ seated !! i = Some (Build_Player p name (Z.of_nat i) chips))
        /\ forall player_id posted dead,
             GenericPokerEventGenerator_generate self
               [game; Engine (BlindEvent player_id posted dead)] context
             = (HandStarted hand_id now variant structure seated
                  :: classify_blind (small_blind structure) (big_blind structure)
                       player_id posted dead,
                context', Return tt)).
Proof.
  intros Hnames Hknown Hparse game run context'. subst game run context'.
  destruct (seat_players names player_chips players 0 Hknown)
    as (seated & Hseated & Hlength & Hseats).
  assert (Hrun : forall now_field,
    hand_timestamp context = now_field ->
    GenericPokerEventGenerator_generate_from_event self
      (Engine (GameEvent level hand_id hands_count timestamp variant
                 betting_structure players button_seat player_chips)) context
    = match now_field with
      | Some now =>
          ([HandStarted hand_id now variant structure seated],
           set_blinds (small_blind structure) (big_blind structure) context,
           Return tt)
      | None =>
          ([], set_blinds (small_blind structure) (big_blind structure) context,
           Raise AttributeError)
      end).
  { intros now_field Hnow. rewrite generate_from_engine_event. simpl handler_of.
    unfold handle_GameEvent. rewrite bind_run. simpl.
    rewrite bind_run. unfold lift at 1. rewrite Hnames, Hseated. simpl.
    rewrite bind_run. unfold lift at 1. rewrite Hparse. simpl.
    rewrite Hnow. destruct now_field; reflexivity. }
  split; [|split].
  - rewrite (Hrun _ eq_refl). destruct (hand_timestamp context); reflexivity.
  - intros Hnone. apply (Hrun None Hnone).
  - intros now Hnow. exists seated.
    split; [apply (Hrun (Some now) Hnow)|]. split; [exact Hlength|]. split.
    + intros i p Hp. destruct (Hseats i p Hp) as (name & chips & H1 & H2 & H3).
      exists name, chips. rewrite Z.add_0_l in H3. repeat split; assumption.
    + intros player_id posted dead.
      unfold GenericPokerEventGenerator_generate, generate. cbn [for_each].
      rewrite bind_run.
      change (generate_from_event pyobject event Context class_name
                (GenericPokerEventGenerator_getattr self) ?o)
        with (GenericPokerEventGenerator_generate_from_event self o).
      rewrite (Hrun (Some now) Hnow).
      rewrite bind_run.
      change (generate_from_event pyobject event Context class_name
                (GenericPokerEventGenerator_getattr self) ?o)
        with (GenericPokerEventGenerator_generate_from_event self o).
      rewrite generate_from_engine_event. simpl handler_of.
      rewrite (handle_BlindEvent_classifies _ (small_blind structure)
                 (big_blind structure)) by reflexivity.
      unfold events_of, context_of, result_of. simpl.
      rewrite app_nil_r. reflexivity.
Qed.

End HandStart.

Lemma game_event_sets_blinds_and_seats_players_witness :
  exists structure,
    parse_betting_structure "1-2-no-limit" = Return structure
    /\ context_of
         (GenericPokerEventGenerator_generate_from_event identity_generator
            (Engine (GameEvent 0 7 1 0 "holdem" "1-2-no-limit" [22; 23] 0
                       (<[23 := 2000]> (<[22 := 1000]> ∅))))
            (Build_Context (Some (<[23 := "bob"]> (<[22 := "alice"]> ∅)))
               (Some 1300000000) None None None))
       = set_blinds (small_blind structure) (big_blind structure)
           (Build_Context (Some (<[23 := "bob"]> (<[22 := "alice"]> ∅)))
              (Some 1300000000) None None None).
Proof.
  eexists. split; [vm_compute; reflexivity|].
  refine (proj1 (game_event_sets_blinds_and_seats_players identity_generator
                   0 7 1 0 0 "holdem" "1-2-no-limit" [22; 23]
                   (<[23 := 2000]> (<[22 := 1000]> ∅))
                   (<[23 := "bob"]> (<[22 := "alice"]> ∅)) _
                   (Build_Context (Some (<[23 := "bob"]> (<[22 := "alice"]> ∅)))
                      (Some 1300000000) None None None) eq_refl _ _)).
  - intros p Hp.
    apply elem_of_cons in Hp as [->|Hp]; [|apply elem_of_cons in Hp as [->|Hp]];
      [| |apply elem_of_nil in Hp as []];
      split; eexists; vm_compute; reflexivity.
  - vm_compute. reflexivity.
Defined.

Section HandStartFails.

Context {pokercards pokereval_hand : Type}.
Variable self : @GenericPokerEventGenerator pokercards pokereval_hand.

Lemma seat_unknown_player (names : gmap Z string) (player_chips : gmap Z Z)
    (players : list Z) (first : Z) :
  (exists p, p ∈ players /\ (names !! p = None \/ player_chips !! p = None)) ->
  mapM (fun '(seat_number, player_id) =>
          names' ← attr (Some names);
          name ← getitem names' player_id;
          chips ← getitem player_chips player_id;
          mret (Build_Player player_id name seat_number chips))
       (enumerate first players) = Raise KeyError.
Proof.
  revert first. induction players as [|p players IH]; intros first (q & Hq & Hunknown).
  - apply elem_of_nil in Hq as [].
  - cbn [enumerate mapM]. apply elem_of_cons in Hq as [->|Hq].
    + unfold getitem. simpl. destruct Hunknown as [->|Hchips]; [reflexivity|].
      destruct (names !! p); simpl; [rewrite Hchips|]; reflexivity.
    + rewrite (IH (first + 1)) by (exists q; split; assumption).
      unfold getitem. simpl.
      destruct (names !! p); simpl; [|reflexivity].
      destruct (player_chips !! p); reflexivity.
Qed.

(** A Game event that names a player without a name or without chips raises
    KeyError, whatever its betting structure; one whose players are known and
    whose betting structure is refused raises the parser's error. In both
    cases nothing is yielded and the context is as it was: the blinds are
    only set once the structure is parsed. *)
Theorem game_event_fails_before_the_blinds_are_set
    (level hand_id hands_count timestamp button_seat : Z)
    (variant betting_structure : string) (players : list Z)
    (player_chips : gmap Z Z) (names : gmap Z string) context :
  player_names context = Some names ->
  let run :=
    GenericPokerEventGenerator_generate_from_event self
      (Engine (GameEvent level hand_id hands_count timestamp variant
                 betting_structure players button_seat player_chips)) context in
  ((exists p, p ∈ players /\ (names !! p = None \/ player_chips !! p = None)) ->
     run = ([], context, Raise KeyError))
  /\ ((forall p, p ∈ players -> is_Some (names !! p) /\ is_Some (player_chips !! p)) ->
      forall e, parse_betting_structure betting_structure = Raise e ->
        run = ([], context, Raise e)).
Proof.
  intros Hnames run. subst run. rewrite generate_from_engine_event.
  simpl handler_of. unfold handle_GameEvent. split.
  - intros Hunknown. rewrite bind_run. simpl.
    rewrite bind_run. unfold lift at 1.
    rewrite Hnames, (seat_unknown_player _ _ _ _ Hunknown). reflexivity.
  - intros Hknown e Hparse.
    destruct (seat_players names player_chips players 0 Hknown)
      as (seated & Hseated & _).
    rewrite bind_run. simpl.
    rewrite bind_run. unfold lift at 1. rewrite Hnames, Hseated. simpl.
    rewrite bind_run. unfold lift at 1. rewrite Hparse. reflexivity.
Qed.

End HandStartFails.

Lemma game_event_fails_before_the_blinds_are_set_witness :
  GenericPokerEventGenerator_generate_from_event identity_generator
    (Engine (GameEvent 0 7 1 0 "holdem" "1-2-no-limit" [22; 23] 0
               (<[23 := 2000]> (<[22 := 1000]> ∅))))
    (Build_Context (Some (<[22 := "alice"]> ∅)) (Some 1300000000) None None None)
  = ([], Build_Context (Some (<[22 := "alice"]> ∅)) (Some 1300000000) None None None,
     Raise KeyError).
Proof.
  refine (proj1 (game_event_fails_before_the_blinds_are_set identity_generator
                   0 7 1 0 0 "holdem" "1-2-no-limit" [22; 23]
                   (<[23 := 2000]> (<[22 := 1000]> ∅))
                   (<[22 := "alice"]> ∅)
                   (Build_Context (Some (<[22 := "alice"]> ∅)) (Some 1300000000)
                      None None None) eq_refl) _).
  exists 23. split; [right; left|left; vm_compute; reflexivity].
Defined.

(** ** What writes the context *)

Section ContextWrites.

Context {pokercards pokereval_hand : Type}.
Variable self : @GenericPokerEventGenerator pokercards pokereval_hand.

Lemma handle_EndEvent_reads_only winners
    (showdown_stack : list (@stack_entry pokereval_hand)) context :
  context_of (handle_EndEvent self winners showdown_stack context) = context.
Proof.
  destruct showdown_stack as [|end_state records]; [reflexivity|].
  rewrite handle_EndEvent_run. cbv zeta. repeat case_match; reflexivity.
Qed.

Lemma bind_reads_only {E S A B} (m : gen E S A) (f : A -> gen E S B) (s : S) :
  context_of (m s) = s -> (forall a, context_of (f a s) = s) ->
  context_of ((m ≫= f) s) = s.
Proof.
  intros Hm Hf. rewrite bind_run.
  destruct (m s) as [[es s'] [a|e]]; unfold context_of in Hm; simpl in Hm; subst s'.
  - apply Hf.
  - reflexivity.
Qed.

Lemma handle_RoundEvent_reads_only round_name community_cards
    (dealt_cards : option (dict Z pokercards)) context :
  context_of (handle_RoundEvent self round_name community_cards dealt_cards context)
  = context.
Proof.
  rewrite handle_RoundEvent_run. cbv zeta. repeat case_match; reflexivity.
Qed.

Lemma handle_BlindEvent_reads_only player_id blind_amount dead_amount context :
  context_of (handle_BlindEvent player_id blind_amount dead_amount context) = context.
Proof.
  unfold handle_BlindEvent, context_of, get, lift, yield, py_and, py_or, attr,
    mbind, mret, gen_bind, gen_ret, outcome_bind, outcome_ret.
  repeat case_match; simplify_eq; reflexivity.
Qed.

Lemma generate_from_event_reads_only (o : pyobject) context :
  class_name o <> "GameEvent" -> class_name o <> "ShowdownEvent" ->
  context_of (GenericPokerEventGenerator_generate_from_event self o context) = context.
Proof.
  intros Hgame Hshowdown. destruct o as [e|name].
  - rewrite generate_from_engine_event. destruct e; simpl handler_of;
      try reflexivity; try (simpl in Hgame, Hshowdown; congruence).
    + apply handle_RoundEvent_reads_only.
    + apply handle_BlindEvent_reads_only.
    + apply handle_EndEvent_reads_only.
  - unfold GenericPokerEventGenerator_generate_from_event, generate_from_event,
      GenericPokerEventGenerator_getattr, GenericPokerEventGenerator_methods,
      event_handler.
    cbn [class_name dict_lookup]. repeat case_match; simplify_eq; reflexivity.
Qed.

(** Only the Game and Showdown events write the context. A run over objects
    of any other class, handled or not, leaves the context as it was,
    whether it returns or raises. *)
Theorem only_game_and_showdown_events_write_the_context
    (events : list pyobject) context :
  Forall (fun o => class_name o <> "GameEvent" /\ class_name o <> "ShowdownEvent")
    events ->
  context_of (GenericPokerEventGenerator_generate self events context) = context.
Proof.
  intros Hevents. induction Hevents as [|o events [Hgame Hshowdown] _ IH];
    [reflexivity|].
  unfold GenericPokerEventGenerator_generate, generate. cbn [for_each].
  rewrite bind_run.
  pose proof (generate_from_event_reads_only o context Hgame Hshowdown) as Ho.
  unfold GenericPokerEventGenerator_generate_from_event in Ho.
  destruct (generate_from_event pyobject event Context class_name
              (GenericPokerEventGenerator_getattr self) o context)
    as [[es s'] [[]|e]]; unfold context_of in Ho; simpl in Ho; subst s';
    [|reflexivity].
  exact IH.
Qed.

End ContextWrites.

Lemma only_game_and_showdown_events_write_the_context_witness :
  context_of
    (GenericPokerEventGenerator_generate identity_generator
       [Engine (BlindEvent 22 10 0); Other "TimeoutEvent";
        Engine (RoundEvent "turn" [] None); Engine (EndEvent [23] fold_stack)]
       showdown_context)
  = showdown_context.
Proof.
  apply (only_game_and_showdown_events_write_the_context identity_generator).
  repeat constructor; discriminate.
Defined.

(** ** The end of a hand, record by record *)

Section EndOfHandRecords.

Context {pokercards pokereval_hand : Type}.
Variable self : @GenericPokerEventGenerator pokercards pokereval_hand.
Implicit Types (record : @stack_entry pokereval_hand).
Implicit Types (records : list (@stack_entry pokereval_hand)).

Lemma resolution_step_passes_over (best_hands : option (gmap Z BestHands))
    main_pot_index record state context :
  passed_over record = true ->
  resolution_step best_hands main_pot_index record state context
  = ([], context, Return state).
Proof.
  unfold passed_over, resolution_step. destruct state as [pots sets].
  destruct (type record) as [t|]; [|discriminate]. intros Hpassed.
  rewrite bind_run. simpl.
  destruct (String.eqb t "resolve"); [discriminate|].
  destruct (String.eqb t "uncalled"); [discriminate|].
  destruct (String.eqb t "left_over"); [discriminate|]. reflexivity.
Qed.

Lemma resolution_loop_passes_over (best_hands : option (gmap Z BestHands))
    main_pot_index records state context :
  for_each records (resolution_step best_hands main_pot_index) state context
  = for_each (List.filter (fun record => negb (passed_over record)) records)
      (resolution_step best_hands main_pot_index) state context.
Proof.
  revert state context. induction records as [|record records IH];
    intros state context; [reflexivity|].
  cbn [List.filter]. destruct (passed_over record) eqn:Hpassed; cbn [negb for_each].
  - rewrite bind_run, (resolution_step_passes_over _ _ _ _ _ Hpassed).
    unfold events_of, context_of, result_of. rewrite <- IH.
    destruct (for_each records _ state context) as [[es s'] r]. reflexivity.
  - apply bind_ext_run. intros state' context'. apply IH.
Qed.

(** An End event reads its game state first. An empty stack raises
    [IndexError]. Then the best hands are converted: they are when the
    converter accepts every hand of [serial2best], and a hand that it refuses
    makes the event raise. Then the declared pots are read, and a game state
    without them raises [KeyError]. All this comes before any record is
    looked at: nothing is yielded. The records of a type that the loop does
    not know are passed over: the run is the one of the stack without
    them. *)
Theorem end_event_reads_the_game_state_first_and_passes_over_unknown_records
    winners context :
  handle_EndEvent self winners [] context = ([], context, Raise IndexError)
  /\ (forall end_state records error,
        get_best_hands self end_state = Raise error ->
        handle_EndEvent self winners (end_state :: records) context
        = ([], context, Raise error))
  /\ (forall end_state records (best_hands : option (gmap Z BestHands)),
        get_best_hands self end_state = Return best_hands ->
        declared_pots end_state = None ->
        handle_EndEvent self winners (end_state :: records) context
        = ([], context, Raise KeyError))
  /\ (forall end_state records,
        handle_EndEvent self winners (end_state :: records) context
        = handle_EndEvent self winners
            (end_state :: List.filter (fun record => negb (passed_over record)) records)
            context)
  /\ (forall end_state : @stack_entry pokereval_hand,
        (forall best player_id hands hand_type hand,
           serial2best end_state = Some best ->
           (player_id, hands) ∈ best -> (hand_type, hand) ∈ hands ->
           exists converted, pokereval_best_hand_converter self hand = Return converted) ->
        exists best_hands, get_best_hands self end_state = Return best_hands)
  /\ (forall (end_state : @stack_entry pokereval_hand)
             best player_id hands hand_type hand error,
        serial2best end_state = Some best ->
        (player_id, hands) ∈ best -> (hand_type, hand) ∈ hands ->
        pokereval_best_hand_converter self hand = Raise error ->
        exists error', get_best_hands self end_state = Raise error').
Proof.
  split; [reflexivity|]. split; [|split; [|split; [|split]]].
  - intros end_state records error Hraises.
    rewrite handle_EndEvent_run, Hraises. reflexivity.
  - intros end_state records best_hands Hreturns Hnone.
    rewrite handle_EndEvent_run, Hreturns, Hnone. reflexivity.
  - intros end_state records. rewrite !handle_EndEvent_run.
    destruct (get_best_hands self end_state) as [best_hands|error]; [|reflexivity].
    destruct (declared_pots end_state) as [declared|]; [|reflexivity].
    cbv zeta. rewrite <- resolution_loop_passes_over. reflexivity.
  - apply get_best_hands_returns.
  - apply get_best_hands_raises.
Qed.

Lemma resolve_step_without_showdown (best_hands : option (gmap Z BestHands))
    main_pot_index (resolved : ResolvedPot) pots sets context :
  truthy best_hands = None ->
  resolution_step best_hands main_pot_index
    (resolve_entry (pokereval_hand := pokereval_hand) (eligible_players resolved)
       (pot_amount resolved) (winners resolved))
    (pots, sets) context
  = (map (fun '(player_id, amount) =>
            if Z.of_nat (length pots) =? main_pot_index
            then PlayerCollectedFromMainPot player_id (Int amount)
            else PlayerCollectedFromSidePot player_id (Int amount)
                   (Z.of_nat (length pots)))
         (winners resolved),
     context, Return (resolved :: pots, sets)).
Proof.
  intros Hnone. unfold resolution_step. rewrite bind_run. simpl.
  rewrite bind_run. simpl. rewrite bind_run.
  unfold resolved_pot_events. rewrite Hnone. rewrite bind_run. simpl.
  rewrite bind_run.
  rewrite (for_each_yield _ _
             (fun '(player_id, amount) =>
                if Z.of_nat (length pots) =? main_pot_index
                then PlayerCollectedFromMainPot player_id (Int amount)
                else PlayerCollectedFromSidePot player_id (Int amount)
                       (Z.of_nat (length pots)))).
  - simpl. rewrite !app_nil_r. destruct resolved. reflexivity.
  - intros [player_id amount] _.
    destruct (Z.of_nat (length pots) =? main_pot_index); reflexivity.
Qed.

Lemma resolve_loop_without_showdown (best_hands : option (gmap Z BestHands))
    main_pot_index (resolved : list ResolvedPot) pots sets context :
  truthy best_hands = None ->
  for_each (map (fun p => resolve_entry (pokereval_hand := pokereval_hand)
                            (eligible_players p) (pot_amount p) (winners p))
                resolved)
    (resolution_step best_hands main_pot_index) (pots, sets) context
  = (concat (imap (fun i p =>
               map (fun '(player_id, amount) =>
                      if Z.of_nat (length pots + i) =? main_pot_index
                      then PlayerCollectedFromMainPot player_id (Int amount)
                      else PlayerCollectedFromSidePot player_id (Int amount)
                             (Z.of_nat (length pots + i)))
                   (winners p)) resolved),
     context, Return (reverse resolved ++ pots, sets)).
Proof.
  intros Hnone. revert pots. induction resolved as [|p resolved IH]; intros pots;
    [reflexivity|].
  cbn [map for_each imap concat]. rewrite bind_run.
  rewrite (resolve_step_without_showdown _ _ _ _ _ _ Hnone).
  unfold events_of, context_of, result_of. cbn [fst snd]. rewrite IH.
  cbn [fst snd length]. rewrite Nat.add_0_r, reverse_cons, <- app_assoc.
  cbn [app]. do 4 f_equal. apply imap_ext. intros i q _. unfold compose.
  replace (S (length pots) + i)%nat with (length pots + S i)%nat by lia.
  reflexivity.
Qed.

(** In a hand without best hands whose stack holds resolve records only, the
    winners of the record of index [i] collect their share, in the order of
    the shares, from the side pot [i], or from the main pot when [i] is the
    number of declared pots minus one; then the hand ends with the pots in
    reverse order. A record beyond the declared pots collects from a side
    pot. *)
Theorem winners_collect_from_the_pot_at_the_position_of_the_record
    winners' (best : option (dict Z (dict string pokereval_hand)))
    (declared : list (list Z)) (rake : dict Z Z) (resolved : list ResolvedPot)
    context :
  best = None \/ best = Some [] ->
  handle_EndEvent self winners'
    (game_state_entry best declared rake
     :: map (fun p => resolve_entry (eligible_players p) (pot_amount p) (winners p))
          resolved)
    context
  = (concat (imap (fun i p =>
               map (fun '(player_id, amount) =>
                      if Z.of_nat i =? Z.of_nat (length declared) - 1
                      then PlayerCollectedFromMainPot player_id (Int amount)
                      else PlayerCollectedFromSidePot player_id (Int amount)
                             (Z.of_nat i))
                   (winners p)) resolved)
     ++ [HandEnded (reverse resolved) (dict_of_items rake)],
     context, Return tt).
Proof.
  intros Hbest.
  assert (Hnone : exists best_hands,
            get_best_hands self (game_state_entry best declared rake)
            = Return best_hands
            /\ truthy best_hands = None).
  { destruct Hbest as [->| ->]; eexists; split; reflexivity. }
  destruct Hnone as (best_hands & Hreturns & Hnone).
  rewrite handle_EndEvent_run, Hreturns.
  change (declared_pots (game_state_entry best declared rake)) with (Some declared).
  change (serial2rake (game_state_entry best declared rake)) with (Some rake).
  cbv beta iota zeta. rewrite (resolve_loop_without_showdown _ _ _ [] _ _ Hnone).
  unfold events_of, result_of. cbn [fst snd]. rewrite app_nil_r. reflexivity.
Qed.

End EndOfHandRecords.

Lemma winners_collect_from_the_pot_at_the_position_of_the_record_witness :
  handle_EndEvent identity_generator [22; 23]
    (game_state_entry None [[30; 30]; [20; 50]] [(22, 1); (23, 2)]
     :: map (fun p => resolve_entry (eligible_players p) (pot_amount p) (winners p))
          [Build_ResolvedPot 30 [22; 23] [(22, 15); (23, 15)];
           Build_ResolvedPot 20 [23] [(23, 20)]])
    Context_new
  = ([PlayerCollectedFromSidePot 22 (Int 15) 0;
      PlayerCollectedFromSidePot 23 (Int 15) 0;
      PlayerCollectedFromMainPot 23 (Int 20);
      HandEnded [Build_ResolvedPot 20 [23] [(23, 20)];
                 Build_ResolvedPot 30 [22; 23] [(22, 15); (23, 15)]]
        (dict_of_items [(22, 1); (23, 2)])],
     Context_new, Return tt).
Proof.
  apply (winners_collect_from_the_pot_at_the_position_of_the_record
           identity_generator [22; 23] None [[30; 30]; [20; 50]] [(22, 1); (23, 2)]
           [Build_ResolvedPot 30 [22; 23] [(22, 15); (23, 15)];
            Build_ResolvedPot 20 [23] [(23, 20)]] Context_new).
  left. reflexivity.
Defined.

(** ** Amounts *)

Lemma Decimal_digits_read (s rest : string) (seen_point : bool) (ndigits acc : nat)
    (exp : Z) :
  all_digits s = true ->
  Decimal_digits (s +:+ rest) seen_point ndigits (Z.of_nat acc) exp
  = Decimal_digits rest seen_point (ndigits + String.length s)
      (Z.of_nat (nat_of_digits s acc))
      (if seen_point then exp - Z.of_nat (String.length s) else exp).
Proof.
  revert ndigits acc exp. induction s as [|c s IH]; intros ndigits acc exp Hdigits.
  - simpl. rewrite Nat.add_0_r, Z.sub_0_r. destruct seen_point; reflexivity.
  - simpl in Hdigits. apply andb_prop in Hdigits as [Hc Hs].
    change (String c s +:+ rest) with (String c (s +:+ rest)).
    cbn [Decimal_digits nat_of_digits String.length]. rewrite Hc.
    replace (10 * Z.of_nat acc + Z.of_nat (digit_value c))
      with (Z.of_nat (10 * acc + digit_value c)) by lia.
    rewrite (IH _ _ _ Hs). f_equal; [lia|].
    destruct seen_point; [lia|reflexivity].
Qed.

Lemma nat_of_digits_app (s s' : string) (acc : nat) :
  nat_of_digits (s +:+ s') acc = nat_of_digits s' (nat_of_digits s acc).
Proof.
  revert acc. induction s as [|c s IH]; intros acc; [reflexivity|].
  change (String c s +:+ s') with (String c (s +:+ s')). apply IH.
Qed.

Lemma string_length_app (s s' : string) :
  String.length (s +:+ s') = (String.length s + String.length s')%nat.
Proof.
  induction s as [|c s IH]; [reflexivity|].
  change (String c s +:+ s') with (String c (s +:+ s')). simpl. rewrite IH.
  reflexivity.
Qed.

Lemma count_digits_bound (fuel : nat) (c k : Z) :
  0 <= c < 10 ^ k -> 1 <= k -> count_digits fuel c <= k.
Proof.
  revert c k. induction fuel as [|fuel IH]; intros c k Hc Hk; simpl; [lia|].
  destruct (c <? 10) eqn:Hsmall; [lia|]. apply Z.ltb_ge in Hsmall.
  assert (2 <= k).
  { destruct (Z.eq_dec k 1) as [->|]; [|lia]. change (10 ^ 1) with 10 in Hc. lia. }
  specialize (IH (c / 10) (k - 1)).
  assert (0 <= c / 10 < 10 ^ (k - 1)); [|lia].
  split; [apply Z.div_pos; lia|].
  apply Z.div_lt_upper_bound; [lia|].
  replace (10 * 10 ^ (k - 1)) with (10 ^ k); [lia|].
  replace k with (1 + (k - 1)) at 1 by lia.
  rewrite Z.pow_add_r by lia. reflexivity.
Qed.

Lemma Decimal_mul_int_exact (d : Decimal) (n : Z) :
  0 <= coefficient d * n < 10 ^ prec ->
  Decimal_mul_int d n = Build_Decimal (coefficient d * n) (exponent d).
Proof.
  intros Hbound. unfold Decimal_mul_int, Decimal_fix, num_digits.
  cbn [coefficient exponent].
  pose proof (count_digits_bound (S (Z.to_nat (Z.log2 (coefficient d * n))))
                (coefficient d * n) prec Hbound ltac:(unfold prec; lia)) as Hcount.
  apply Z.leb_le in Hcount. rewrite Hcount. reflexivity.
Qed.

(** The amount of a numeral [whole.frac] is its value times the scale, cut
    (not rounded) to an integer, as long as the product has at most 28
    digits; the amount of a numeral without a point is its value times the
    scale. A numeral without any digit is refused. *)
Theorem amount_is_the_scaled_value_cut_to_an_integer
    (whole frac : string) (scale_factor : Z) :
  all_digits whole = true -> all_digits frac = true -> 0 <= scale_factor ->
  let value := Z.of_nat (nat_of_digits (whole +:+ frac) 0) in
  (value * scale_factor < 10 ^ 28 ->
   (0 < String.length (whole +:+ frac))%nat ->
   amount_string_to_int (whole +:+ "." +:+ frac) scale_factor
   = Return (value * scale_factor / 10 ^ Z.of_nat (String.length frac)))
  /\ (Z.of_nat (nat_of_digits whole 0) * scale_factor < 10 ^ 28 ->
      (0 < String.length whole)%nat ->
      amount_string_to_int whole scale_factor
      = Return (Z.of_nat (nat_of_digits whole 0) * scale_factor))
  /\ amount_string_to_int "." scale_factor = Raise InvalidOperation
  /\ amount_string_to_int "" scale_factor = Raise InvalidOperation.
Proof.
  intros Hwhole Hfrac Hscale value. subst value.
  assert (Happ : forall s, s +:+ "" = s).
  { induction s as [|c s IH]; [reflexivity|].
    change (String c s +:+ "") with (String c (s +:+ "")). rewrite IH.
    reflexivity. }
  split; [|split; [|split; reflexivity]].
  - intros Hbound Hlength. unfold amount_string_to_int, Decimal_of_string.
    rewrite (Decimal_digits_read whole _ false 0 0 0 Hwhole).
    change ("." +:+ frac) with (String "." frac).
    cbn [Decimal_digits]. change (is_digit ".") with false.
    change (Ascii.eqb "." "." && negb false) with true. cbn iota.
    rewrite <- (Happ frac) at 1.
    rewrite (Decimal_digits_read frac "" true _ _ 0 Hfrac).
    cbn [Decimal_digits]. rewrite string_length_app in Hlength.
    destruct (0 <? _)%nat eqn:Hsome; [|apply Nat.ltb_ge in Hsome; lia].
    cbn. rewrite <- nat_of_digits_app.
    rewrite Decimal_mul_int_exact by (cbn; unfold prec; lia).
    unfold Decimal_int. cbn [exponent coefficient].
    destruct (0 <=? 0 - Z.of_nat (String.length frac)) eqn:Hexp.
    + apply Z.leb_le in Hexp.
      replace (Z.of_nat (String.length frac)) with 0 by lia. cbn.
      rewrite Z.mul_1_r, Z.div_1_r. reflexivity.
    + do 3 f_equal. lia.
  - intros Hbound Hlength. unfold amount_string_to_int, Decimal_of_string.
    pose proof (Decimal_digits_read whole "" false 0 0 0 Hwhole) as Hread.
    rewrite Happ in Hread. change (Z.of_nat 0) with 0 in Hread. rewrite Hread.
    cbn [Decimal_digits].
    destruct (0 <? _)%nat eqn:Hsome; [|apply Nat.ltb_ge in Hsome; lia].
    cbn. rewrite Decimal_mul_int_exact by (cbn; unfold prec; lia).
    unfold Decimal_int. cbn. rewrite Z.mul_1_r. reflexivity.
Qed.

Lemma amount_is_the_scaled_value_cut_to_an_integer_witness :
  amount_string_to_int "0.125" 100 = Return 12
  /\ amount_string_to_int "25" 100 = Return 2500.
Proof.
  destruct (amount_is_the_scaled_value_cut_to_an_integer "0" "125" 100
              eq_refl eq_refl ltac:(lia)) as (Hpoint & _).
  destruct (amount_is_the_scaled_value_cut_to_an_integer "25" "" 100
              eq_refl eq_refl ltac:(lia)) as (_ & Hwhole & _).
  split.
  - exact (Hpoint ltac:(vm_compute; reflexivity) ltac:(vm_compute; lia)).
  - exact (Hwhole ltac:(vm_compute; reflexivity) ltac:(vm_compute; lia)).
Defined.

(** ** Betting structures *)

Lemma append_cons (c : ascii) (s r : string) : String c s +:+ r = String c (s +:+ r).
Proof. reflexivity. Qed.

Lemma append_nil (r : string) : "" +:+ r = r.
Proof. reflexivity. Qed.

Lemma consumed_prefix (a rest : string) : consumed (a +:+ rest) rest = a.
Proof.
  unfold consumed. rewrite string_length_app.
  replace (String.length a + String.length rest - String.length rest)%nat
    with (String.length a) by lia.
  induction a as [|c a IH]; [rewrite append_nil; destruct rest; reflexivity|].
  rewrite append_cons. simpl. rewrite IH. reflexivity.
Qed.

Lemma digit_is_no_dash (c : ascii) (s r : string) :
  is_digit c = true -> String c s <> String "-" r.
Proof. intros Hc [= -> _]. discriminate Hc. Qed.

(** The digits before a dash are read up to the dash, when nothing but a
    dash lets the rest of the pattern go on. *)
Lemma star_digits (ds rest : string) (k : string -> option groups) :
  all_digits ds = true ->
  (forall s', (forall r, s' <> String "-" r) -> k s' = None) ->
  star_class is_digit (ds +:+ String "-" rest) k = k (String "-" rest).
Proof.
  intros Hds Hk. induction ds as [|c ds IH].
  - rewrite append_nil. reflexivity.
  - simpl in Hds. apply andb_prop in Hds as [Hc Hds].
    rewrite append_cons. cbn [star_class]. rewrite Hc, (IH Hds).
    destruct (k (String "-" rest)); [reflexivity|].
    apply Hk. intros r. apply digit_is_no_dash. exact Hc.
Qed.

Lemma plus_digits (ds rest : string) (g : groups)
    (k : string -> groups -> option groups) :
  all_digits ds = true -> ds <> "" ->
  (forall s' g', (forall r, s' <> String "-" r) -> k s' g' = None) ->
  rmatch (Plus is_digit) (ds +:+ String "-" rest) g k = k (String "-" rest) g.
Proof.
  intros Hds Hsome Hk. destruct ds as [|c ds]; [congruence|].
  simpl in Hds. apply andb_prop in Hds as [Hc Hds].
  rewrite append_cons. cbn [rmatch]. rewrite Hc.
  apply (star_digits ds rest (fun s'' => k s'' g) Hds).
  intros s' Hs'. apply Hk. exact Hs'.
Qed.

Lemma rmatch_Seq r1 r2 s g k :
  rmatch (Seq r1 r2) s g k = rmatch r1 s g (fun s' g' => rmatch r2 s' g' k).
Proof. reflexivity. Qed.

Lemma rmatch_Opt r s g k :
  rmatch (Opt r) s g k
  = match rmatch r s g k with Some g' => Some g' | None => k s g end.
Proof. reflexivity. Qed.

Lemma rmatch_Chr c c' s g k :
  rmatch (Chr c) (String c' s) g k = if Ascii.eqb c c' then k s g else None.
Proof. reflexivity. Qed.

Lemma rmatch_Class p c' s g k :
  rmatch (Class p) (String c' s) g k = if p c' then k s g else None.
Proof. reflexivity. Qed.

Lemma rmatch_Plus p c' s g k :
  rmatch (Plus p) (String c' s) g k
  = if p c' then star_class p s (fun s'' => k s'' g) else None.
Proof. reflexivity. Qed.

Lemma rmatch_Group i r s g k :
  rmatch (Group i r) s g k
  = rmatch r s g (fun s' g' => k s' (<[i := Some (consumed s s')]> g')).
Proof. reflexivity. Qed.

Lemma digit_is_no_point (c : ascii) : is_digit c = true -> Ascii.eqb "." c = false.
Proof.
  intros Hc. destruct (Ascii.eqb_spec "." c) as [<-|_]; [discriminate Hc|reflexivity].
Qed.

Section AmountPattern.

Variables (rest : string) (g : groups) (k : string -> groups -> option groups).
Hypothesis only_a_dash_goes_on :
  forall s' g', (forall r, s' <> String "-" r) -> k s' g' = None.

Lemma point_digits_at_digits (ds : string) :
  all_digits ds = true -> ds <> "" ->
  rmatch (Seq (Opt (Chr ".")) (Plus is_digit)) (ds +:+ String "-" rest) g k
  = k (String "-" rest) g.
Proof.
  intros Hds Hsome. rewrite rmatch_Seq, rmatch_Opt. cbv beta.
  rewrite (plus_digits ds rest g k Hds Hsome only_a_dash_goes_on).
  destruct ds as [|c ds]; [congruence|]. rewrite append_cons, rmatch_Chr.
  simpl in Hds. apply andb_prop in Hds as [Hc _].
  rewrite (digit_is_no_point c Hc). reflexivity.
Qed.

Lemma point_digits_at_point (frac : string) :
  all_digits frac = true -> frac <> "" ->
  rmatch (Seq (Opt (Chr ".")) (Plus is_digit))
    (String "." (frac +:+ String "-" rest)) g k
  = k (String "-" rest) g.
Proof.
  intros Hfrac Hsome. rewrite rmatch_Seq, rmatch_Opt, rmatch_Chr.
  change (Ascii.eqb "." ".") with true. cbv beta iota.
  rewrite (plus_digits frac rest g k Hfrac Hsome only_a_dash_goes_on).
  rewrite rmatch_Plus. change (is_digit ".") with false. cbv iota.
  destruct (k (String "-" rest) g); reflexivity.
Qed.

Lemma point_digits_at_dash :
  rmatch (Seq (Opt (Chr ".")) (Plus is_digit)) (String "-" rest) g k = None.
Proof. reflexivity. Qed.

Lemma point_digits_at_digit_point (c : ascii) (s : string) :
  is_digit c = true ->
  rmatch (Seq (Opt (Chr ".")) (Plus is_digit)) (String c (String "." s)) g k = None.
Proof.
  intros Hc. rewrite rmatch_Seq, rmatch_Opt, rmatch_Chr.
  rewrite (digit_is_no_point c Hc). cbv beta. rewrite rmatch_Plus, Hc.
  cbn [star_class]. change (is_digit ".") with false. cbv iota.
  apply only_a_dash_goes_on. intros r [=].
Qed.

(** The pattern of an amount, before a dash, reads an amount in full. *)
Lemma amount_is_read (a : string) :
  is_amount a = true ->
  rmatch (Seq (Opt (Class is_digit)) (Seq (Opt (Chr ".")) (Plus is_digit)))
    (a +:+ String "-" rest) g k
  = k (String "-" rest) g.
Proof.
  intros Ha. destruct a as [|c a]; [discriminate|]. unfold is_amount in Ha.
  rewrite append_cons, rmatch_Seq, rmatch_Opt, rmatch_Class. cbv beta.
  destruct (Ascii.eqb_spec c ".") as [->|Hc].
  - apply andb_prop in Ha as [Hsome Hfrac].
    apply negb_true_iff, String.eqb_neq in Hsome.
    change (is_digit ".") with false. cbv iota.
    apply point_digits_at_point; assumption.
  - apply andb_prop in Ha as [Hdigit Ha]. rewrite Hdigit.
    destruct a as [|c' a].
    + rewrite append_nil, point_digits_at_dash.
      apply (point_digits_at_digits (String c ""));
        [simpl; rewrite Hdigit; reflexivity|discriminate].
    + rewrite append_cons. destruct (Ascii.eqb_spec c' ".") as [->|Hc'].
      * apply andb_prop in Ha as [Hsome Hfrac].
        apply negb_true_iff, String.eqb_neq in Hsome.
        rewrite (point_digits_at_point a Hfrac Hsome).
        rewrite (point_digits_at_digit_point c _ Hdigit).
        destruct (k (String "-" rest) g); reflexivity.
      * rewrite <- append_cons.
        rewrite (point_digits_at_digits (String c' a) Ha ltac:(discriminate)).
        rewrite <- append_cons.
        rewrite (point_digits_at_digits (String c (String c' a)));
          [|simpl; rewrite Hdigit; exact Ha|discriminate].
        destruct (k (String "-" rest) g); reflexivity.
Qed.

End AmountPattern.

Lemma consumed_all (s : string) : consumed s "" = s.
Proof.
  unfold consumed. simpl. rewrite Nat.sub_0_r.
  induction s as [|c s IH]; [reflexivity|]. simpl. rewrite IH. reflexivity.
Qed.

(** The keyword is read to the end of a text without newline. *)
Lemma star_any_char (s : string) (k : string -> option groups) :
  one_line s = true -> is_Some (k "") -> star_class any_char s k = k "".
Proof.
  intros Hs [g Hk]. induction s as [|c s IH]; [reflexivity|].
  simpl in Hs. apply andb_prop in Hs as [Hc Hs].
  cbn [star_class]. rewrite Hc, (IH Hs), Hk. reflexivity.
Qed.

Lemma keyword_is_read (keyword : string) (g : groups) :
  one_line keyword = true -> keyword <> "" ->
  rmatch (Group 3 (Plus any_char)) keyword g (fun _ g' => Some g')
  = Some (<[3%nat := Some keyword]> g).
Proof.
  intros Hline Hsome. destruct keyword as [|c keyword]; [congruence|].
  simpl in Hline. apply andb_prop in Hline as [Hc Hline].
  rewrite rmatch_Group, rmatch_Plus, Hc.
  rewrite (star_any_char keyword _ Hline) by (eexists; reflexivity).
  rewrite consumed_all. reflexivity.
Qed.

Lemma dash_goes_on (r : regex) (k : string -> groups -> option groups)
    (update : string -> groups -> groups) (s' : string) (g' : groups) :
  (forall rest, s' <> String "-" rest) ->
  rmatch (Seq (Chr "-") r) s' (update s' g') k = None.
Proof.
  intros Hs'. rewrite rmatch_Seq. destruct s' as [|c s']; [reflexivity|].
  rewrite rmatch_Chr. destruct (Ascii.eqb_spec "-" c) as [<-|_]; [|reflexivity].
  destruct (Hs' s'). reflexivity.
Qed.

(** After the optional prefix, the pattern reads the two amounts and the
    keyword into the last three groups. *)
Lemma amounts_and_keyword_are_read (small big keyword : string) (g0 : option string) :
  is_amount small = true -> is_amount big = true ->
  one_line keyword = true -> keyword <> "" ->
  rmatch
    (Seq (Group 1 (Seq (Opt (Class is_digit)) (Seq (Opt (Chr ".")) (Plus is_digit))))
    (Seq (Chr "-")
    (Seq (Group 2 (Seq (Opt (Class is_digit)) (Seq (Opt (Chr ".")) (Plus is_digit))))
    (Seq (Chr "-")
         (Group 3 (Plus any_char))))))
    (small +:+ String "-" (big +:+ String "-" keyword))
    [g0; None; None; None] (fun _ g => Some g)
  = Some [g0; Some small; Some big; Some keyword].
Proof.
  intros Hsmall Hbig Hline Hsome.
  rewrite rmatch_Seq, rmatch_Group.
  rewrite (amount_is_read _ _
             (fun s' g' =>
                rmatch (Seq (Chr "-") _) s'
                  (<[1%nat := Some (consumed (small +:+ String "-"
                                       (big +:+ String "-" keyword)) s')]> g')
                  (fun _ g => Some g)))
    by (try exact Hsmall; intros s' g' Hs';
        apply (dash_goes_on _ _ (fun s' g' => <[1%nat := Some (consumed _ s')]> g'));
        exact Hs').
  rewrite consumed_prefix, rmatch_Seq, rmatch_Chr.
  change (Ascii.eqb "-" "-") with true. cbv beta iota.
  rewrite rmatch_Seq, rmatch_Group.
  rewrite (amount_is_read _ _
             (fun s' g' =>
                rmatch (Seq (Chr "-") _) s'
                  (<[2%nat := Some (consumed (big +:+ String "-" keyword) s')]> g')
                  (fun _ g => Some g)))
    by (try exact Hbig; intros s' g' Hs';
        apply (dash_goes_on _ _ (fun s' g' => <[2%nat := Some (consumed _ s')]> g'));
        exact Hs').
  rewrite consumed_prefix, rmatch_Seq, rmatch_Chr.
  change (Ascii.eqb "-" "-") with true. cbv beta iota.
  rewrite (keyword_is_read keyword _ Hline Hsome). reflexivity.
Qed.

Lemma amount_starts_without_a (small rest : string) :
  is_amount small = true ->
  exists c s, small +:+ rest = String c s /\ Ascii.eqb "a" c = false.
Proof.
  intros Hsmall. destruct small as [|c small]; [discriminate|].
  exists c, (small +:+ rest). split; [reflexivity|].
  unfold is_amount in Hsmall.
  destruct (Ascii.eqb_spec c ".") as [->|_]; [reflexivity|].
  apply andb_prop in Hsmall as [Hc _].
  destruct (Ascii.eqb_spec "a" c) as [<-|_]; [discriminate Hc|reflexivity].
Qed.

Lemma dash_append (s : string) : "-" +:+ s = String "-" s.
Proof. reflexivity. Qed.

Lemma ante_is_read (s : string) (g : groups) (k : string -> groups -> option groups) :
  rmatch (literal "ante-") ("ante-" +:+ s) g k = k s g.
Proof. reflexivity. Qed.

(** A text made of an optional "ante-", two amounts of the pattern and a
    keyword, joined by dashes, is split at these dashes: the structure is
    the limit of the keyword with the two amounts in hundredths, and the
    "ante-" is dropped. A keyword that is no limit raises KeyError, before
    the amounts are read. *)
Theorem betting_structure_is_split_at_the_dashes
    (ante : bool) (small big keyword : string) :
  is_amount small = true -> is_amount big = true ->
  one_line keyword = true -> keyword <> "" ->
  let text := (if ante then "ante-" else "")
                +:+ small +:+ "-" +:+ big +:+ "-" +:+ keyword in
  parse_betting_structure text
  = (l ← key (dict_lookup keyword LIMIT_MAP);
     sb ← amount_string_to_int small 100;
     bb ← amount_string_to_int big 100;
     mret (Build_BettingStructure l sb bb))
  /\ (dict_lookup keyword LIMIT_MAP = None ->
      parse_betting_structure text = Raise KeyError).
Proof.
  intros Hsmall Hbig Hline Hsome text.
  assert (Hgroups : exists g0,
    re_match betting_structure_re 4 text
    = Some [g0; Some small; Some big; Some keyword]).
  { subst text. unfold re_match, betting_structure_re.
    rewrite !dash_append.
    change (replicate 4 None) with [@None string; None; None; None].
    rewrite rmatch_Seq, rmatch_Opt, rmatch_Group. destruct ante.
    - exists (Some "ante-").
      rewrite ante_is_read, consumed_prefix.
      change (<[0%nat := Some "ante-"]> [None; None; None; None])
        with [Some "ante-"; @None string; None; None].
      rewrite (amounts_and_keyword_are_read small big keyword _
                 Hsmall Hbig Hline Hsome).
      reflexivity.
    - exists None. rewrite append_nil.
      destruct (amount_starts_without_a small
                  (String "-" (big +:+ String "-" keyword)) Hsmall)
        as (c & s & Htext & Hc).
      change (literal "ante-")
        with (Seq (Chr "a") (Seq (Chr "n") (Seq (Chr "t") (Seq (Chr "e") (Chr "-"))))).
      rewrite (rmatch_Seq (Chr "a")). rewrite Htext at 1.
      rewrite rmatch_Chr, Hc.
      apply (amounts_and_keyword_are_read small big keyword None
               Hsmall Hbig Hline Hsome). }
  destruct Hgroups as [g0 Hgroups].
  assert (Hparse : parse_betting_structure text
    = (l ← key (dict_lookup keyword LIMIT_MAP);
       sb ← amount_string_to_int small 100;
       bb ← amount_string_to_int big 100;
       mret (Build_BettingStructure l sb bb))).
  { unfold parse_betting_structure. rewrite Hgroups. reflexivity. }
  split; [exact Hparse|].
  intros Hnone. rewrite Hparse, Hnone. reflexivity.
Qed.

Lemma betting_structure_is_split_at_the_dashes_witness :
  parse_betting_structure "ante-.10-.25-no-limit"
  = Return (Build_BettingStructure NO_LIMIT 10 25).
Proof.
  refine (eq_trans
            (proj1 (betting_structure_is_split_at_the_dashes true ".10" ".25"
                      "no-limit" eq_refl eq_refl eq_refl _)) _).
  - discriminate.
  - vm_compute. reflexivity.
Defined.

(** ** Adapters *)

Lemma mapM_outcome_returns {A B} (f : A -> outcome B) (l : list A) :
  (forall x, x ∈ l -> exists y, f x = Return y) ->
  exists ys,
    mapM f l = Return ys
    /\ length ys = length l
    /\ forall i x, l !! i = Some x -> exists y, ys !! i = Some y /\ f x = Return y.
Proof.
  induction l as [|x l IH]; intros Hf.
  - exists []. split; [reflexivity|]. split; [reflexivity|]. intros i x [=].
  - destruct (Hf x) as [y Hy]; [left|].
    destruct IH as (ys & Hys & Hlength & Hitems).
    { intros x' Hx'. apply Hf. right. exact Hx'. }
    exists (y :: ys). split; [|split].
    + cbn [mapM]. rewrite Hy, Hys. reflexivity.
    + simpl. rewrite Hlength. reflexivity.
    + intros [|i] x' Hx'; simpl in Hx'.
      * injection Hx' as <-. exists y. split; [reflexivity|exact Hy].
      * apply Hitems. exact Hx'.
Qed.

Lemma mapM_outcome_raises {A B} (f : A -> outcome B) (l : list A) (e : exception) :
  (forall x, x ∈ l -> (exists y, f x = Return y) \/ f x = Raise e) ->
  (exists x, x ∈ l /\ f x = Raise e) ->
  mapM f l = Raise e.
Proof.
  induction l as [|x l IH]; intros Hf (x' & Hx' & Hraise).
  - apply elem_of_nil in Hx' as [].
  - cbn [mapM]. destruct (Hf x) as [[y Hy]|Hx]; [left| |rewrite Hx; reflexivity].
    rewrite Hy. apply elem_of_cons in Hx' as [->|Hx']; [congruence|].
    rewrite IH; [reflexivity| |exists x'; split; assumption].
    intros x'' Hx''. apply Hf. right. exact Hx''.
Qed.

Section AdaptersOfTheEngine.

Variable visible_card : Z -> Z.
Variable is_visible : Z -> bool.

#[local] Abbreviation card_adapter := (pokereval_card_adapter visible_card is_visible).

Lemma rank_lookup_in_range (r : Z) :
  0 <= r < 13 -> is_Some (POKEREVAL_RANK_ADAPTER_LOOKUP !! r).
Proof.
  intros Hr.
  assert (r = 0 \/ r = 1 \/ r = 2 \/ r = 3 \/ r = 4 \/ r = 5 \/ r = 6 \/ r = 7
          \/ r = 8 \/ r = 9 \/ r = 10 \/ r = 11 \/ r = 12) as Hcases by lia.
  repeat (destruct Hcases as [->|Hcases]; [eexists; vm_compute; reflexivity|]).
  subst r. eexists. vm_compute. reflexivity.
Qed.

Lemma suit_lookup_in_range (s : Z) :
  0 <= s < 4 <-> is_Some (POKEREVAL_SUIT_ADAPTER_LOOKUP !! s).
Proof.
  split.
  - intros Hs. assert (s = 0 \/ s = 1 \/ s = 2 \/ s = 3) as Hcases by lia.
    repeat (destruct Hcases as [->|Hcases]; [eexists; vm_compute; reflexivity|]).
    subst s. eexists. vm_compute. reflexivity.
  - intros [suit Hsuit]. unfold POKEREVAL_SUIT_ADAPTER_LOOKUP in Hsuit.
    apply elem_of_list_to_map_2, list_elem_of_In in Hsuit. simpl in Hsuit.
    intuition (simplify_eq; lia).
Qed.

Lemma rank_lookup_is_one_to_one (r r' : Z) (rank : Rank) :
  POKEREVAL_RANK_ADAPTER_LOOKUP !! r = Some rank ->
  POKEREVAL_RANK_ADAPTER_LOOKUP !! r' = Some rank -> r = r'.
Proof.
  unfold POKEREVAL_RANK_ADAPTER_LOOKUP. intros Hr Hr'.
  apply elem_of_list_to_map_2, list_elem_of_In in Hr.
  apply elem_of_list_to_map_2, list_elem_of_In in Hr'.
  simpl in Hr, Hr'. destruct_or!; simplify_eq; done.
Qed.

Lemma suit_lookup_is_one_to_one (s s' : Z) (suit : Suit) :
  POKEREVAL_SUIT_ADAPTER_LOOKUP !! s = Some suit ->
  POKEREVAL_SUIT_ADAPTER_LOOKUP !! s' = Some suit -> s = s'.
Proof.
  unfold POKEREVAL_SUIT_ADAPTER_LOOKUP. intros Hs Hs'.
  apply elem_of_list_to_map_2, list_elem_of_In in Hs.
  apply elem_of_list_to_map_2, list_elem_of_In in Hs'.
  simpl in Hs, Hs'. destruct_or!; simplify_eq; done.
Qed.

Lemma card_adapter_in_range (pokercard : Z) :
  0 <= visible_card pokercard < 52 ->
  exists rank suit,
    POKEREVAL_RANK_ADAPTER_LOOKUP !! (visible_card pokercard `mod` 13) = Some rank
    /\ POKEREVAL_SUIT_ADAPTER_LOOKUP !! (visible_card pokercard / 13) = Some suit
    /\ card_adapter pokercard = Return (Build_Card rank suit (is_visible pokercard)).
Proof.
  intros Hrange.
  destruct (rank_lookup_in_range (visible_card pokercard `mod` 13)) as [rank Hrank].
  { apply Z.mod_pos_bound. lia. }
  destruct (proj1 (suit_lookup_in_range (visible_card pokercard / 13)))
    as [suit Hsuit].
  { split; [apply Z.div_pos; lia|apply Z.div_lt_upper_bound; lia]. }
  exists rank, suit. split; [exact Hrank|]. split; [exact Hsuit|].
  unfold pokereval_card_adapter, getitem. rewrite Hrank. simpl. rewrite Hsuit. simpl.
  destruct (is_visible pokercard); reflexivity.
Qed.

Lemma card_adapter_out_of_range (pokercard : Z) :
  ~ 0 <= visible_card pokercard < 52 -> card_adapter pokercard = Raise KeyError.
Proof.
  intros Hrange.
  destruct (rank_lookup_in_range (visible_card pokercard `mod` 13)) as [rank Hrank].
  { apply Z.mod_pos_bound. lia. }
  unfold pokereval_card_adapter, getitem. rewrite Hrank. simpl.
  destruct (POKEREVAL_SUIT_ADAPTER_LOOKUP !! (visible_card pokercard / 13))
    as [suit|] eqn:Hsuit; [|reflexivity].
  destruct Hrange.
  assert (0 <= visible_card pokercard / 13 < 4) as Hs
    by (apply suit_lookup_in_range; eexists; exact Hsuit).
  pose proof (Z.div_mod (visible_card pokercard) 13 ltac:(lia)).
  pose proof (Z.mod_pos_bound (visible_card pokercard) 13 ltac:(lia)). lia.
Qed.

(** A card is adapted when its visible index is one of the 52 of the table,
    and refused with KeyError otherwise, a negative index included. The rank
    is read at the index modulo 13 and the suit at the index divided by 13,
    the card is face up when the engine says it is visible, and two cards
    of the same rank and suit have the same visible index. *)
Theorem card_adapter_reads_the_table_of_52_cards (pokercard : Z) :
  let adapter := pokereval_card_adapter visible_card is_visible in
  (0 <= visible_card pokercard < 52 ->
   exists rank suit,
     POKEREVAL_RANK_ADAPTER_LOOKUP !! (visible_card pokercard `mod` 13) = Some rank
     /\ POKEREVAL_SUIT_ADAPTER_LOOKUP !! (visible_card pokercard / 13) = Some suit
     /\ adapter pokercard = Return (Build_Card rank suit (is_visible pokercard)))
  /\ (~ 0 <= visible_card pokercard < 52 -> adapter pokercard = Raise KeyError)
  /\ (forall other card card',
        adapter pokercard = Return card -> adapter other = Return card' ->
        rank card = rank card' -> suit card = suit card' ->
        visible_card pokercard = visible_card other).
Proof.
  intros adapter. subst adapter.
  split; [apply card_adapter_in_range|]. split; [apply card_adapter_out_of_range|].
  intros other card card' Hcard Hcard' Hrank Hsuit.
  assert (Hin : forall c x, card_adapter c = Return x -> 0 <= visible_card c < 52).
  { intros c x Hc. destruct (decide (0 <= visible_card c < 52)) as [|Hout]; [assumption|].
    rewrite (card_adapter_out_of_range c Hout) in Hc. discriminate. }
  destruct (card_adapter_in_range pokercard (Hin _ _ Hcard))
    as (r & s & Hr & Hs & Hrun).
  destruct (card_adapter_in_range other (Hin _ _ Hcard'))
    as (r' & s' & Hr' & Hs' & Hrun').
  rewrite Hrun in Hcard. rewrite Hrun' in Hcard'.
  injection Hcard as <-. injection Hcard' as <-. simpl in Hrank, Hsuit. subst r' s'.
  pose proof (rank_lookup_is_one_to_one _ _ _ Hr Hr') as Hmod.
  pose proof (suit_lookup_is_one_to_one _ _ _ Hs Hs') as Hdiv.
  rewrite (Z.div_mod (visible_card pokercard) 13) by lia.
  rewrite (Z.div_mod (visible_card other) 13) by lia.
  rewrite Hmod, Hdiv. reflexivity.
Qed.

Variable NOCARD : Z.

#[local] Abbreviation cards_adapter :=
  (pokercards_adapter visible_card is_visible NOCARD).
#[local] Abbreviation best_hand_adapter :=
  (pokereval_best_hand_adapter visible_card is_visible NOCARD).

(** A sequence of cards is adapted card by card, in order, when every index
    is in the table, and refused with KeyError when one is not. In a
    [PokerCards] object the entries that are [NOCARD] are left out before
    anything is read of them; in another sequence they are cards as any
    other. *)
Theorem cards_are_adapted_in_order_or_refused (cards : list Z) :
  let adapter := pokercards_adapter visible_card is_visible NOCARD in
  let kept := List.filter (fun c => negb (c =? NOCARD)) cards in
  ((forall c, c ∈ cards -> 0 <= visible_card c < 52) ->
   exists adapted,
     adapter (CardList cards) = Return adapted
     /\ length adapted = length cards
     /\ forall i c, cards !! i = Some c ->
          exists card,
            adapted !! i = Some card
            /\ pokereval_card_adapter visible_card is_visible c = Return card)
  /\ ((exists c, c ∈ cards /\ ~ 0 <= visible_card c < 52) ->
      adapter (CardList cards) = Raise KeyError)
  /\ adapter (PokerCards cards) = adapter (CardList kept)
  /\ ((forall c, c ∈ cards -> c <> NOCARD -> 0 <= visible_card c < 52) ->
      exists adapted,
        adapter (PokerCards cards) = Return adapted
        /\ length adapted = length kept).
Proof.
  intros adapter kept. subst adapter kept.
  split; [|split; [|split; [reflexivity|]]].
  - intros Hrange. apply mapM_outcome_returns. intros c Hc.
    destruct (card_adapter_in_range c (Hrange c Hc)) as (r & s & _ & _ & Hrun).
    eexists. exact Hrun.
  - intros (c & Hc & Hout). apply mapM_outcome_raises.
    + intros x _. destruct (decide (0 <= visible_card x < 52)) as [Hin|Hout'].
      * left. destruct (card_adapter_in_range x Hin) as (r & s & _ & _ & Hrun).
        eexists. exact Hrun.
      * right. apply card_adapter_out_of_range. exact Hout'.
    + exists c. split; [exact Hc|]. apply card_adapter_out_of_range. exact Hout.
  - intros Hrange.
    destruct (mapM_outcome_returns card_adapter
                (List.filter (fun c => negb (c =? NOCARD)) cards))
      as (adapted & Hrun & Hlength & _).
    { intros c Hc. apply list_elem_of_In, filter_In in Hc as [Hc Hcard].
      apply negb_true_iff, Z.eqb_neq in Hcard.
      destruct (card_adapter_in_range c) as (r & s & _ & _ & Hrun).
      - apply Hrange; [apply list_elem_of_In; exact Hc|exact Hcard].
      - eexists. exact Hrun. }
    exists adapted. split; [exact Hrun|exact Hlength].
Qed.

(** The best-hand adapter returns no hand when the evaluator names no
    cards, whatever the category. With cards, all of the table, it returns
    the hand of the class that the lookup gives for the category, with the
    adapted cards and the value of the evaluator, and raises KeyError for a
    category that the lookup does not have, as 'OnePair'. It never returns a
    hand of the classes [OnePair] and [HighHand]. *)
Theorem best_hand_adapter_follows_the_lookup (pokereval_hand : pokereval_best_hand) :
  let adapter := pokereval_best_hand_adapter visible_card is_visible NOCARD in
  (hand_cards pokereval_hand = [] -> adapter pokereval_hand = Return None)
  /\ (hand_cards pokereval_hand <> [] ->
      (forall c, c ∈ hand_cards pokereval_hand -> 0 <= visible_card c < 52) ->
      exists adapted,
        pokercards_adapter visible_card is_visible NOCARD
          (CardList (hand_cards pokereval_hand)) = Return adapted
        /\ adapter pokereval_hand
           = match POKEREVAL_HAND_ADAPTER_LOOKUP !! hand_category pokereval_hand with
             | Some new =>
                 Return (Some (Build_Hand new adapted (hand_value pokereval_hand)))
             | None => Raise KeyError
             end)
  /\ POKEREVAL_HAND_ADAPTER_LOOKUP !! "OnePair" = None
  /\ (forall hand, adapter pokereval_hand = Return (Some hand) ->
        class_of hand <> OnePair /\ class_of hand <> HighHand
        /\ pokereval_ranking hand = hand_value pokereval_hand
        /\ length (cards hand) = length (hand_cards pokereval_hand)).
Proof.
  intros adapter. subst adapter.
  split; [|split; [|split; [reflexivity|]]].
  - intros Hnone. unfold pokereval_best_hand_adapter. rewrite Hnone. reflexivity.
  - intros Hsome Hrange.
    destruct (mapM_outcome_returns card_adapter (hand_cards pokereval_hand))
      as (adapted & Hrun & Hlength & _).
    { intros c Hc.
      destruct (card_adapter_in_range c (Hrange c Hc)) as (r & s & _ & _ & Hc').
      eexists. exact Hc'. }
    exists adapted. split; [exact Hrun|].
    unfold pokereval_best_hand_adapter, pokercards_adapter. rewrite Hrun. simpl.
    destruct adapted as [|card adapted].
    + destruct (hand_cards pokereval_hand); [congruence|discriminate].
    + unfold getitem. destruct (_ !! hand_category pokereval_hand); reflexivity.
  - intros hand. unfold pokereval_best_hand_adapter, pokercards_adapter.
    destruct (mapM card_adapter (hand_cards pokereval_hand)) as [adapted|e] eqn:Hrun;
      [|discriminate]. simpl.
    destruct adapted as [|card adapted]; [discriminate|]. unfold getitem.
    destruct (_ !! hand_category pokereval_hand) as [new|] eqn:Hnew; [|discriminate].
    simpl. intros [= <-]. simpl.
    assert (Hlength : length (card :: adapted) = length (hand_cards pokereval_hand)).
    { clear Hnew. revert Hrun. generalize (card :: adapted).
      induction (hand_cards pokereval_hand) as [|c l IH]; intros ys Hys.
      - injection Hys as <-. reflexivity.
      - cbn [mapM] in Hys. destruct (card_adapter c); [|discriminate].
        simpl in Hys. destruct (mapM card_adapter l) as [ys'|]; [|discriminate].
        injection Hys as <-. simpl. rewrite (IH ys' eq_refl). reflexivity. }
    unfold POKEREVAL_HAND_ADAPTER_LOOKUP in Hnew.
    apply elem_of_list_to_map_2, list_elem_of_In in Hnew. simpl in Hnew.
    repeat split; try exact Hlength; intros ->; intuition discriminate.
Qed.

End AdaptersOfTheEngine.

Lemma card_adapter_reads_the_table_of_52_cards_witness :
  pokereval_card_adapter (fun c => Z.land c 63) (fun c => negb (Z.testbit c 6)) 38
  = Return (Upcard RankAce SuitClubs).
Proof.
  destruct (proj1 (card_adapter_reads_the_table_of_52_cards
                     (fun c => Z.land c 63) (fun c => negb (Z.testbit c 6)) 38)
              ltac:(vm_compute; split; [discriminate|reflexivity]))
    as (rank & suit & Hrank & Hsuit & Hrun).
  vm_compute in Hrank, Hsuit. injection Hrank as <-. injection Hsuit as <-.
  exact Hrun.
Defined.

Lemma cards_are_adapted_in_order_or_refused_witness :
  pokercards_adapter (fun c => Z.land c 63) (fun c => negb (Z.testbit c 6)) 255
    (CardList [38; 255])
  = Raise KeyError.
Proof.
  apply (cards_are_adapted_in_order_or_refused
           (fun c => Z.land c 63) (fun c => negb (Z.testbit c 6)) 255 [38; 255]).
  exists 255. split; [right; left|]. vm_compute. intros [_ H]. discriminate H.
Defined.

Lemma best_hand_adapter_follows_the_lookup_witness :
  pokereval_best_hand_adapter (fun c => Z.land c 63) (fun c => negb (Z.testbit c 6))
    255 (Build_pokereval_best_hand 268435455 "Nothing" [])
  = Return None.
Proof.
  apply (best_hand_adapter_follows_the_lookup
           (fun c => Z.land c 63) (fun c => negb (Z.testbit c 6)) 255
           (Build_pokereval_best_hand 268435455 "Nothing" [])).
  reflexivity.
Defined.

(** ** The generator with the adapters *)

Lemma for_in_raises_only {A B} (l : list B) (body : B -> A -> outcome A) (a : A)
    (x : B) (error : exception) :
  x ∈ l -> (forall a, body x a = Raise error) ->
  (forall x' a e, x' ∈ l -> body x' a = Raise e -> e = error) ->
  for_in l body a = Raise error.
Proof.
  intros Hx Hbody Honly. revert a.
  induction l as [|x' l IH]; intros a; [inversion Hx|].
  cbn [for_in]. destruct (body x' a) as [a'|e] eqn:Hx'; simpl.
  - apply elem_of_cons in Hx as [->|Hx]; [rewrite Hbody in Hx'; discriminate|].
    apply IH; [exact Hx|]. intros x'' a'' e Hx''. apply Honly. right. exact Hx''.
  - rewrite (Honly x' a e); [reflexivity | left | exact Hx'].
Qed.

Section DefaultGenerator.

Variable visible_card : Z -> Z.
Variable is_visible : Z -> bool.
Variable NOCARD : Z.

Lemma card_adapter_raises_KeyError (pokercard : Z) (e : exception) :
  pokereval_card_adapter visible_card is_visible pokercard = Raise e -> e = KeyError.
Proof.
  unfold pokereval_card_adapter, getitem, mbind, mret, outcome_bind, outcome_ret.
  repeat case_match; congruence.
Qed.

Lemma best_hand_adapter_raises_KeyError (hand : pokereval_best_hand) (e : exception) :
  pokereval_best_hand_adapter visible_card is_visible NOCARD hand = Raise e ->
  e = KeyError.
Proof.
  unfold pokereval_best_hand_adapter, pokercards_adapter.
  pose proof (mapM_outcome_spec (pokereval_card_adapter visible_card is_visible)
                (hand_cards hand)) as Hcards.
  destruct (mapM _ (hand_cards hand)) as [[|card adapted]|e']; simpl.
  - discriminate.
  - unfold getitem. destruct (_ !! hand_category hand); simpl;
      [discriminate | congruence].
  - intros [= <-]. destruct Hcards as (c & _ & Hc).
    eapply card_adapter_raises_KeyError, Hc.
Qed.

Lemma best_hand_adapter_unknown_category (hand : pokereval_best_hand) :
  POKEREVAL_HAND_ADAPTER_LOOKUP !! hand_category hand = None ->
  hand_cards hand <> [] ->
  pokereval_best_hand_adapter visible_card is_visible NOCARD hand = Raise KeyError.
Proof.
  intros Hnone Hcards.
  destruct (pokereval_best_hand_adapter visible_card is_visible NOCARD hand)
    as [converted|e] eqn:Hrun;
    [|f_equal; eapply best_hand_adapter_raises_KeyError, Hrun].
  exfalso. unfold pokereval_best_hand_adapter, pokercards_adapter in Hrun.
  pose proof (mapM_outcome_spec (pokereval_card_adapter visible_card is_visible)
                (hand_cards hand)) as Hadapted.
  destruct (mapM _ (hand_cards hand)) as [[|card adapted]|e']; simpl in Hrun.
  - inversion Hadapted as [Hnil|]. congruence.
  - unfold getitem in Hrun. rewrite Hnone in Hrun. discriminate.
  - discriminate.
Qed.

(** The generator built without arguments converts with the adapters, and
    refuses inputs that the engine is documented to send. A Round event
    whose board is [None], as for a variant without community cards, raises
    [TypeError] whatever the round, before anything is yielded. An End event
    whose best hands hold a hand with cards of a category that the lookup
    does not have, as 'OnePair', raises [KeyError] before anything is
    yielded. The board of a Showdown event is not converted: [None] is
    accepted there. *)
Theorem default_generator_refuses_documented_inputs :
  let generator := GenericPokerEventGenerator_init visible_card is_visible NOCARD in
  (forall round_name dealt_cards context,
     GenericPokerEventGenerator_generate_from_event generator
       (Engine (RoundEvent round_name NoneObject dealt_cards)) context
     = ([], context, Raise TypeError))
  /\ (forall winners end_state records context best player_id hands hand_type hand,
        serial2best end_state = Some best ->
        (player_id, hands) ∈ best -> (hand_type, hand) ∈ hands ->
        POKEREVAL_HAND_ADAPTER_LOOKUP !! hand_category hand = None ->
        hand_cards hand <> [] ->
        GenericPokerEventGenerator_generate_from_event generator
          (Engine (EndEvent winners (end_state :: records))) context
        = ([], context, Raise KeyError))
  /\ POKEREVAL_HAND_ADAPTER_LOOKUP !! "OnePair" = None
  /\ (forall board holecards context,
        GenericPokerEventGenerator_generate_from_event generator
          (Engine (ShowdownEvent board holecards)) context
        = GenericPokerEventGenerator_generate_from_event generator
            (Engine (ShowdownEvent NoneObject holecards)) context).
Proof.
  intros generator. subst generator. split; [|split; [|split; [reflexivity|]]].
  - intros round_name dealt_cards context.
    rewrite generate_from_engine_event. simpl handler_of.
    rewrite handle_RoundEvent_run. reflexivity.
  - intros winners end_state records context best player_id hands hand_type hand
      Hbest Hhands Hhand Hnone Hcards.
    rewrite generate_from_engine_event. simpl handler_of.
    rewrite handle_EndEvent_run.
    assert (Hraises : get_best_hands
                        (GenericPokerEventGenerator_init visible_card is_visible NOCARD)
                        end_state = Raise KeyError);
      [|rewrite Hraises; reflexivity].
    unfold get_best_hands. rewrite Hbest.
    assert (Hinner : forall hands',
              forall high_low e,
                for_in hands'
                  (fun '(hand_type, pokereval_best_hand) '(high_hand, low_hand) =>
                     hand ← _convert_pokereval_best_hand
                              (GenericPokerEventGenerator_init visible_card is_visible
                                 NOCARD) pokereval_best_hand;
                     if String.eqb hand_type "hi" then mret (hand, low_hand)
                     else if String.eqb hand_type "low" then mret (high_hand, hand)
                     else mret (high_hand, low_hand))
                  high_low = Raise e -> e = KeyError).
    { induction hands' as [|[hand_type' hand'] hands' IH]; intros [high_hand low_hand] e;
        [discriminate|].
      cbn [for_in]. unfold _convert_pokereval_best_hand at 1. simpl.
      destruct (pokereval_best_hand_adapter visible_card is_visible NOCARD hand')
        as [converted|e'] eqn:Hhand';
        simpl.
      - repeat case_match; simpl; apply IH.
      - intros [= <-]. eapply best_hand_adapter_raises_KeyError, Hhand'. }
    rewrite (for_in_raises_only best _ ∅ (player_id, hands) KeyError Hhands);
      [reflexivity | |].
    + intros best_hands.
      rewrite (for_in_raises_only hands _ (None, None) (hand_type, hand) KeyError Hhand);
        [reflexivity | |].
      * intros [high_hand low_hand]. unfold _convert_pokereval_best_hand. simpl.
        rewrite (best_hand_adapter_unknown_category hand Hnone Hcards). reflexivity.
      * intros [hand_type' hand'] [high_hand low_hand] e _.
        unfold _convert_pokereval_best_hand. simpl.
        destruct (pokereval_best_hand_adapter visible_card is_visible NOCARD hand')
        as [converted|e'] eqn:Hhand';
          simpl.
        -- repeat case_match; discriminate.
        -- intros [= <-]. eapply best_hand_adapter_raises_KeyError, Hhand'.
    + intros [player_id' hands'] best_hands e _.
      destruct (for_in hands' _ (None, None)) as [[high_hand low_hand]|e'] eqn:Hhands';
        simpl; [discriminate|].
      intros [= <-]. eapply Hinner, Hhands'.
  - intros board holecards context. rewrite !generate_from_engine_event. reflexivity.
Qed.

End DefaultGenerator.

(** ** The hand history *)

Lemma append_nil_r (s : string) : s +:+ "" = s.
Proof.
  induction s as [|c s IH]; [reflexivity|]. rewrite append_cons, IH. reflexivity.
Qed.

(** Runs [str.format] on a template that is given. *)
Ltac run_format :=
  unfold format, Formatter.format_d;
  repeat match goal with
  | |- context [parse_template ?t None] =>
      let segs := eval vm_compute in (parse_template t None) in
      change (parse_template t None) with segs
  end;
  cbn; rewrite ?append_nil_r.

Section HandHistory.

Variable strftime : string -> Z -> string.
Variable Hand_repr : Hand -> string.
Variable self : Formatter.formatter.

#[local] Abbreviation format_event :=
  (Formatter.generate_from_event strftime Hand_repr self).

(** The objects without a handler, in every class of formatter. *)
Lemma silent_events (o : option event) context :
  o = None \/ (exists player_id, o = Some (PlayerWentAllIn player_id))
  \/ o = Some HandCanceled ->
  format_event o context = ([], context, Return tt).
Proof.
  intros [->|[[player_id ->]| ->]]; reflexivity.
Qed.

(** A history of fewer than two events is empty: a lone event is not
    formatted. In a history of two events or more every event is formatted,
    in order, each with [all_in] telling whether the next event is an
    all-in, and the last with [all_in] false. The all-in event itself, as a
    canceled hand, gives no line and leaves the context as it is. *)
Theorem history_formats_every_event_of_two_or_more :
  let do_generate := Formatter.do_generate strftime Hand_repr self in
  let format_event := Formatter.generate_from_event strftime Hand_repr self in
  let mark (all_in : bool) : gen string Formatter.Context unit :=
    context ← get; put (Formatter.set_all_in all_in context) in
  Formatter.generate strftime Hand_repr self [] = Return ""
  /\ (forall event, Formatter.generate strftime Hand_repr self [event] = Return "")
  /\ (forall event last_event context,
        do_generate [event; last_event] context
        = (mark (Formatter.is_PlayerWentAllIn last_event);;
           format_event (Some event);;
           mark false;;
           format_event (Some last_event)) context)
  /\ (forall event next_event next_event' events context,
        do_generate (event :: next_event :: next_event' :: events) context
        = (mark (Formatter.is_PlayerWentAllIn next_event);;
           format_event (Some event);;
           do_generate (next_event :: next_event' :: events)) context)
  /\ (forall player_id context,
        format_event (Some (PlayerWentAllIn player_id)) context = ([], context, Return tt)
        /\ format_event (Some HandCanceled) context = ([], context, Return tt)).
Proof.
  intros do_generate format_event' mark. subst do_generate format_event' mark.
  split; [reflexivity|]. split; [reflexivity|]. split; [|split].
  - intros event last_event context. unfold Formatter.do_generate.
    cbn [Formatter.pairwise tail zip zip_with for_each].
    rewrite !bind_assoc_run. apply bind_ext_run. intros context1 s1.
    rewrite !bind_assoc_run. apply bind_ext_run. intros [] s2.
    rewrite !bind_assoc_run. apply bind_ext_run. intros [] s3.
    rewrite !ret_bind_run, !bind_assoc_run. reflexivity.
  - intros event next_event next_event' events context.
    unfold Formatter.do_generate.
    change (Formatter.pairwise (event :: next_event :: next_event' :: events))
      with ((event, next_event)
            :: Formatter.pairwise (next_event :: next_event' :: events)).
    change (Formatter.pairwise (next_event :: next_event' :: events))
      with ((next_event, next_event') :: Formatter.pairwise (next_event' :: events)).
    cbn [for_each].
    rewrite !bind_assoc_run. apply bind_ext_run. intros context1 s1.
    rewrite !bind_assoc_run. apply bind_ext_run. intros [] s2.
    rewrite !bind_assoc_run. apply bind_ext_run. intros [] s3.
    rewrite !ret_bind_run. reflexivity.
  - intros player_id context. split; reflexivity.
Qed.

End HandHistory.

Section HandHistoryHandlers.

Variable strftime : string -> Z -> string.
Variable Hand_repr : Hand -> string.
Variable self : Formatter.formatter.

(** Dispatch by class name reaches the handler of the event's class. *)
Lemma format_event_dispatch (e : event) context :
  Formatter.generate_from_event strftime Hand_repr self (Some e) context
  = Formatter.handler_of strftime Hand_repr self e context.
Proof.
  destruct e as [| | | | |dealt_to dealt| | | | | | | | | | | | | | | | |];
    try reflexivity.
  cbv [Formatter.generate_from_event generate_from_event Formatter.getattr
       Formatter.HandHistoryGenerator_methods Formatter.handler_of event_handler
       Formatter.class_name dict_lookup String.append String.eqb Ascii.eqb Bool.eqb].
  destruct (Formatter.class self); [reflexivity..|].
  unfold Formatter.Player_handle_CardsDealtToPlayer.
  destruct (Formatter.self_player_id self) as [own|]; [|reflexivity].
  destruct (dealt_to =? own); reflexivity.
Qed.

End HandHistoryHandlers.

Lemma append_assoc (a b c : string) : (a +:+ b) +:+ c = a +:+ b +:+ c.
Proof.
  induction a as [|x a IH]; [reflexivity|]. rewrite !append_cons, IH. reflexivity.
Qed.

Lemma cards_are_written (cards : list Card) :
  mapM Formatter.Card_str cards
  = Return (map (fun card => rank_abbreviation (rank card)
                             +:+ suit_abbreviation (suit card)) cards).
Proof.
  induction cards as [|card cards IH]; [reflexivity|].
  cbn [mapM map]. rewrite IH. unfold Formatter.Card_str. run_format. reflexivity.
Qed.

Lemma cards_string_returns (cards : list Card) :
  Formatter.cards_string cards
  = Return ("[" +:+ String.concat " "
                      (map (fun card => rank_abbreviation (rank card)
                                        +:+ suit_abbreviation (suit card)) cards)
            +:+ "]").
Proof.
  unfold Formatter.cards_string. rewrite cards_are_written.
  cbn [mbind outcome_bind]. run_format. reflexivity.
Qed.

Section HandHistoryLines.

Variable strftime : string -> Z -> string.
Variable Hand_repr : Hand -> string.
Variable self : Formatter.formatter.

(** The flop starts the board of the formatter's context and each later
    street adds its card to it; the line of the turn and of the river shows
    the board before the card, then the card. A turn or a river that no
    flop came before raises AttributeError, with no line. *)
Theorem streets_build_the_board (context : Formatter.Context) :
  let format_event := Formatter.generate_from_event strftime Hand_repr self in
  let written (cards : list Card) :=
    "[" +:+ String.concat " "
              (map (fun card => rank_abbreviation (rank card)
                                +:+ suit_abbreviation (suit card)) cards)
    +:+ "]" in
  let street (name : string) (card : Card) :=
    match Formatter.community_cards context with
    | Some board =>
        ([name +:+ written board +:+ " " +:+ written [card]],
         Formatter.set_community_cards (board ++ [card]) context, Return tt)
    | None => ([], context, Raise AttributeError)
    end in
  (forall flop_cards,
     format_event (Some (FlopDealt flop_cards)) context
     = (["*** FLOP *** " +:+ written flop_cards],
        Formatter.set_community_cards flop_cards context, Return tt))
  /\ (forall turn_card,
        format_event (Some (TurnDealt turn_card)) context
        = street "*** TURN *** " turn_card)
  /\ (forall river_card,
        format_event (Some (RiverDealt river_card)) context
        = street "*** RIVER *** " river_card).
Proof.
  intros format_event written street. subst format_event written street.
  split; [|split].
  - intros flop_cards. rewrite format_event_dispatch.
    unfold Formatter.handler_of, Formatter.handle_FlopDealt.
    rewrite get_bind_run, put_bind_run, cards_string_returns.
    cbn [mbind outcome_bind]. run_format. reflexivity.
  - intros turn_card. rewrite format_event_dispatch.
    unfold Formatter.handler_of, Formatter.handle_TurnDealt.
    rewrite get_bind_run, lift_bind_run.
    destruct (Formatter.community_cards context) as [board|]; [|reflexivity].
    cbn [attr]. rewrite !cards_string_returns, !lift_bind_run, put_bind_run.
    run_format. reflexivity.
  - intros river_card. rewrite format_event_dispatch.
    unfold Formatter.handler_of, Formatter.handle_RiverDealt.
    rewrite get_bind_run, lift_bind_run.
    destruct (Formatter.community_cards context) as [board|]; [|reflexivity].
    cbn [attr]. rewrite !cards_string_returns, !lift_bind_run, put_bind_run.
    run_format. reflexivity.
Qed.

Lemma side_pots_are_listed (sides : list ResolvedPot) (first : Z) (summary : string) :
  foldl (fun pot_summary '(side_pot_index, side_pot) =>
           pot_summary ← pot_summary;
           side ← format " Side pot-{0} {1}."
                    [Formatter.str_int (side_pot_index + 1);
                     Formatter.str_int (pot_amount side_pot)] [];
           mret (pot_summary +:+ side))
        (Return summary) (enumerate first sides)
  = Return (summary
            +:+ foldr String.append ""
                  (imap (fun i side =>
                           " Side pot-" +:+ Formatter.str_int (first + Z.of_nat i + 1)
                           +:+ " " +:+ Formatter.str_int (pot_amount side) +:+ ".")
                        sides)).
Proof.
  revert first summary. induction sides as [|side sides IH]; intros first summary.
  - cbn [enumerate foldl imap foldr]. rewrite append_nil_r. reflexivity.
  - cbn [enumerate foldl imap foldr mbind outcome_bind].
    replace (format " Side pot-{0} {1}."
               [Formatter.str_int (first + 1); Formatter.str_int (pot_amount side)] [])
      with (Return (" Side pot-" +:+ Formatter.str_int (first + 1) +:+ " "
                    +:+ Formatter.str_int (pot_amount side) +:+ "."))
      by (symmetry; run_format; reflexivity).
    cbn [mbind outcome_bind mret outcome_ret]. rewrite IH.
    rewrite append_assoc, Z.add_0_r. do 4 f_equal.
    apply imap_ext. intros i pot _. unfold compose.
    replace (first + 1 + Z.of_nat i + 1) with (first + Z.of_nat (S i) + 1) by lia.
    reflexivity.
Qed.

(** A "hand ended" event gives the line of the summary, then the line of
    the pots: the total, the main pot, which is the first pot of the event,
    the other pots of the event in order as side pots 1, 2, ..., and the sum
    of the rake; then the board, when a flop was dealt. The context is left
    as it was. Without any pot the handler raises IndexError after the
    first line. *)
Theorem hand_ended_gives_the_summary_of_the_pots
    (pots : list ResolvedPot) (player_rake : gmap Z Z) (context : Formatter.Context) :
  let run := Formatter.generate_from_event strftime Hand_repr self
               (Some (HandEnded pots player_rake)) context in
  let written (cards : list Card) :=
    "[" +:+ String.concat " "
              (map (fun card => rank_abbreviation (rank card)
                                +:+ suit_abbreviation (suit card)) cards)
    +:+ "]" in
  (pots = [] -> run = (["*** SUMMARY ***"], context, Raise IndexError))
  /\ (forall main_pot side_pots, pots = main_pot :: side_pots ->
      run = ("*** SUMMARY ***"
             :: ("Total pot " +:+ Formatter.str_int (Formatter.sum (map pot_amount pots))
                 +:+ " Main pot " +:+ Formatter.str_int (pot_amount main_pot) +:+ "."
                 +:+ foldr String.append ""
                       (imap (fun i side =>
                                " Side pot-" +:+ Formatter.str_int (Z.of_nat i + 1)
                                +:+ " " +:+ Formatter.str_int (pot_amount side) +:+ ".")
                             side_pots)
                 +:+ " | Rake "
                 +:+ Formatter.str_int
                       (Formatter.sum (map snd (map_to_list player_rake))))
             :: match Formatter.community_cards context with
                | Some board => ["Board " +:+ written board]
                | None => []
                end,
             context, Return tt)).
Proof.
  intros run written. subst run written. rewrite format_event_dispatch.
  unfold Formatter.handler_of, Formatter.handle_HandEnded. split.
  - intros ->. reflexivity.
  - intros main_pot side_pots ->.
    assert (Hsummary :
      Formatter._pot_summary (main_pot :: side_pots) player_rake
      = Return ("Total pot "
                +:+ Formatter.str_int (Formatter.sum (map pot_amount (main_pot :: side_pots)))
                +:+ " Main pot " +:+ Formatter.str_int (pot_amount main_pot) +:+ "."
                +:+ foldr String.append ""
                      (imap (fun i side =>
                               " Side pot-" +:+ Formatter.str_int (Z.of_nat i + 1)
                               +:+ " " +:+ Formatter.str_int (pot_amount side) +:+ ".")
                            side_pots)
                +:+ " | Rake "
                +:+ Formatter.str_int
                      (Formatter.sum (map snd (map_to_list player_rake))))).
    { unfold Formatter._pot_summary.
      cbn [list_getitem lookup list_lookup mbind outcome_bind drop].
      replace (format "Total pot {total_pot} Main pot {main_pot}." []
                 [("total_pot",
                   Formatter.str_int
                     (Formatter.sum (map pot_amount (main_pot :: side_pots))));
                  ("main_pot", Formatter.str_int (pot_amount main_pot))])
        with (Return ("Total pot "
                      +:+ Formatter.str_int
                            (Formatter.sum (map pot_amount (main_pot :: side_pots)))
                      +:+ " Main pot " +:+ Formatter.str_int (pot_amount main_pot)
                      +:+ "."))
        by (symmetry; run_format; reflexivity).
      cbn [mbind outcome_bind]. rewrite side_pots_are_listed.
      cbn [mbind outcome_bind]. run_format.
      rewrite !append_assoc. cbn [Z.add]. reflexivity. }
    rewrite bind_run. cbn [yield events_of context_of result_of fst snd app].
    rewrite lift_bind_run, Hsummary, bind_run.
    cbn [yield events_of context_of result_of fst snd app].
    rewrite get_bind_run.
    destruct (Formatter.community_cards context) as [board|]; [|reflexivity].
    rewrite cards_string_returns. cbn [mbind outcome_bind].
    rewrite lift_bind_run. run_format. reflexivity.
Qed.

End HandHistoryLines.

Section HandHistoryRuns.

Variable strftime : string -> Z -> string.
Variable Hand_repr : Hand -> string.
Variable self : Formatter.formatter.

#[local] Abbreviation format_event :=
  (Formatter.generate_from_event strftime Hand_repr self).
#[local] Abbreviation do_generate := (Formatter.do_generate strftime Hand_repr self).

(** The first event of two or more is handled first, with the mark of the
    second. *)
Lemma do_generate_starts (first_event next_event : event) (events : list event) context :
  exists rest : unit -> gen string Formatter.Context unit,
    do_generate (first_event :: next_event :: events) context
    = (format_event (Some first_event) ≫= rest)
        (Formatter.set_all_in (Formatter.is_PlayerWentAllIn next_event) context)
    /\ forall context',
         rest tt context'
         = match events with
           | [] => format_event (Some next_event) (Formatter.set_all_in false context')
           | _ :: _ => do_generate (next_event :: events) context'
           end.
Proof.
  destruct events as [|next_event' events].
  - exists (fun _ => context ← get; put (Formatter.set_all_in false context);;
                     format_event (Some next_event)).
    split.
    + unfold Formatter.do_generate.
      cbn [Formatter.pairwise tail zip zip_with for_each].
      rewrite !bind_assoc_run, get_bind_run, !bind_assoc_run, put_bind_run.
      rewrite !bind_assoc_run. apply bind_ext_run. intros [] s.
      rewrite !ret_bind_run. reflexivity.
    + intros context'. rewrite get_bind_run, put_bind_run. reflexivity.
  - exists (fun _ => do_generate (next_event :: next_event' :: events)).
    split; [|reflexivity].
    unfold Formatter.do_generate.
    change (Formatter.pairwise (first_event :: next_event :: next_event' :: events))
      with ((first_event, next_event)
            :: Formatter.pairwise (next_event :: next_event' :: events)).
    change (Formatter.pairwise (next_event :: next_event' :: events))
      with ((next_event, next_event') :: Formatter.pairwise (next_event' :: events)).
    cbn [for_each].
    rewrite !bind_assoc_run, get_bind_run, !bind_assoc_run, put_bind_run.
    rewrite !bind_assoc_run. apply bind_ext_run. intros [] s.
    rewrite !ret_bind_run. reflexivity.
Qed.

Lemma do_generate_first_raises (first_event next_event : event) (events : list event)
    context lines context' error :
  format_event (Some first_event)
    (Formatter.set_all_in (Formatter.is_PlayerWentAllIn next_event) context)
  = (lines, context', Raise error) ->
  do_generate (first_event :: next_event :: events) context = (lines, context', Raise error).
Proof.
  intros Hraises.
  destruct (do_generate_starts first_event next_event events context) as (rest & -> & _).
  rewrite bind_run, Hraises. reflexivity.
Qed.

End HandHistoryRuns.

(** The player's formatter sets neither the site name nor the date format:
    it raises AttributeError on the event that starts a hand, and so on
    every history of two events or more that starts with it. Neither the
    player's nor the observer's formatter tells the cards dealt to a
    player, the player's own included, nor records them. *)
Theorem player_formatter_cannot_start_a_hand
    (strftime : string -> Z -> string) (Hand_repr : Hand -> string) (player_id : Z) :
  let player := Formatter.PlayerHandHistoryGenerator_init player_id in
  (forall hand_id hand_timestamp variant betting_structure players context,
     Formatter.generate_from_event strftime Hand_repr player
       (Some (HandStarted hand_id hand_timestamp variant betting_structure players))
       context
     = ([], context, Raise AttributeError))
  /\ (forall hand_id hand_timestamp variant betting_structure players next_event events,
        Formatter.generate strftime Hand_repr player
          (HandStarted hand_id hand_timestamp variant betting_structure players
           :: next_event :: events)
        = Raise AttributeError)
  /\ (forall dealt_to cards context,
        Formatter.generate_from_event strftime Hand_repr player
          (Some (CardsDealtToPlayer dealt_to cards)) context
        = ([], context, Return tt))
  /\ (forall site_name date_format dealt_to cards context,
        Formatter.generate_from_event strftime Hand_repr
          (Formatter.ObserverHandHistoryGenerator_init site_name date_format)
          (Some (CardsDealtToPlayer dealt_to cards)) context
        = ([], context, Return tt)).
Proof.
  intros player. subst player. split; [reflexivity|]. split; [|split].
  - intros hand_id hand_timestamp variant betting_structure players next_event events.
    unfold Formatter.generate.
    erewrite do_generate_first_raises; reflexivity.
  - intros dealt_to cards context. rewrite format_event_dispatch. reflexivity.
  - intros site_name date_format dealt_to cards context.
    rewrite format_event_dispatch. reflexivity.
Qed.

Section NoCardsNoMuck.

Variable strftime : string -> Z -> string.
Variable Hand_repr : Hand -> string.
Variable self : Formatter.formatter.
Hypothesis subclass : Formatter.class self <> Formatter.HandHistoryGenerator.

#[local] Abbreviation no_cards :=
  (fun context : Formatter.Context => Formatter.player_cards context = None).

Lemma bind_keeps_no_cards {A B} (m : gen string Formatter.Context A)
    (f : A -> gen string Formatter.Context B) context :
  no_cards (context_of (m context)) ->
  (forall a context', no_cards context' -> no_cards (context_of (f a context'))) ->
  no_cards (context_of ((m ≫= f) context)).
Proof.
  intros Hm Hf. rewrite bind_run.
  destruct (m context) as [[lines context'] [a|e]]; [|exact Hm].
  apply Hf. exact Hm.
Qed.

Lemma for_each_keeps_no_cards {A B} (l : list B)
    (body : B -> A -> gen string Formatter.Context A) (a : A) context :
  (forall x a context', no_cards context' -> no_cards (context_of (body x a context'))) ->
  no_cards context -> no_cards (context_of (for_each l body a context)).
Proof.
  intros Hbody. revert a context. induction l as [|x l IH]; intros a context Hcontext.
  - exact Hcontext.
  - cbn [for_each]. apply bind_keeps_no_cards.
    + apply Hbody. exact Hcontext.
    + intros a' context' Hcontext'. apply IH. exact Hcontext'.
Qed.

Lemma yield_player_action_keeps_no_cards player_id action context :
  no_cards context ->
  no_cards (context_of (Formatter.yield_player_action player_id action context)).
Proof.
  intros Hcontext. unfold Formatter.yield_player_action.
  rewrite get_bind_run, lift_bind_run.
  destruct (_ ≫= _) as [line|e]; exact Hcontext.
Qed.

(** No handler of a subclass records the cards of a player. *)
Lemma handler_keeps_no_cards (e : event) context :
  no_cards context ->
  no_cards (context_of (Formatter.handler_of strftime Hand_repr self e context)).
Proof.
  intros Hcontext.
  destruct e; cbn [Formatter.handler_of];
    try (apply yield_player_action_keeps_no_cards; exact Hcontext);
    try exact Hcontext.
  - unfold Formatter.handle_HandStarted. rewrite lift_bind_run.
    destruct (attr (Formatter.date_format self)) as [date_format|]; [|exact Hcontext].
    rewrite lift_bind_run. destruct (_ ≫= _) as [header|]; [|exact Hcontext].
    apply bind_keeps_no_cards; [exact Hcontext|]. intros [] context1 Hcontext1.
    rewrite get_bind_run, put_bind_run.
    apply for_each_keeps_no_cards; [|exact Hcontext1].
    intros player [] context2 Hcontext2. rewrite get_bind_run, lift_bind_run.
    destruct (attr (Formatter.player_names context2)) as [names|]; [|exact Hcontext2].
    rewrite put_bind_run, lift_bind_run.
    destruct (Formatter.format_d _ _) as [line|]; exact Hcontext2.
  - destruct (Formatter.class self); [congruence|exact Hcontext..].
  - unfold Formatter.handle_FlopDealt.
    rewrite get_bind_run, put_bind_run, lift_bind_run.
    destruct (_ ≫= _) as [line|]; exact Hcontext.
  - unfold Formatter.handle_TurnDealt. rewrite get_bind_run, lift_bind_run.
    destruct (attr _) as [board|]; [|exact Hcontext]. rewrite lift_bind_run.
    destruct (Formatter.cards_string board) as [previous|]; [|exact Hcontext].
    rewrite lift_bind_run.
    destruct (Formatter.cards_string [turn_card]) as [card|]; [|exact Hcontext].
    rewrite put_bind_run, lift_bind_run.
    destruct (format _ _ _) as [line|]; exact Hcontext.
  - unfold Formatter.handle_RiverDealt. rewrite get_bind_run, lift_bind_run.
    destruct (attr _) as [board|]; [|exact Hcontext]. rewrite lift_bind_run.
    destruct (Formatter.cards_string board) as [previous|]; [|exact Hcontext].
    rewrite lift_bind_run.
    destruct (Formatter.cards_string [river_card]) as [card|]; [|exact Hcontext].
    rewrite put_bind_run, lift_bind_run.
    destruct (format _ _ _) as [line|]; exact Hcontext.
  - unfold Formatter.handle_UncalledBetReturnedToPlayer.
    rewrite get_bind_run, lift_bind_run.
    destruct (_ ≫= _) as [line|]; exact Hcontext.
  - unfold Formatter.handle_PlayerMuckedHand. rewrite get_bind_run.
    apply yield_player_action_keeps_no_cards. exact Hcontext.
  - unfold Formatter.handle_PlayerCollectedFromSidePot.
    rewrite get_bind_run, lift_bind_run.
    destruct (_ ≫= _) as [line|]; exact Hcontext.
  - unfold Formatter.handle_PlayerCollectedFromMainPot.
    rewrite get_bind_run, lift_bind_run.
    destruct (_ ≫= _) as [line|]; exact Hcontext.
  - unfold Formatter.handle_HandEnded.
    apply bind_keeps_no_cards; [exact Hcontext|]. intros [] context1 Hcontext1.
    rewrite lift_bind_run.
    destruct (Formatter._pot_summary _ _) as [line|]; [|exact Hcontext1].
    apply bind_keeps_no_cards; [exact Hcontext1|]. intros [] context2 Hcontext2.
    rewrite get_bind_run.
    destruct (Formatter.community_cards context2) as [board|]; [|exact Hcontext2].
    rewrite lift_bind_run. destruct (_ ≫= _) as [line'|]; exact Hcontext2.
Qed.

(** A player who mucks has cards to be read in the context. *)
Lemma muck_without_cards_raises player_id cards high_hand low_hand context :
  no_cards context ->
  Formatter.handler_of strftime Hand_repr self
    (PlayerMuckedHand player_id cards high_hand low_hand) context
  = ([], context, Raise AttributeError).
Proof.
  intros Hcontext. cbn [Formatter.handler_of].
  unfold Formatter.handle_PlayerMuckedHand, Formatter.yield_player_action.
  rewrite !get_bind_run, lift_bind_run, Hcontext. reflexivity.
Qed.

Lemma format_event_fails_or_keeps_no_cards (e : event) context :
  no_cards context ->
  let run := Formatter.generate_from_event strftime Hand_repr self (Some e) context in
  no_cards (context_of run)
  /\ ((exists player_id cards high_hand low_hand,
         e = PlayerMuckedHand player_id cards high_hand low_hand) ->
      exists error, result_of run = Raise error).
Proof.
  intros Hcontext run. subst run. rewrite format_event_dispatch. split.
  - apply handler_keeps_no_cards. exact Hcontext.
  - intros (player_id & cards & high_hand & low_hand & ->).
    rewrite (muck_without_cards_raises _ _ _ _ _ Hcontext).
    exists AttributeError. reflexivity.
Qed.

Lemma do_generate_fails_on_a_muck (first_event next_event : event)
    (events : list event) context :
  no_cards context ->
  (exists player_id cards high_hand low_hand,
     PlayerMuckedHand player_id cards high_hand low_hand
     ∈ first_event :: next_event :: events) ->
  exists error,
    result_of (Formatter.do_generate strftime Hand_repr self
                 (first_event :: next_event :: events) context)
    = Raise error.
Proof.
  revert first_event next_event context.
  induction events as [|next_event' events IH];
    intros first_event next_event context Hcontext
      (player_id & cards & high_hand & low_hand & Hmuck).
  - destruct (do_generate_starts strftime Hand_repr self first_event next_event []
                context) as (rest & -> & Hrest).
    rewrite bind_run.
    destruct (format_event_fails_or_keeps_no_cards first_event
                (Formatter.set_all_in (Formatter.is_PlayerWentAllIn next_event) context)
                Hcontext) as [Hkeeps Hfails].
    destruct (Formatter.generate_from_event _ _ _ (Some first_event) _)
      as [[lines context1] [[]|error]]; [|exists error; reflexivity].
    apply elem_of_cons in Hmuck as [<-|Hmuck].
    { destruct Hfails as [error Herror]; [eauto|]. discriminate Herror. }
    apply elem_of_cons in Hmuck as [<-|Hmuck]; [|apply elem_of_nil in Hmuck as []].
    unfold events_of, context_of, result_of in *. cbn [fst snd] in *.
    rewrite Hrest.
    destruct (format_event_fails_or_keeps_no_cards
                (PlayerMuckedHand player_id cards high_hand low_hand)
                (Formatter.set_all_in false context1) Hkeeps) as [_ [error Herror]];
      [eauto|].
    exists error. exact Herror.
  - destruct (do_generate_starts strftime Hand_repr self first_event next_event
                (next_event' :: events) context) as (rest & -> & Hrest).
    rewrite bind_run.
    destruct (format_event_fails_or_keeps_no_cards first_event
                (Formatter.set_all_in (Formatter.is_PlayerWentAllIn next_event) context)
                Hcontext) as [Hkeeps Hfails].
    destruct (Formatter.generate_from_event _ _ _ (Some first_event) _)
      as [[lines context1] [[]|error]]; [|exists error; reflexivity].
    apply elem_of_cons in Hmuck as [<-|Hmuck].
    { destruct Hfails as [error Herror]; [eauto|]. discriminate Herror. }
    unfold events_of, context_of, result_of in *. cbn [fst snd] in *.
    rewrite Hrest. apply IH; [exact Hkeeps|eauto].
Qed.

(** The formatters of the observer and of the player never record the
    cards of a player: whatever the events, the context has no
    [player_cards] at the end. The handler of a player who mucks reads them,
    so that a history of two events or more in which a player mucks is
    never returned: the formatter raises. *)
Theorem subclass_history_fails_when_a_player_mucks (events : list event) :
  (forall context,
     Formatter.player_cards context = None ->
     Formatter.player_cards
       (context_of (Formatter.do_generate strftime Hand_repr self events context))
     = None)
  /\ ((2 <= length events)%nat ->
      (exists player_id cards high_hand low_hand,
         PlayerMuckedHand player_id cards high_hand low_hand ∈ events) ->
      exists error, Formatter.generate strftime Hand_repr self events = Raise error).
Proof.
  split.
  - intros context Hcontext. unfold Formatter.do_generate.
    apply bind_keeps_no_cards.
    + apply for_each_keeps_no_cards; [|exact Hcontext].
      intros [e next_event] a context1 Hcontext1.
      rewrite get_bind_run, put_bind_run.
      apply bind_keeps_no_cards; [|intros; assumption].
      apply format_event_fails_or_keeps_no_cards. exact Hcontext1.
    + intros last_event context1 Hcontext1. rewrite get_bind_run, put_bind_run.
      destruct last_event as [e|]; [|exact Hcontext1].
      apply format_event_fails_or_keeps_no_cards. exact Hcontext1.
  - intros Hlength Hmuck.
    destruct events as [|first_event [|next_event events]]; simpl in Hlength; try lia.
    destruct (do_generate_fails_on_a_muck first_event next_event events
                Formatter.Context_new eq_refl Hmuck) as [error Herror].
    exists error. unfold Formatter.generate.
    destruct (Formatter.do_generate _ _ _ _ _) as [[lines context] result].
    unfold result_of in Herror. simpl in Herror. subst result. reflexivity.
Qed.

End NoCardsNoMuck.

Lemma subclass_history_fails_when_a_player_mucks_witness :
  exists error,
    Formatter.generate (fun _ _ => "") (fun _ => "")
      (Formatter.ObserverHandHistoryGenerator_init Formatter.default_site_name
         Formatter.default_date_format)
      [Showdown; PlayerMuckedHand 22 nine_six None None; HandCanceled]
    = Raise error.
Proof.
  apply (subclass_history_fails_when_a_player_mucks (fun _ _ => "") (fun _ => "")
           (Formatter.ObserverHandHistoryGenerator_init Formatter.default_site_name
              Formatter.default_date_format)
           ltac:(discriminate)
           [Showdown; PlayerMuckedHand 22 nine_six None None; HandCanceled]).
  - simpl. lia.
  - exists 22, nine_six, None, None. right. left.
Defined.

Section HandHistoryOfTheBaseClass.

Variable strftime : string -> Z -> string.
Variable Hand_repr : Hand -> string.
Variable self : Formatter.formatter.

Lemma seats_are_listed (players : list Player) (names : gmap Z string) context :
  Formatter.player_names context = Some names ->
  for_each players (fun player _ =>
    context ← get;
    names ← lift (attr (Formatter.player_names context));
    put (Formatter.set_player_names (<[player_id player := name player]> names) context);;
    line ← lift (Formatter.format_d "Seat {seat_number:d}: {name} ({chips} in chips)"
                   [("seat_number", Formatter.str_int (seat_number player + 1));
                    ("name", name player);
                    ("chips", Formatter.str_int (chips player))]);
    yield line) tt context
  = (map (fun player =>
            "Seat " +:+ Formatter.str_int (seat_number player + 1) +:+ ": "
            +:+ name player +:+ " (" +:+ Formatter.str_int (chips player)
            +:+ " in chips)") players,
     Formatter.set_player_names
       (foldl (fun names player => <[player_id player := name player]> names)
              names players) context,
     Return tt).
Proof.
  revert names context. induction players as [|player players IH];
    intros names context Hnames.
  - cbn [for_each map foldl]. destruct context as [a n c b]. simpl in Hnames.
    subst n. reflexivity.
  - cbn [for_each map foldl].
    rewrite bind_run, get_bind_run, lift_bind_run, Hnames. cbn [attr].
    rewrite put_bind_run, lift_bind_run.
    replace (Formatter.format_d "Seat {seat_number:d}: {name} ({chips} in chips)"
               [("seat_number", Formatter.str_int (seat_number player + 1));
                ("name", name player);
                ("chips", Formatter.str_int (chips player))])
      with (Return ("Seat " +:+ Formatter.str_int (seat_number player + 1) +:+ ": "
                    +:+ name player +:+ " (" +:+ Formatter.str_int (chips player)
                    +:+ " in chips)"))
      by (symmetry; run_format; reflexivity).
    cbn [yield events_of context_of result_of fst snd].
    rewrite (IH (<[player_id player := name player]> names)) by reflexivity.
    reflexivity.
Qed.

(** A formatter with a site name and a date format turns the start of a
    hand of a known variant into the header and one line per player, in the
    order of the event, with the seat number plus one; it replaces the
    names of the context by those of the players of the event. A variant
    that is not known raises KeyError: no line, and the names of the
    context are kept. *)
Theorem hand_started_gives_the_header_and_the_seats
    (site date : string) (hand_id hand_timestamp : Z) (variant : string)
    (betting_structure : BettingStructure) (players : list Player)
    (context : Formatter.Context) :
  Formatter.site_name self = Some site ->
  Formatter.date_format self = Some date ->
  let run := Formatter.generate_from_event strftime Hand_repr self
               (Some (HandStarted hand_id hand_timestamp variant betting_structure
                        players)) context in
  (Formatter.VARIANT_MAP !! variant = None -> run = ([], context, Raise KeyError))
  /\ (forall variant_name, Formatter.VARIANT_MAP !! variant = Some variant_name ->
      run = ((site +:+ " Game #" +:+ Formatter.str_int hand_id +:+ ":  "
              +:+ variant_name +:+ " " +:+ limit betting_structure +:+ " ("
              +:+ Formatter.str_int (small_blind betting_structure) +:+ "/"
              +:+ Formatter.str_int (big_blind betting_structure) +:+ ") - "
              +:+ strftime date hand_timestamp +:+ " (UTC)")
             :: map (fun player =>
                       "Seat " +:+ Formatter.str_int (seat_number player + 1) +:+ ": "
                       +:+ name player +:+ " (" +:+ Formatter.str_int (chips player)
                       +:+ " in chips)") players,
             Formatter.set_player_names
               (foldl (fun names player => <[player_id player := name player]> names)
                      ∅ players) context,
             Return tt)).
Proof.
  intros Hsite Hdate run. subst run. rewrite format_event_dispatch.
  cbn [Formatter.handler_of]. unfold Formatter.handle_HandStarted.
  rewrite lift_bind_run, Hdate. cbn [attr]. rewrite lift_bind_run, Hsite.
  cbn [attr mbind outcome_bind]. unfold getitem. split.
  - intros ->. reflexivity.
  - intros variant_name ->. cbn [mbind outcome_bind].
    match goal with
    | |- context [Formatter.format_d ?t ?kwargs] =>
        replace (Formatter.format_d t kwargs)
          with (Return (site +:+ " Game #" +:+ Formatter.str_int hand_id +:+ ":  "
                        +:+ variant_name +:+ " " +:+ limit betting_structure +:+ " ("
                        +:+ Formatter.str_int (small_blind betting_structure) +:+ "/"
                        +:+ Formatter.str_int (big_blind betting_structure) +:+ ") - "
                        +:+ strftime date hand_timestamp +:+ " (UTC)"))
          by (symmetry;
              change ("{site_name} Game #{hand_id:d}:  {variant} {limit} "
                      +:+ "({small_blind}/{big_blind}) - {date} (UTC)")
                with ("{site_name} Game #{hand_id:d}:  {variant} {limit} "
                      ++ "({small_blind}/{big_blind}) - {date} (UTC)")%string;
              cbn [String.append];
              run_format; reflexivity)
    end.
    rewrite bind_run. cbn [yield events_of context_of result_of fst snd app].
    rewrite get_bind_run, put_bind_run.
    rewrite (seats_are_listed players ∅) by reflexivity.
    reflexivity.
Qed.

Hypothesis base_class : Formatter.class self = Formatter.HandHistoryGenerator.

(** In the base class the cards dealt to a player whose name is known are
    told and recorded in the context, and a player who mucks afterwards is
    told to muck, without the cards. A player who mucks and was dealt no
    cards raises KeyError when other players were, and AttributeError when
    nobody was. *)
Theorem dealt_cards_are_recorded_for_the_muck
    (player_id : Z) (cards mucked : list Card) (high_hand low_hand : option Hand)
    (names : gmap Z string) (player_name : string) (context : Formatter.Context) :
  Formatter.player_names context = Some names ->
  names !! player_id = Some player_name ->
  let format_event := Formatter.generate_from_event strftime Hand_repr self in
  let dealt := match Formatter.player_cards context with
               | Some dealt => dealt
               | None => ∅
               end in
  let context' := Formatter.set_player_cards (<[player_id := cards]> dealt) context in
  let muck := Some (PlayerMuckedHand player_id mucked high_hand low_hand) in
  format_event (Some (CardsDealtToPlayer player_id cards)) context
  = (["Dealt to " +:+ player_name +:+ " ["
      +:+ String.concat " "
            (map (fun card => rank_abbreviation (rank card)
                              +:+ suit_abbreviation (suit card)) cards)
      +:+ "]"],
     context', Return tt)
  /\ format_event muck context'
     = ([player_name +:+ ": mucks"
         +:+ match Formatter.all_in context with
             | Some true => " and is all-in"
             | _ => ""
             end],
        context', Return tt)
  /\ (Formatter.player_cards context = None ->
      format_event muck context = ([], context, Raise AttributeError))
  /\ (forall others, Formatter.player_cards context = Some others ->
      others !! player_id = None ->
      format_event muck context = ([], context, Raise KeyError)).
Proof.
  intros Hnames Hname format_event dealt context' muck.
  subst format_event dealt context' muck.
  rewrite !format_event_dispatch. cbn [Formatter.handler_of]. rewrite base_class.
  split; [|split; [|split]].
  - unfold Formatter.handle_CardsDealtToPlayer.
    rewrite get_bind_run, lift_bind_run, Hnames. cbn [attr mbind outcome_bind].
    unfold getitem. rewrite Hname. rewrite put_bind_run, lift_bind_run.
    rewrite cards_string_returns. cbn [mbind outcome_bind]. run_format.
    reflexivity.
  - unfold Formatter.handle_PlayerMuckedHand, Formatter.yield_player_action.
    rewrite !get_bind_run, lift_bind_run.
    cbn [Formatter.set_player_cards Formatter.player_cards attr mbind outcome_bind].
    unfold getitem. rewrite lookup_insert_eq. cbn [mbind outcome_bind].
    rewrite cards_string_returns. cbn [mbind outcome_bind].
    replace (format "mucks" _ _) with (Return "mucks") by reflexivity.
    cbn [mbind outcome_bind]. unfold Formatter.player_action.
    change (Formatter.player_names (Formatter.set_player_cards ?d ?c))
      with (Formatter.player_names c).
    change (Formatter.all_in (Formatter.set_player_cards ?d ?c))
      with (Formatter.all_in c).
    rewrite Hnames.
    cbn [attr mbind outcome_bind]. unfold getitem. rewrite Hname.
    cbn [mbind outcome_bind].
    replace (format "{0}: {1}" [player_name; "mucks"] [])
      with (Return (player_name +:+ ": mucks")) by (symmetry; run_format; reflexivity).
    cbn [mbind outcome_bind].
    destruct (Formatter.all_in context) as [[]|]; cbn [mret outcome_ret yield];
      rewrite ?append_nil_r, ?append_assoc; reflexivity.
  - intros Hnone.
    unfold Formatter.handle_PlayerMuckedHand, Formatter.yield_player_action.
    rewrite !get_bind_run, lift_bind_run, Hnone. reflexivity.
  - intros others Hothers Hnone.
    unfold Formatter.handle_PlayerMuckedHand, Formatter.yield_player_action.
    rewrite !get_bind_run, lift_bind_run, Hothers. cbn [attr mbind outcome_bind].
    unfold getitem. rewrite Hnone. reflexivity.
Qed.

End HandHistoryOfTheBaseClass.

Lemma hand_started_gives_the_header_and_the_seats_witness :
  Formatter.generate_from_event (fun _ _ => "2011/07/08 - 01:10:30") (fun _ => "")
    (Formatter.HandHistoryGenerator_init "Bitcoin Poker Room"
       Formatter.default_date_format)
    (Some (HandStarted 1 1310087430 "holdem" (Build_BettingStructure NO_LIMIT 10 25)
             [Build_Player 0 "Alice" 0 100; Build_Player 1 "Bob" 1 75]))
    Formatter.Context_new
  = (["Bitcoin Poker Room Game #1:  Hold'em No Limit (10/25) - 2011/07/08 - 01:10:30 (UTC)";
      "Seat 1: Alice (100 in chips)"; "Seat 2: Bob (75 in chips)"],
     Formatter.set_player_names (<[1 := "Bob"]> (<[0 := "Alice"]> ∅))
       Formatter.Context_new,
     Return tt).
Proof.
  refine (eq_trans
            (proj2 (hand_started_gives_the_header_and_the_seats
                      (fun _ _ => "2011/07/08 - 01:10:30") (fun _ => "")
                      (Formatter.HandHistoryGenerator_init "Bitcoin Poker Room"
                         Formatter.default_date_format)
                      "Bitcoin Poker Room" Formatter.default_date_format
                      1 1310087430 "holdem" (Build_BettingStructure NO_LIMIT 10 25)
                      [Build_Player 0 "Alice" 0 100; Build_Player 1 "Bob" 1 75]
                      Formatter.Context_new eq_refl eq_refl)
               "Hold'em" _) _).
  - vm_compute. reflexivity.
  - vm_compute. reflexivity.
Defined.

Lemma dealt_cards_are_recorded_for_the_muck_witness :
  Formatter.generate_from_event (fun _ _ => "") (fun _ => "")
    (Formatter.HandHistoryGenerator_init Formatter.default_site_name
       Formatter.default_date_format)
    (Some (CardsDealtToPlayer 1 [Downcard RankAce SuitClubs;
                                 Downcard RankKing SuitDiamonds]))
    (Formatter.set_player_names (<[1 := "Bob"]> ∅) Formatter.Context_new)
  = (["Dealt to Bob [Ac Kd]"],
     Formatter.set_player_cards
       (<[1 := [Downcard RankAce SuitClubs; Downcard RankKing SuitDiamonds]]> ∅)
       (Formatter.set_player_names (<[1 := "Bob"]> ∅) Formatter.Context_new),
     Return tt).
Proof.
  exact (proj1 (dealt_cards_are_recorded_for_the_muck
                  (fun _ _ => "") (fun _ => "")
                  (Formatter.HandHistoryGenerator_init Formatter.default_site_name
                     Formatter.default_date_format)
                  eq_refl 1
                  [Downcard RankAce SuitClubs; Downcard RankKing SuitDiamonds]
                  [] None None (<[1 := "Bob"]> ∅) "Bob"
                  (Formatter.set_player_names (<[1 := "Bob"]> ∅) Formatter.Context_new)
                  eq_refl eq_refl)).
Defined.

Section LinesOfAPlayer.

Variable strftime : string -> Z -> string.
Variable Hand_repr : Hand -> string.
Variable self : Formatter.formatter.

Lemma player_action_run (player_id : Z) (action : string) (context : Formatter.Context) :
  Formatter.player_action player_id action context
  = match Formatter.player_names context with
    | None => Raise AttributeError
    | Some names =>
        match names !! player_id with
        | None => Raise KeyError
        | Some player_name =>
            Return (player_name +:+ ": " +:+ action
                    +:+ match Formatter.all_in context with
                        | Some true => " and is all-in"
                        | _ => ""
                        end)
        end
    end.
Proof.
  unfold Formatter.player_action, getitem.
  destruct (Formatter.player_names context) as [names|]; [|reflexivity].
  cbn [attr mbind outcome_bind].
  destruct (names !! player_id) as [player_name|]; [|reflexivity].
  cbn [mbind outcome_bind].
  replace (format "{0}: {1}" [player_name; action] [])
    with (Return (player_name +:+ ": " +:+ action))
    by (symmetry; run_format; reflexivity).
  cbn [mbind outcome_bind].
  destruct (Formatter.all_in context) as [[]|]; cbn [mret outcome_ret];
    rewrite ?append_nil_r, ?append_assoc; reflexivity.
Qed.

Lemma yield_player_action_run (player_id : Z) (action : string)
    (context : Formatter.Context) :
  Formatter.yield_player_action player_id (Return action) context
  = match Formatter.player_action player_id action context with
    | Return line => ([line], context, Return tt)
    | Raise e => ([], context, Raise e)
    end.
Proof.
  unfold Formatter.yield_player_action. rewrite get_bind_run, lift_bind_run.
  cbn [mbind outcome_bind].
  destruct (Formatter.player_action player_id action context); reflexivity.
Qed.

(** The handler of each of these events, as the line of an action or of a
    sentence that names the player. *)
Lemma line_of_a_player (e : event) (player_id : Z) (context : Formatter.Context) :
  named_player e = Some player_id ->
  exists text : string -> string,
    Formatter.handler_of strftime Hand_repr self e context
    = match Formatter.player_names context with
      | None => ([], context, Raise AttributeError)
      | Some names =>
          match names !! player_id with
          | None => ([], context, Raise KeyError)
          | Some player_name => ([text player_name], context, Return tt)
          end
      end.
Proof.
  intros Hnamed.
  destruct e; try discriminate Hnamed; injection Hnamed as ->;
    cbn [Formatter.handler_of].
  all: try unfold Formatter.handle_PlayerPostedSmallBlind;
    try unfold Formatter.handle_PlayerPostedBigBlind;
    try unfold Formatter.handle_PlayerPostedBigAndSmallBlinds;
    try unfold Formatter.handle_PlayerPostedAnte;
    try unfold Formatter.handle_PlayerCalled;
    try unfold Formatter.handle_PlayerChecked;
    try unfold Formatter.handle_PlayerFolded;
    try unfold Formatter.handle_PlayerRaised.
  all: try match goal with
    | |- context [Formatter.yield_player_action ?p ?action] =>
        let line := fresh "line" in
        let Hline := fresh "Hline" in
        assert (exists line, action = Return line) as [line Hline]
          by (try destruct (_ =? _); eexists; run_format; reflexivity);
        exists (fun player_name =>
                  player_name +:+ ": " +:+ line
                  +:+ match Formatter.all_in context with
                      | Some true => " and is all-in"
                      | _ => ""
                      end);
        rewrite ?Hline, yield_player_action_run, player_action_run;
        destruct (Formatter.player_names context) as [names|]; [|reflexivity];
        destruct (names !! player_id); reflexivity
    end.
  - exists (fun player_name =>
              "Uncalled bet (" +:+ Formatter.str_int amount +:+ ") returned to "
              +:+ player_name).
    unfold Formatter.handle_UncalledBetReturnedToPlayer, getitem.
    rewrite get_bind_run, lift_bind_run.
    destruct (Formatter.player_names context) as [names|]; [|reflexivity].
    cbn [attr mbind outcome_bind].
    destruct (names !! player_id) as [player_name|]; [|reflexivity].
    run_format. reflexivity.
  - exists (fun player_name =>
              player_name +:+ " collected " +:+ Formatter.str_pyvalue amount
              +:+ " from side pot-" +:+ Formatter.str_int (side_pot_index + 1)).
    unfold Formatter.handle_PlayerCollectedFromSidePot, getitem.
    rewrite get_bind_run, lift_bind_run.
    destruct (Formatter.player_names context) as [names|]; [|reflexivity].
    cbn [attr mbind outcome_bind].
    destruct (names !! player_id) as [player_name|]; [|reflexivity].
    run_format. reflexivity.
  - exists (fun player_name =>
              player_name +:+ " collected " +:+ Formatter.str_pyvalue amount
              +:+ " from main pot").
    unfold Formatter.handle_PlayerCollectedFromMainPot, getitem.
    rewrite get_bind_run, lift_bind_run.
    destruct (Formatter.player_names context) as [names|]; [|reflexivity].
    cbn [attr mbind outcome_bind].
    destruct (names !! player_id) as [player_name|]; [|reflexivity].
    run_format. reflexivity.
Qed.

(** The events of a blind, an ante, a call, a check, a fold, a raise, a
    returned bet and a collected pot give one line when the context has the
    name of their player, and leave the context as it is. Without names in
    the context they raise AttributeError, and without the name of the
    player KeyError, with no line. A history of two events or more that
    starts with one of them raises AttributeError: the names come with the
    start of the hand. *)
Theorem lines_of_a_player_need_the_name
    (e : event) (player_id : Z) (context : Formatter.Context) :
  named_player e = Some player_id ->
  let run := Formatter.generate_from_event strftime Hand_repr self (Some e) context in
  (Formatter.player_names context = None -> run = ([], context, Raise AttributeError))
  /\ (forall names, Formatter.player_names context = Some names ->
        names !! player_id = None -> run = ([], context, Raise KeyError))
  /\ (forall names player_name, Formatter.player_names context = Some names ->
        names !! player_id = Some player_name ->
        exists line, run = ([line], context, Return tt))
  /\ (forall next_event events,
        Formatter.generate strftime Hand_repr self (e :: next_event :: events)
        = Raise AttributeError).
Proof.
  intros Hnamed run. subst run. rewrite format_event_dispatch.
  destruct (line_of_a_player e player_id context Hnamed) as [text ->].
  split; [|split; [|split]].
  - intros ->. reflexivity.
  - intros names -> ->. reflexivity.
  - intros names player_name -> ->. eexists. reflexivity.
  - intros next_event events. unfold Formatter.generate.
    erewrite do_generate_first_raises; [reflexivity|].
    rewrite format_event_dispatch.
    destruct (line_of_a_player e player_id
                (Formatter.set_all_in (Formatter.is_PlayerWentAllIn next_event)
                   Formatter.Context_new) Hnamed) as [text' ->].
    reflexivity.
Qed.

(** The amounts on the lines: a raise to the amount it raises by is told as
    a bet; a big and small blind is told by the sum of the two; a side pot
    is told by its index plus one; the amount of a collected pot is written
    as it is, a list of strings included. *)
Theorem amounts_are_told_as_the_events_carry_them
    (player_id : Z) (names : gmap Z string) (player_name : string)
    (context : Formatter.Context) :
  Formatter.player_names context = Some names ->
  names !! player_id = Some player_name ->
  let format_event := Formatter.generate_from_event strftime Hand_repr self in
  let mark := match Formatter.all_in context with
              | Some true => " and is all-in"
              | _ => ""
              end in
  (forall by_amount to_amount,
     format_event (Some (PlayerRaised player_id by_amount to_amount)) context
     = ([player_name +:+ ": "
         +:+ (if by_amount =? to_amount
              then "bets " +:+ Formatter.str_int by_amount
              else "raises " +:+ Formatter.str_int by_amount +:+ " to "
                   +:+ Formatter.str_int to_amount)
         +:+ mark], context, Return tt))
  /\ (forall big_blind_amount small_blind_amount,
        format_event (Some (PlayerPostedBigAndSmallBlinds player_id big_blind_amount
                              small_blind_amount)) context
        = ([player_name +:+ ": posts small & big blinds "
            +:+ Formatter.str_int (big_blind_amount + small_blind_amount) +:+ mark],
           context, Return tt))
  /\ (forall amount side_pot_index,
        format_event (Some (PlayerCollectedFromSidePot player_id amount side_pot_index))
          context
        = ([player_name +:+ " collected " +:+ Formatter.str_pyvalue amount
            +:+ " from side pot-" +:+ Formatter.str_int (side_pot_index + 1)],
           context, Return tt))
  /\ (forall amount,
        format_event (Some (PlayerCollectedFromMainPot player_id amount)) context
        = ([player_name +:+ " collected " +:+ Formatter.str_pyvalue amount
            +:+ " from main pot"], context, Return tt))
  /\ Formatter.str_pyvalue (StrList ["chips_left"]) = "['chips_left']".
Proof.
  intros Hnames Hname format_event mark. subst format_event mark.
  split; [|split; [|split; [|split; [|reflexivity]]]].
  - intros by_amount to_amount. rewrite format_event_dispatch.
    cbn [Formatter.handler_of]. unfold Formatter.handle_PlayerRaised.
    destruct (by_amount =? to_amount).
    + replace (format "bets {0}" [Formatter.str_int by_amount] [])
        with (Return ("bets " +:+ Formatter.str_int by_amount))
        by (symmetry; run_format; reflexivity).
      rewrite yield_player_action_run, player_action_run, Hnames, Hname. reflexivity.
    + replace (format "raises {0} to {1}"
                 [Formatter.str_int by_amount; Formatter.str_int to_amount] [])
        with (Return ("raises " +:+ Formatter.str_int by_amount +:+ " to "
                      +:+ Formatter.str_int to_amount))
        by (symmetry; run_format; reflexivity).
      rewrite yield_player_action_run, player_action_run, Hnames, Hname. reflexivity.
  - intros big_blind_amount small_blind_amount. rewrite format_event_dispatch.
    cbn [Formatter.handler_of]. unfold Formatter.handle_PlayerPostedBigAndSmallBlinds.
    replace (format "posts small & big blinds {0}"
               [Formatter.str_int (big_blind_amount + small_blind_amount)] [])
      with (Return ("posts small & big blinds "
                    +:+ Formatter.str_int (big_blind_amount + small_blind_amount)))
      by (symmetry; run_format; reflexivity).
    rewrite yield_player_action_run, player_action_run, Hnames, Hname. reflexivity.
  - intros amount side_pot_index. rewrite format_event_dispatch.
    cbn [Formatter.handler_of].
    unfold Formatter.handle_PlayerCollectedFromSidePot, getitem.
    rewrite get_bind_run, lift_bind_run, Hnames. cbn [attr mbind outcome_bind].
    rewrite Hname. run_format. reflexivity.
  - intros amount. rewrite format_event_dispatch. cbn [Formatter.handler_of].
    unfold Formatter.handle_PlayerCollectedFromMainPot, getitem.
    rewrite get_bind_run, lift_bind_run, Hnames. cbn [attr mbind outcome_bind].
    rewrite Hname. run_format. reflexivity.
Qed.

End LinesOfAPlayer.

Lemma lines_of_a_player_need_the_name_witness :
  Formatter.generate (fun _ _ => "") (fun _ => "")
    (Formatter.HandHistoryGenerator_init Formatter.default_site_name
       Formatter.default_date_format)
    [PlayerCalled 1 10; PlayerFolded 2]
  = Raise AttributeError.
Proof.
  apply (lines_of_a_player_need_the_name (fun _ _ => "") (fun _ => "")
           (Formatter.HandHistoryGenerator_init Formatter.default_site_name
              Formatter.default_date_format)
           (PlayerCalled 1 10) 1 Formatter.Context_new eq_refl).
Defined.

Lemma amounts_are_told_as_the_events_carry_them_witness :
  Formatter.generate_from_event (fun _ _ => "") (fun _ => "")
    (Formatter.HandHistoryGenerator_init Formatter.default_site_name
       Formatter.default_date_format)
    (Some (PlayerRaised 1 10 10))
    (Formatter.set_player_names (<[1 := "Bob"]> ∅) Formatter.Context_new)
  = (["Bob: bets 10"],
     Formatter.set_player_names (<[1 := "Bob"]> ∅) Formatter.Context_new, Return tt).
Proof.
  refine (eq_trans
            (proj1 (amounts_are_told_as_the_events_carry_them
                      (fun _ _ => "") (fun _ => "")
                      (Formatter.HandHistoryGenerator_init Formatter.default_site_name
                         Formatter.default_date_format)
                      1 (<[1 := "Bob"]> ∅) "Bob"
                      (Formatter.set_player_names (<[1 := "Bob"]> ∅)
                         Formatter.Context_new)
                      eq_refl eq_refl) 10 10) _).
  vm_compute. reflexivity.
Defined.

Section ShownHands.

Variable strftime : string -> Z -> string.
Variable Hand_repr : Hand -> string.
Variable self : Formatter.formatter.

Lemma hand_without_description (hand : Hand) :
  class_of hand = FullHouse \/ class_of hand = ThreeOfAKind ->
  Formatter.Hand_str Hand_repr hand = Raise IndexError.
Proof.
  intros Hclass. unfold Formatter.Hand_str, hand_str.
  destruct Hclass as [-> | ->].
  - unfold FullHouse_str.
    destruct (card_rank_name_cases hand 0) as [-> | (c0 & _ & ->)]; [reflexivity|].
    destruct (card_rank_name_cases hand 3) as [-> | (c3 & _ & ->)]; reflexivity.
  - unfold ThreeOfAKind_str.
    destruct (card_rank_name_cases hand 0) as [-> | (c0 & _ & ->)]; reflexivity.
Qed.

(** A player who shows a full house or three of a kind cannot be told: the
    description of the hand raises IndexError before the name of the player
    is read, whatever the context. A high hand with a description is told
    after the cards, with the low hand when there is one. *)
Theorem shown_hand_is_told_with_its_description
    (player_id : Z) (cards : list Card) (high_hand : Hand)
    (context : Formatter.Context) :
  let format_event := Formatter.generate_from_event strftime Hand_repr self in
  let written :=
    "[" +:+ String.concat " "
              (map (fun card => rank_abbreviation (rank card)
                                +:+ suit_abbreviation (suit card)) cards)
    +:+ "]" in
  let mark := match Formatter.all_in context with
              | Some true => " and is all-in"
              | _ => ""
              end in
  (class_of high_hand = FullHouse \/ class_of high_hand = ThreeOfAKind ->
   forall low_hand,
     format_event (Some (PlayerShowedHand player_id cards (Some high_hand) low_hand))
       context
     = ([], context, Raise IndexError))
  /\ (forall names player_name high,
        Formatter.player_names context = Some names ->
        names !! player_id = Some player_name ->
        hand_str high_hand = Some (Return high) ->
        format_event (Some (PlayerShowedHand player_id cards (Some high_hand) None))
          context
        = ([player_name +:+ ": shows " +:+ written +:+ " (" +:+ high +:+ ")" +:+ mark],
           context, Return tt)
        /\ forall low_hand low,
             hand_str low_hand = Some (Return low) ->
             format_event
               (Some (PlayerShowedHand player_id cards (Some high_hand) (Some low_hand)))
               context
             = ([player_name +:+ ": shows " +:+ written +:+ " (HI: " +:+ high
                 +:+ "; LO: " +:+ low +:+ ")" +:+ mark],
                context, Return tt)).
Proof.
  intros format_event written mark. subst format_event written mark. split.
  - intros Hclass low_hand. rewrite format_event_dispatch.
    cbn [Formatter.handler_of].
    unfold Formatter.handle_PlayerShowedHand, Formatter.yield_player_action.
    rewrite get_bind_run, lift_bind_run, cards_string_returns.
    cbn [mbind outcome_bind]. unfold Formatter.hand_description.
    rewrite (hand_without_description high_hand Hclass).
    destruct low_hand; reflexivity.
  - intros names player_name high Hnames Hname Hhigh. split.
    + rewrite format_event_dispatch. cbn [Formatter.handler_of].
      unfold Formatter.handle_PlayerShowedHand.
      rewrite cards_string_returns. cbn [mbind outcome_bind].
      unfold Formatter.hand_description, Formatter.Hand_str. rewrite Hhigh.
      cbn [mbind outcome_bind].
      match goal with
      | |- context [format ?t ?args []] =>
          replace (format t args [])
            with (Return ("shows " +:+ "["
                          +:+ String.concat " "
                                (map (fun card => rank_abbreviation (rank card)
                                                  +:+ suit_abbreviation (suit card))
                                     cards)
                          +:+ "]" +:+ " (" +:+ high +:+ ")"))
            by (symmetry; run_format; rewrite ?append_assoc; reflexivity)
      end.
      rewrite yield_player_action_run, player_action_run, Hnames, Hname.
      rewrite ?append_assoc. reflexivity.
    + intros low_hand low Hlow.
      rewrite format_event_dispatch. cbn [Formatter.handler_of].
      unfold Formatter.handle_PlayerShowedHand.
      rewrite cards_string_returns. cbn [mbind outcome_bind].
      unfold Formatter.hand_description, Formatter.Hand_str. rewrite Hhigh, Hlow.
      cbn [mbind outcome_bind].
      replace (format "HI: {0}; LO: {1}" [high; low] [])
        with (Return ("HI: " +:+ high +:+ "; LO: " +:+ low))
        by (symmetry; run_format; reflexivity).
      cbn [mbind outcome_bind].
      match goal with
      | |- context [format ?t ?args []] =>
          replace (format t args [])
            with (Return ("shows " +:+ "["
                          +:+ String.concat " "
                                (map (fun card => rank_abbreviation (rank card)
                                                  +:+ suit_abbreviation (suit card))
                                     cards)
                          +:+ "]" +:+ " (" +:+ "HI: " +:+ high +:+ "; LO: " +:+ low
                          +:+ ")"))
            by (symmetry; run_format; rewrite ?append_assoc; reflexivity)
      end.
      rewrite yield_player_action_run, player_action_run, Hnames, Hname.
      rewrite ?append_assoc. reflexivity.
Qed.

End ShownHands.

(** ** From the engine's event to the lines *)

Section StartOfAHandToldThrough.

Context {pokercards pokereval_hand : Type}.
Variable self : @GenericPokerEventGenerator pokercards pokereval_hand.
Variable strftime : string -> Z -> string.
Variable Hand_repr : Hand -> string.
Variable formatter : Formatter.formatter.

Lemma names_of_seated_players (names : gmap Z string) (seated : list Player)
    (recorded : gmap Z string) :
  (forall player, player ∈ seated -> names !! player_id player = Some (name player)) ->
  forall p,
    foldl (fun names player => <[player_id player := name player]> names)
          recorded seated !! p
    = if decide (p ∈ map player_id seated) then names !! p else recorded !! p.
Proof.
  revert recorded. induction seated as [|player seated IH]; intros recorded Hnames p.
  - cbn [foldl map]. destruct (decide (p ∈ [])) as [Hin|_]; [|reflexivity].
    apply elem_of_nil in Hin as [].
  - cbn [foldl map]. rewrite IH by (intros q Hq; apply Hnames; right; exact Hq).
    destruct (decide (p ∈ map player_id seated)) as [Hin|Hout].
    + rewrite decide_True by (right; exact Hin). reflexivity.
    + destruct (decide (p = player_id player)) as [->|Hother].
      * rewrite decide_True by left. rewrite lookup_insert_eq.
        symmetry. apply Hnames. left.
      * rewrite lookup_insert_ne by congruence.
        rewrite decide_False; [reflexivity|].
        intros Hin. apply elem_of_cons in Hin as [?|?]; [congruence|contradiction].
Qed.

(** The start of a hand, from the engine's event to the lines. When the
    context of the hand has the timestamp and a name for every player of a
    Game event, the event has chips for each of them, the betting structure
    parses and the variant is known, the event gives one narrative event,
    which the formatter turns into the header and one line per player of
    the event, in order: the seat is the position in the event counted from
    one, the name is the one of the context and the chips are the ones of
    the event. The names that the formatter keeps for the later lines are
    those of the context, for the players of the event and for no others. *)
Theorem game_event_is_told_with_the_names_of_the_context
    (level hand_id hands_count timestamp button_seat now : Z)
    (variant betting_structure variant_name site date : string)
    (players : list Z) (player_chips : gmap Z Z) (names : gmap Z string)
    (structure : BettingStructure) (context : Context)
    (told : Formatter.Context) :
  player_names context = Some names ->
  hand_timestamp context = Some now ->
  (forall p, p ∈ players -> is_Some (names !! p) /\ is_Some (player_chips !! p)) ->
  parse_betting_structure betting_structure = Return structure ->
  Formatter.site_name formatter = Some site ->
  Formatter.date_format formatter = Some date ->
  Formatter.VARIANT_MAP !! variant = Some variant_name ->
  exists started header lines told_names,
    events_of (GenericPokerEventGenerator_generate_from_event self
                 (Engine (GameEvent level hand_id hands_count timestamp variant
                            betting_structure players button_seat player_chips))
                 context)
    = [started]
    /\ Formatter.generate_from_event strftime Hand_repr formatter (Some started) told
       = (header :: lines, Formatter.set_player_names told_names told, Return tt)
    /\ length lines = length players
    /\ (forall i p, players !! i = Some p ->
          exists player_name chips,
            names !! p = Some player_name /\ player_chips !! p = Some chips
            /\ lines !! i
               = Some ("Seat " +:+ Formatter.str_int (Z.of_nat i + 1) +:+ ": "
                       +:+ player_name +:+ " (" +:+ Formatter.str_int chips
                       +:+ " in chips)"))
    /\ (forall p, told_names !! p = if decide (p ∈ players) then names !! p else None).
Proof.
  intros Hnames Hnow Hknown Hparse Hsite Hdate Hvariant.
  destruct (seat_players names player_chips players 0 Hknown)
    as (seated & Hseated & Hlength & Hseats).
  assert (Hids : map player_id seated = players).
  { apply list_eq. intros i. rewrite list_lookup_fmap.
    destruct (players !! i) as [p|] eqn:Hp.
    - destruct (Hseats i p Hp) as (player_name & chips & _ & _ & ->). reflexivity.
    - apply lookup_ge_None in Hp. rewrite lookup_ge_None_2 by lia. reflexivity. }
  assert (Hseated_names : forall player, player ∈ seated ->
            names !! player_id player = Some (name player)).
  { intros player Hplayer. apply list_elem_of_lookup in Hplayer as [i Hi].
    destruct (players !! i) as [p|] eqn:Hp.
    - destruct (Hseats i p Hp) as (player_name & chips & Hname & _ & Hseat).
      rewrite Hseat in Hi. injection Hi as <-. exact Hname.
    - apply lookup_ge_None in Hp. apply lookup_lt_Some in Hi. lia. }
  exists (HandStarted hand_id now variant structure seated).
  exists (site +:+ " Game #" +:+ Formatter.str_int hand_id +:+ ":  "
          +:+ variant_name +:+ " " +:+ limit structure +:+ " ("
          +:+ Formatter.str_int (small_blind structure) +:+ "/"
          +:+ Formatter.str_int (big_blind structure) +:+ ") - "
          +:+ strftime date now +:+ " (UTC)").
  exists (map (fun player =>
                 "Seat " +:+ Formatter.str_int (seat_number player + 1) +:+ ": "
                 +:+ name player +:+ " (" +:+ Formatter.str_int (chips player)
                 +:+ " in chips)") seated).
  exists (foldl (fun names player => <[player_id player := name player]> names)
                ∅ seated).
  split; [|split; [|split; [|split]]].
  - rewrite generate_from_engine_event. simpl handler_of.
    unfold handle_GameEvent. rewrite bind_run. simpl.
    rewrite bind_run. unfold lift at 1. rewrite Hnames, Hseated. simpl.
    rewrite bind_run. unfold lift at 1. rewrite Hparse. simpl.
    rewrite Hnow. reflexivity.
  - rewrite format_event_dispatch.
    cbn [Formatter.handler_of]. unfold Formatter.handle_HandStarted.
    rewrite lift_bind_run, Hdate. cbn [attr]. rewrite lift_bind_run, Hsite.
    cbn [attr mbind outcome_bind]. unfold getitem. rewrite Hvariant.
    cbn [mbind outcome_bind].
    match goal with
    | |- context [Formatter.format_d ?t ?kwargs] =>
        replace (Formatter.format_d t kwargs)
          with (Return (site +:+ " Game #" +:+ Formatter.str_int hand_id +:+ ":  "
                        +:+ variant_name +:+ " " +:+ limit structure +:+ " ("
                        +:+ Formatter.str_int (small_blind structure) +:+ "/"
                        +:+ Formatter.str_int (big_blind structure) +:+ ") - "
                        +:+ strftime date now +:+ " (UTC)"))
          by (symmetry;
              change ("{site_name} Game #{hand_id:d}:  {variant} {limit} "
                      +:+ "({small_blind}/{big_blind}) - {date} (UTC)")
                with ("{site_name} Game #{hand_id:d}:  {variant} {limit} "
                      ++ "({small_blind}/{big_blind}) - {date} (UTC)")%string;
              cbn [String.append];
              run_format; reflexivity)
    end.
    rewrite bind_run. cbn [yield events_of context_of result_of fst snd app].
    rewrite get_bind_run, put_bind_run.
    rewrite (seats_are_listed seated ∅) by reflexivity.
    reflexivity.
  - rewrite length_map. exact Hlength.
  - intros i p Hp.
    destruct (Hseats i p Hp) as (player_name & chips & Hname & Hchips & Hseat).
    exists player_name, chips. split; [exact Hname|]. split; [exact Hchips|].
    rewrite list_lookup_fmap, Hseat. cbn. rewrite Z.add_0_l. reflexivity.
  - intros p.
    rewrite (names_of_seated_players names seated ∅ Hseated_names p), Hids.
    destruct (decide (p ∈ players)); [reflexivity|apply lookup_empty].
Qed.

End StartOfAHandToldThrough.

Lemma game_event_is_told_with_the_names_of_the_context_witness :
  exists started header lines told_names,
    events_of (GenericPokerEventGenerator_generate_from_event identity_generator
                 (Engine (GameEvent 0 7 1 0 "holdem" "1-2-no-limit" [22; 23] 0
                            (<[23 := 2000]> (<[22 := 1000]> ∅))))
                 (Build_Context (Some (<[23 := "bob"]> (<[22 := "alice"]> ∅)))
                    (Some 1300000000) None None None))
    = [started]
    /\ Formatter.generate_from_event (fun _ _ => "") (fun _ => "")
         (Formatter.HandHistoryGenerator_init Formatter.default_site_name
            Formatter.default_date_format)
         (Some started) Formatter.Context_new
       = (header :: lines,
          Formatter.set_player_names told_names Formatter.Context_new, Return tt)
    /\ length lines = 2%nat
    /\ told_names !! 22 = Some "alice".
Proof.
  destruct (game_event_is_told_with_the_names_of_the_context identity_generator
              (fun _ _ => "") (fun _ => "")
              (Formatter.HandHistoryGenerator_init Formatter.default_site_name
                 Formatter.default_date_format)
              0 7 1 0 0 1300000000 "holdem" "1-2-no-limit" "Hold'em"
              Formatter.default_site_name Formatter.default_date_format
              [22; 23] (<[23 := 2000]> (<[22 := 1000]> ∅))
              (<[23 := "bob"]> (<[22 := "alice"]> ∅))
              (Build_BettingStructure NO_LIMIT 100 200)
              (Build_Context (Some (<[23 := "bob"]> (<[22 := "alice"]> ∅)))
                 (Some 1300000000) None None None)
              Formatter.Context_new eq_refl eq_refl)
    as (started & header & lines & told_names & Hevent & Hlines & Hlength & _ & Htold).
  - intros p Hp.
    apply elem_of_cons in Hp as [->|Hp]; [|apply elem_of_cons in Hp as [->|Hp]];
      [| |apply elem_of_nil in Hp as []];
      split; eexists; vm_compute; reflexivity.
  - vm_compute. reflexivity.
  - reflexivity.
  - reflexivity.
  - reflexivity.
  - exists started, header, lines, told_names.
    split; [exact Hevent|]. split; [exact Hlines|]. split; [exact Hlength|].
    rewrite Htold. reflexivity.
Defined.

Section HandWonWithoutShowdown.

Context {pokercards pokereval_hand : Type}.
Variable self : @GenericPokerEventGenerator pokercards pokereval_hand.
Variable strftime : string -> Z -> string.
Variable Hand_repr : Hand -> string.
Variable formatter : Formatter.formatter.

(** A history of two events or more, each of which gives its lines
    whatever [all_in] is and leaves the context as it is. *)
Lemma do_generate_lines (lines_of : event -> list string)
    (first_event next_event : event) (events : list event)
    (told : Formatter.Context) :
  (forall e all_in, e ∈ first_event :: next_event :: events ->
     Formatter.generate_from_event strftime Hand_repr formatter (Some e)
       (Formatter.set_all_in all_in told)
     = (lines_of e, Formatter.set_all_in all_in told, Return tt)) ->
  Formatter.do_generate strftime Hand_repr formatter
    (first_event :: next_event :: events) told
  = (concat (map lines_of (first_event :: next_event :: events)),
     Formatter.set_all_in false told, Return tt).
Proof.
  revert first_event next_event told.
  induction events as [|next_event' events IH];
    intros first_event next_event told Hlines.
  - destruct (do_generate_starts strftime Hand_repr formatter first_event next_event []
                told) as (rest & -> & Hrest).
    rewrite bind_run, (Hlines first_event) by left.
    unfold events_of, context_of, result_of. cbn [fst snd].
    rewrite Hrest.
    change (Formatter.set_all_in false (Formatter.set_all_in ?b told))
      with (Formatter.set_all_in false told).
    rewrite (Hlines next_event) by (right; left).
    cbn [map concat fst snd]. rewrite app_nil_r. reflexivity.
  - destruct (do_generate_starts strftime Hand_repr formatter first_event next_event
                (next_event' :: events) told) as (rest & -> & Hrest).
    rewrite bind_run, (Hlines first_event) by left.
    unfold events_of, context_of, result_of. cbn [fst snd].
    rewrite Hrest, IH.
    + reflexivity.
    + intros e all_in He.
      change (Formatter.set_all_in all_in (Formatter.set_all_in ?b told))
        with (Formatter.set_all_in all_in told).
      apply Hlines. right. exact He.
Qed.

Lemma end_event_of_one_pot winners' (best : option (dict Z (dict string pokereval_hand)))
    (declared_pot : list Z) (rake : dict Z Z) (pot : ResolvedPot) context :
  best = None \/ best = Some [] ->
  handle_EndEvent self winners'
    [game_state_entry best [declared_pot] rake;
     resolve_entry (eligible_players pot) (pot_amount pot) (winners pot)] context
  = (map (fun '(player_id, amount) => PlayerCollectedFromMainPot player_id (Int amount))
         (winners pot)
     ++ [HandEnded [pot] (dict_of_items rake)],
     context, Return tt).
Proof.
  intros Hbest.
  assert (Hnone : exists best_hands,
            get_best_hands self (game_state_entry best [declared_pot] rake)
            = Return best_hands
            /\ truthy best_hands = None).
  { destruct Hbest as [->| ->]; eexists; split; reflexivity. }
  destruct Hnone as (best_hands & Hreturns & Hnone).
  rewrite handle_EndEvent_run, Hreturns.
  change (declared_pots (game_state_entry best [declared_pot] rake))
    with (Some [declared_pot]).
  change (serial2rake (game_state_entry best [declared_pot] rake)) with (Some rake).
  change [resolve_entry (eligible_players pot) (pot_amount pot) (winners pot)]
    with (map (fun p => resolve_entry (pokereval_hand := pokereval_hand)
                          (eligible_players p) (pot_amount p) (winners p)) [pot]).
  cbv beta iota zeta.
  rewrite (resolve_loop_without_showdown _ _ [pot] [] _ _ Hnone).
  unfold events_of, result_of. cbn [fst snd imap concat length reverse rev_append app].
  rewrite !app_nil_r. reflexivity.
Qed.

(** A hand won without showdown, with one pot, from the engine's End event
    to the lines. The event gives one "collected" event per winner and the
    end of the hand; when the formatter knows the names of the winners,
    the history of these events is one line per winner, in the order of the
    shares, that tells the amount collected from the main pot, then the
    summary with the pot as total and as main pot and the sum of the rake,
    then the board when a flop was dealt. *)
Theorem hand_won_without_showdown_is_told
    winners' (best : option (dict Z (dict string pokereval_hand)))
    (declared_pot : list Z) (rake : dict Z Z) (pot : ResolvedPot)
    (names : gmap Z string) (context : Context) (told : Formatter.Context) :
  best = None \/ best = Some [] ->
  winners pot <> [] ->
  Formatter.player_names told = Some names ->
  (forall player_id amount, (player_id, amount) ∈ winners pot ->
     is_Some (names !! player_id)) ->
  let events :=
    events_of
      (GenericPokerEventGenerator_generate_from_event self
         (Engine (EndEvent winners'
                    [game_state_entry best [declared_pot] rake;
                     resolve_entry (eligible_players pot) (pot_amount pot)
                       (winners pot)]))
         context) in
  Formatter.do_generate strftime Hand_repr formatter events told
  = (map (fun '(player_id, amount) =>
            default "" (names !! player_id) +:+ " collected "
            +:+ Formatter.str_int amount +:+ " from main pot")
         (winners pot)
     ++ "*** SUMMARY ***"
        :: ("Total pot " +:+ Formatter.str_int (pot_amount pot)
            +:+ " Main pot " +:+ Formatter.str_int (pot_amount pot)
            +:+ ". | Rake "
            +:+ Formatter.str_int
                  (Formatter.sum (map snd (map_to_list (dict_of_items rake)))))
        :: match Formatter.community_cards told with
           | Some board =>
               ["Board [" +:+ String.concat " "
                                (map (fun card => rank_abbreviation (rank card)
                                                  +:+ suit_abbreviation (suit card))
                                     board)
                +:+ "]"]
           | None => []
           end,
     Formatter.set_all_in false told, Return tt).
Proof.
  intros Hbest Hwinners Hnames Hknown events. subst events.
  rewrite generate_from_engine_event. simpl handler_of.
  rewrite (end_event_of_one_pot _ _ _ _ _ _ Hbest).
  unfold events_of. cbn [fst].
  pose (lines_of := fun e : event =>
    match e with
    | PlayerCollectedFromMainPot player_id (Int amount) =>
        [default "" (names !! player_id) +:+ " collected "
         +:+ Formatter.str_int amount +:+ " from main pot"]
    | HandEnded _ _ =>
        "*** SUMMARY ***"
        :: ("Total pot " +:+ Formatter.str_int (pot_amount pot)
            +:+ " Main pot " +:+ Formatter.str_int (pot_amount pot)
            +:+ ". | Rake "
            +:+ Formatter.str_int
                  (Formatter.sum (map snd (map_to_list (dict_of_items rake)))))
        :: match Formatter.community_cards told with
           | Some board =>
               ["Board [" +:+ String.concat " "
                                (map (fun card => rank_abbreviation (rank card)
                                                  +:+ suit_abbreviation (suit card))
                                     board)
                +:+ "]"]
           | None => []
           end
    | _ => []
    end).
  assert (Hlines : forall e all_in,
    e ∈ map (fun '(player_id, amount) => PlayerCollectedFromMainPot player_id (Int amount))
            (winners pot)
        ++ [HandEnded [pot] (dict_of_items rake)] ->
    Formatter.generate_from_event strftime Hand_repr formatter (Some e)
      (Formatter.set_all_in all_in told)
    = (lines_of e, Formatter.set_all_in all_in told, Return tt)).
  { intros e all_in He. rewrite format_event_dispatch.
    apply elem_of_app in He as [He|He].
    - apply list_elem_of_fmap in He as ([player_id amount] & -> & Hshare).
      destruct (Hknown player_id amount Hshare) as [player_name Hname].
      cbn [Formatter.handler_of lines_of].
      unfold Formatter.handle_PlayerCollectedFromMainPot, getitem.
      rewrite get_bind_run, lift_bind_run.
      change (Formatter.player_names (Formatter.set_all_in all_in told))
        with (Formatter.player_names told).
      rewrite Hnames. cbn [attr mbind outcome_bind]. rewrite Hname.
      run_format. reflexivity.
    - apply list_elem_of_singleton in He as ->.
      cbn [Formatter.handler_of lines_of]. unfold Formatter.handle_HandEnded.
      rewrite bind_run. cbn [yield events_of context_of result_of fst snd app].
      rewrite lift_bind_run.
      replace (Formatter._pot_summary [pot] (dict_of_items rake))
        with (Return ("Total pot " +:+ Formatter.str_int (pot_amount pot)
                      +:+ " Main pot " +:+ Formatter.str_int (pot_amount pot)
                      +:+ ". | Rake "
                      +:+ Formatter.str_int
                            (Formatter.sum
                               (map snd (map_to_list (dict_of_items rake))))))
        by (symmetry; unfold Formatter._pot_summary, Formatter.sum;
            cbn [map foldl list_getitem lookup list_lookup mbind outcome_bind drop
                 enumerate];
            rewrite Z.add_0_l; run_format;
            repeat first [rewrite append_cons | rewrite append_assoc
                         | rewrite append_nil];
            reflexivity).
      rewrite bind_run. cbn [yield events_of context_of result_of fst snd app].
      rewrite get_bind_run.
      change (Formatter.community_cards (Formatter.set_all_in all_in told))
        with (Formatter.community_cards told).
      destruct (Formatter.community_cards told) as [board|]; [|reflexivity].
      rewrite cards_string_returns. cbn [mbind outcome_bind].
      rewrite lift_bind_run. run_format. reflexivity. }
  destruct (winners pot) as [|[player_id amount] shares] eqn:Hshares; [congruence|].
  assert (Hconcat : forall l : list (Z * Z),
    concat (map lines_of
              (map (fun '(player_id, amount) =>
                      PlayerCollectedFromMainPot player_id (Int amount)) l
               ++ [HandEnded [pot] (dict_of_items rake)]))
    = map (fun '(player_id, amount) =>
             default "" (names !! player_id) +:+ " collected "
             +:+ Formatter.str_int amount +:+ " from main pot") l
      ++ lines_of (HandEnded [pot] (dict_of_items rake))).
  { induction l as [|[p a] l IH]; [cbn; rewrite app_nil_r; reflexivity|].
    cbn [map app concat]. rewrite IH. reflexivity. }
  destruct shares as [|share shares].
  - cbn [map app].
    rewrite (do_generate_lines lines_of _ _ [] told) by exact Hlines.
    cbn [map concat app]. rewrite app_nil_r. reflexivity.
  - change (map ?f ((player_id, amount) :: share :: shares) ++ ?l)
      with (f (player_id, amount) :: f share :: (map f shares ++ l)).
    rewrite (do_generate_lines lines_of _ _ _ told) by exact Hlines.
    f_equal. f_equal.
    change (?f (player_id, amount) :: ?f share :: (map ?f shares ++ ?l))
      with (map f ((player_id, amount) :: share :: shares) ++ l).
    apply (Hconcat ((player_id, amount) :: share :: shares)).
Qed.

End HandWonWithoutShowdown.

Lemma hand_won_without_showdown_is_told_witness :
  Formatter.do_generate (fun _ _ => "") (fun _ => "")
    (Formatter.HandHistoryGenerator_init Formatter.default_site_name
       Formatter.default_date_format)
    (events_of
       (GenericPokerEventGenerator_generate_from_event identity_generator
          (Engine (EndEvent [23]
                     [game_state_entry None [[37; 37]] [(23, 2)];
                      resolve_entry [23] 37 [(23, 35)]]))
          Context_new))
    (Formatter.set_player_names (<[23 := "bob"]> ∅) Formatter.Context_new)
  = (["bob collected 35 from main pot"; "*** SUMMARY ***";
      "Total pot 37 Main pot 37. | Rake 2"],
     Formatter.set_all_in false
       (Formatter.set_player_names (<[23 := "bob"]> ∅) Formatter.Context_new),
     Return tt).
Proof.
  refine (eq_trans
            (hand_won_without_showdown_is_told identity_generator
               (fun _ _ => "") (fun _ => "")
               (Formatter.HandHistoryGenerator_init Formatter.default_site_name
                  Formatter.default_date_format)
               [23] None [37; 37] [(23, 2)] (Build_ResolvedPot 37 [23] [(23, 35)])
               (<[23 := "bob"]> ∅) Context_new
               (Formatter.set_player_names (<[23 := "bob"]> ∅) Formatter.Context_new)
               (or_introl eq_refl) _ eq_refl _) _).
  - discriminate.
  - intros player_id amount Hshare.
    apply list_elem_of_singleton in Hshare. injection Hshare as -> ->.
    eexists. vm_compute. reflexivity.
  - vm_compute. reflexivity.
Defined.
